(** * ETL pipelines ex3 / ex5 / ex6: a shallow embedding and its properties

    The Python sources are pandas programs.  A DataFrame is modelled as the
    list of its rows in index order, a row as a record of cells, and every
    column-wise statement of the source (a mask, a boolean filter, an
    assignment to a column) as the corresponding pass over that list.
    Frames come from [read_csv] and boolean masks, so index labels are
    unique and label-based selection ([idxmax], [.loc]) coincides with
    positional selection.

    - Calls to [logging] and the helper columns that only feed them
      ([price_raw], [quantity_raw]) leave the data alone and are left out.
    - What pandas and Python compute from text (number and date parsing,
      the text of a number, the e-mail pattern) is a parameter of the
      model, the class [Externals]; every statement holds for each choice.
    - A text is the string of its code points, and the model holds the
      code points below 256.
    - The MariaDB sink is a record of its tables: the state table as a
      finite map from [pipeline_name] to its row, the sales table as the
      list of its rows.  The clock is an input of each run.
    - The network is a function from the number of a request to its
      outcome, and the fetcher returns its frame together with the
      requests it issued and the waits it made.

    Part one holds the definitions, in the order of the sources; part two
    the properties. *)

From Stdlib Require Import ZArith QArith Qcanon Lia Ascii String List Permutation.
From stdpp Require Import base gmap sets list strings sorting.

Open Scope string_scope.
Open Scope list_scope.
Open Scope nat_scope.

(** ** Calendar dates and the [%Y-%m-%d] rendering *)

Module Iso.

Record date := Date { year : N; month : N; day : N }.

Definition date_compare (a b : date) : comparison :=
  match N.compare (year a) (year b) with
  | Eq => match N.compare (month a) (month b) with
          | Eq => N.compare (day a) (day b)
          | c => c
          end
  | c => c
  end.

(** Timestamp comparison [a > b], [a <= b]. *)
Definition date_ltb (a b : date) : bool :=
  match date_compare a b with Lt => true | _ => false end.
Definition date_leb (a b : date) : bool :=
  match date_compare a b with Gt => false | _ => true end.

Definition date_le (a b : date) : Prop := date_leb a b = true.

(** The Gregorian calendar of [datetime] and of pandas. *)
Definition is_leap (y : N) : bool :=
  ((y mod 4 =? 0) && (negb (y mod 100 =? 0) || (y mod 400 =? 0)))%N.

Definition days_in_month (y m : N) : N :=
  (if m =? 2 then (if is_leap y then 29 else 28)
   else if (m =? 4) || (m =? 6) || (m =? 9) || (m =? 11) then 30
   else 31)%N.

(** The first and the last day whose midnight a nanosecond Timestamp
    holds: [pd.Timestamp.min] is 1677-09-21 00:12:43.145224193 and
    [pd.Timestamp.max] is 2262-04-11 23:47:16.854775807. *)
Definition Timestamp_min : date := Date 1677 9 22.
Definition Timestamp_max : date := Date 2262 4 11.

(** The days whose midnight is a Timestamp: the days of the calendar
    from [Timestamp_min] to [Timestamp_max].  On any other
    [YYYY-MM-DD] text [pd.to_datetime] raises, on 2025-02-31 as on
    1500-01-01. *)
Definition valid_dateb (d : date) : bool :=
  ((1 <=? month d) && (month d <=? 12) && (1 <=? day d) &&
   (day d <=? days_in_month (year d) (month d)))%N &&
  date_leb Timestamp_min d && date_leb d Timestamp_max.

Definition valid_date (d : date) : Prop := valid_dateb d = true.

Definition digit (n : N) : ascii := ascii_of_N (48 + n).

Definition digit_val (c : ascii) : option N :=
  let n := N_of_ascii c in
  if ((48 <=? n) && (n <=? 57))%N then Some (n - 48)%N else None.

(** [dt.strftime("%Y-%m-%d")] *)
Definition strftime_Ymd (d : date) : string :=
  String (digit (year d / 1000)%N) (String (digit (year d / 100 mod 10)%N)
  (String (digit (year d / 10 mod 10)%N) (String (digit (year d mod 10)%N)
  (String "-" (String (digit (month d / 10)%N) (String (digit (month d mod 10)%N)
  (String "-" (String (digit (day d / 10)%N) (String (digit (day d mod 10)%N)
   EmptyString))))))))).

(** The three numbers of a [YYYY-MM-DD] text, whether or not they name a
    day of the calendar; any other shape is not produced by
    [strftime_Ymd] and gives [None]. *)
Definition parse_Ymd (s : string) : option date :=
  match s with
  | String y3 (String y2 (String y1 (String y0 (String "-"
    (String m1 (String m0 (String "-" (String d1 (String d0 EmptyString))))))))) =>
      match digit_val y3, digit_val y2, digit_val y1, digit_val y0,
            digit_val m1, digit_val m0, digit_val d1, digit_val d0 with
      | Some a3, Some a2, Some a1, Some a0, Some b1, Some b0, Some c1, Some c0 =>
          Some (Date (1000 * a3 + 100 * a2 + 10 * a1 + a0) (10 * b1 + b0) (10 * c1 + c0))%N
      | _, _, _, _, _, _, _, _ => None
      end
  | _ => None
  end.

End Iso.

(** ** pandas scalars and the column operations the pipelines use *)

Module Pandas.

(** A float64 value: NaN, the infinities, or a finite number. *)
Inductive float := FNaN | FNegInf | FPosInf | Fin (q : Qc).

(** A scalar held in an object column: [pd.NA], [None], a [str] or a
    number.  Missing CSV fields are read as the float [NaN]. *)
Inductive cell := PdNA | PyNone | Str (s : string) | Num (x : float).

Abbreviation NaN := (Num FNaN).

#[global] Instance float_eq_dec : EqDecision float.
Proof. solve_decision. Defined.

#[global] Instance cell_eq_dec : EqDecision cell.
Proof. solve_decision. Defined.

#[global] Instance float_countable : Countable float.
Proof.
  refine (inj_countable'
    (fun x => match x with
              | FNaN => inl 0 | FNegInf => inl 1 | FPosInf => inl 2
              | Fin q => inr q end)
    (fun y => match y with
              | inl 0 => FNaN | inl 1 => FNegInf | inl _ => FPosInf
              | inr q => Fin q end) _).
  intros []; reflexivity.
Defined.

#[global] Instance cell_countable : Countable cell.
Proof.
  refine (inj_countable'
    (fun c => match c with
              | PdNA => inl (inl true) | PyNone => inl (inl false)
              | Str s => inl (inr s) | Num x => inr x end)
    (fun y => match y with
              | inl (inl true) => PdNA | inl (inl false) => PyNone
              | inl (inr s) => Str s | inr x => Num x end) _).
  intros []; reflexivity.
Defined.

(** [Series.isna()] / [notna()] *)
Definition isna (c : cell) : bool :=
  match c with
  | PdNA | PyNone | Num FNaN => true
  | _ => false
  end.

Definition notna (c : cell) : bool := negb (isna c).

(** Float comparisons; every comparison with NaN is false. *)
Definition Qc_ltb (a b : Qc) : bool :=
  match Qccompare a b with Lt => true | _ => false end.

Definition float_ltb (a b : float) : bool :=
  match a, b with
  | FNaN, _ | _, FNaN => false
  | FNegInf, FNegInf => false
  | FNegInf, _ => true
  | _, FNegInf => false
  | FPosInf, _ => false
  | Fin _, FPosInf => true
  | Fin p, Fin q => Qc_ltb p q
  end.

Definition float_leb (a b : float) : bool :=
  match a, b with
  | FNaN, _ | _, FNaN => false
  | _, _ => negb (float_ltb b a)
  end.

(** A text is the string of its code points; the model holds the code
    points below 256.  Python's [str.isspace] is true there of the
    controls 9 to 13 and 28 to 31, of the space, and of U+0085 and
    U+00A0. *)
Definition isspace (c : ascii) : bool :=
  let n := N_of_ascii c in
  ((9 <=? n) && (n <=? 13) || (28 <=? n) && (n <=? 32) ||
   (n =? 133) || (n =? 160))%N.

Fixpoint lstrip (s : string) : string :=
  match s with
  | EmptyString => EmptyString
  | String c s' => if isspace c then lstrip s' else s
  end.

Fixpoint rstrip (s : string) : string :=
  match s with
  | EmptyString => EmptyString
  | String c s' =>
      match rstrip s' with
      | EmptyString => if isspace c then EmptyString else String c EmptyString
      | r => String c r
      end
  end.

(** [.str.strip()] *)
Definition strip (s : string) : string := lstrip (rstrip s).

(** Python's [str.lower] on one code point below 256: the letters A to
    Z and U+00C0 to U+00DE, the sign U+00D7 apart, move up by 32. *)
Definition lower_char (c : ascii) : ascii :=
  let n := N_of_ascii c in
  if ((65 <=? n) && (n <=? 90) ||
      (192 <=? n) && (n <=? 222) && negb (n =? 215))%N
  then ascii_of_N (n + 32) else c.

(** [.str.lower()] *)
Fixpoint lower (s : string) : string :=
  match s with
  | EmptyString => EmptyString
  | String c s' => String (lower_char c) (lower s')
  end.

(** What pandas and Python compute outside this repository: the text of a
    finite number, the parsers behind [pd.to_numeric] and
    [pd.to_datetime(..., infer_datetime_format=True)], and the compiled
    e-mail pattern. *)
Class Externals := {
  str_of_number : Qc -> string;
  numeric_of_string : string -> float;
  datetime_of_string : string -> option Iso.date;
  datetime_of_number : float -> option Iso.date;
  email_pattern_match : string -> bool
}.

Section WithExternals.
Context `{Externals}.

Definition str_of_float (x : float) : string :=
  match x with
  | FNaN => "nan"
  | FNegInf => "-inf"
  | FPosInf => "inf"
  | Fin q => str_of_number q
  end.

(** [.astype(str)]: missing values become ordinary text. *)
Definition astype_str (c : cell) : cell :=
  match c with
  | PdNA => Str "<NA>"
  | PyNone => Str "None"
  | Str s => Str s
  | Num x => Str (str_of_float x)
  end.

(** [.astype("string")]: missing values stay missing. *)
Definition astype_string (c : cell) : cell :=
  match c with
  | Str s => Str s
  | Num (Fin q) => Str (str_of_number q)
  | Num FNegInf => Str "-inf"
  | Num FPosInf => Str "inf"
  | _ => PdNA
  end.

(** [pd.to_numeric(col, errors="coerce")] *)
Definition to_numeric (c : cell) : float :=
  match c with
  | Num x => x
  | Str s => numeric_of_string s
  | PdNA | PyNone => FNaN
  end.

(** [pd.to_datetime(col, errors="coerce", infer_datetime_format=True)];
    [None] is [NaT]. *)
Definition to_datetime (c : cell) : option Iso.date :=
  match c with
  | Str s => datetime_of_string s
  | Num FNaN => None
  | Num x => datetime_of_number x
  | PdNA | PyNone => None
  end.

End WithExternals.

(** [.str.strip()] and [.str.lower()] on a column produced by
    [astype(str)]; a non-string entry would become NaN. *)
Definition str_strip (c : cell) : cell :=
  match c with Str s => Str (strip s) | _ => NaN end.

Definition str_lower (c : cell) : cell :=
  match c with Str s => Str (lower s) | _ => NaN end.

(** [df.replace({"": pd.NA})] on one cell *)
Definition replace_empty (c : cell) : cell :=
  match c with Str EmptyString => PdNA | _ => c end.

(** [if mask.sum(): df = df[~mask]] *)
Definition drop_where {A} (mask : A -> bool) (df : list A) : list A :=
  if existsb mask df then List.filter (fun r => negb (mask r)) df else df.

End Pandas.

Import Pandas.

(** ** Rows of the three entities *)

Module Product.
Record row := mk {
  product_id : cell; product_name : cell; category : cell; price : cell }.
Definition set_product_id (v : cell) (r : row) :=
  mk v (product_name r) (category r) (price r).
Definition set_product_name (v : cell) (r : row) :=
  mk (product_id r) v (category r) (price r).
Definition set_category (v : cell) (r : row) :=
  mk (product_id r) (product_name r) v (price r).
Definition set_price (v : cell) (r : row) :=
  mk (product_id r) (product_name r) (category r) v.
End Product.

Module Customer.
Record row := mk {
  customer_id : cell; name : cell; email : cell; country : cell }.
Definition set_customer_id (v : cell) (r : row) :=
  mk v (name r) (email r) (country r).
Definition set_name (v : cell) (r : row) :=
  mk (customer_id r) v (email r) (country r).
Definition set_email (v : cell) (r : row) :=
  mk (customer_id r) (name r) v (country r).
Definition replace_empty (r : row) :=
  mk (Pandas.replace_empty (customer_id r)) (Pandas.replace_empty (name r))
     (Pandas.replace_empty (email r)) (Pandas.replace_empty (country r)).
End Customer.

Module Sale.
Record row := mk {
  transaction_id : cell; product_id : cell; customer_id : cell;
  quantity : cell; transaction_date : cell }.
Definition set_transaction_id (v : cell) (r : row) :=
  mk v (product_id r) (customer_id r) (quantity r) (transaction_date r).
Definition set_product_id (v : cell) (r : row) :=
  mk (transaction_id r) v (customer_id r) (quantity r) (transaction_date r).
Definition set_customer_id (v : cell) (r : row) :=
  mk (transaction_id r) (product_id r) v (quantity r) (transaction_date r).
Definition set_quantity (v : cell) (r : row) :=
  mk (transaction_id r) (product_id r) (customer_id r) v (transaction_date r).
Definition set_transaction_date (v : cell) (r : row) :=
  mk (transaction_id r) (product_id r) (customer_id r) (quantity r) v.
Definition replace_empty (r : row) :=
  mk (Pandas.replace_empty (transaction_id r)) (Pandas.replace_empty (product_id r))
     (Pandas.replace_empty (customer_id r)) (Pandas.replace_empty (quantity r))
     (Pandas.replace_empty (transaction_date r)).
End Sale.

(** A rejected sale: the sales row with its [reject_reason] column. *)
Module Rejected.
Record row := mk { sale : Sale.row; reject_reason : string }.
Definition append_reason (tag : string) (r : row) :=
  mk (sale r) (reject_reason r +:+ tag).
End Rejected.

(** ** Duplicate resolution shared by ex3 and ex5

    [df.groupby("customer_id", as_index=False, group_keys=False)
       .apply(choose_best_record).reset_index(drop=True)]
    The two files carry the same text. *)

Module Dedup.

(** Order in which [groupby] (with its default [sort=True]) lays out the
    group keys; a column holds either text or numbers. *)
Definition cell_leb (a b : cell) : bool :=
  match a, b with
  | Str s, Str t => String.leb s t
  | Num x, Num y => float_leb x y
  | Str _, Num _ => false
  | _, _ => true
  end.

Definition cell_le (a b : cell) : Prop := cell_leb a b = true.

#[global] Instance cell_le_dec : RelDecision cell_le.
Proof. intros a b. unfold cell_le. apply _. Defined.

Section GroupBy.
Context {A : Type} (key : A -> cell).

(** Keys of the groups: the distinct non-missing key values
    ([dropna=True]), sorted. *)
Definition group_keys (df : list A) : list cell :=
  merge_sort cell_le (remove_dups (List.filter notna (map key df))).

(** One group: the rows carrying the key, in frame order. *)
Definition get_group (df : list A) (k : cell) : list A :=
  List.filter (fun r => bool_decide (key r = k)) df.

Definition groupby (df : list A) : list (list A) :=
  map (get_group df) (group_keys df).

End GroupBy.

(** [group[["name", "email", "country"]].notna().sum(axis=1)] *)
Definition score (r : Customer.row) : nat :=
  (if notna (Customer.name r) then 1 else 0) +
  (if notna (Customer.email r) then 1 else 0) +
  (if notna (Customer.country r) then 1 else 0).

Definition scores (group : list Customer.row) : list nat := map score group.

(** [Series.idxmax()]: one scan from the first row, a later row replaces
    the running best only when strictly larger. *)
Fixpoint idxmax_scan (l : list nat) (i best_i best : nat) : nat :=
  match l with
  | [] => best_i
  | x :: t =>
      if best <? x then idxmax_scan t (S i) i x
      else idxmax_scan t (S i) best_i best
  end.

(** [None] stands for the [ValueError] on an empty series. *)
Definition idxmax (l : list nat) : option nat :=
  match l with
  | [] => None
  | x :: t => Some (idxmax_scan t 1 0 x)
  end.

Definition choose_best_record (group : list Customer.row) : option Customer.row :=
  match idxmax (scores group) with
  | Some best_idx => group !! best_idx
  | None => None
  end.

Definition dedup_customers (df : list Customer.row) : list Customer.row :=
  omap choose_best_record (groupby Customer.customer_id df).

End Dedup.

(** ** ex5.py: cleaning with validation, referential integrity *)

Module Ex5.

Definition CANONICAL_CATEGORIES : gmap string string :=
  list_to_map
    [("electronics", "Electronics"); ("clothing", "Clothing");
     ("books", "Books"); ("home", "Home"); ("sports", "Sports")].

(** [Series.map(dict)]: a value that is not a key becomes NaN. *)
Definition map_dict (d : gmap string string) (c : cell) : cell :=
  match c with
  | Str s => match d !! s with Some v => Str v | None => NaN end
  | _ => NaN
  end.

(** [col == "text"], element by element *)
Definition eq_str (c : cell) (s : string) : bool :=
  match c with Str t => String.eqb t s | _ => false end.

Definition zero : float := Fin (Q2Qc 0).

Section WithExternals.
Context `{Externals}.

Definition clean_products (df : list Product.row) : list Product.row :=
  let df :=
    map (fun r => Product.set_category
           (map_dict CANONICAL_CATEGORIES
              (str_lower (str_strip (astype_str (Product.category r))))) r) df in
  let unknown_cats := existsb (fun r => isna (Product.category r)) df in
  let df :=
    if unknown_cats
    then map (fun r => if isna (Product.category r)
                       then Product.set_category (Str "Unknown") r else r) df
    else df in
  let df :=
    map (fun r => Product.set_product_id
           (str_strip (astype_str (Product.product_id r))) r) df in
  let df :=
    map (fun r => Product.set_product_name
           (str_strip (astype_str (Product.product_name r))) r) df in
  let crit_missing_mask r :=
    eq_str (Product.product_id r) "" || eq_str (Product.product_name r) "" in
  let df := drop_where crit_missing_mask df in
  let df := map (fun r => Product.set_price (Num (to_numeric (Product.price r))) r) df in
  let negative_mask r :=
    match Product.price r with Num x => float_ltb x zero | _ => false end in
  (* pd.NA written into the float column reads back as NaN *)
  let df :=
    if existsb negative_mask df
    then map (fun r => if negative_mask r then Product.set_price NaN r else r) df
    else df in
  df.

(** The cleaning steps of [clean_customers] that precede the grouping. *)
Definition clean_customers_rows (df : list Customer.row) : list Customer.row :=
  let df := map Customer.replace_empty df in
  let df :=
    map (fun r => Customer.set_customer_id
           (str_strip (astype_str (Customer.customer_id r))) r) df in
  let df :=
    map (fun r => Customer.set_name
           (str_strip (astype_str (Customer.name r))) r) df in
  let crit_missing_mask r :=
    isna (Customer.customer_id r) || eq_str (Customer.customer_id r) "" ||
    eq_str (Customer.name r) "" in
  let df := drop_where crit_missing_mask df in
  let df := map (fun r => Customer.set_email (astype_string (Customer.email r)) r) df in
  let invalid_email_mask r :=
    match Customer.email r with
    | Str s => negb (email_pattern_match s)
    | _ => false
    end in
  let df :=
    if existsb invalid_email_mask df
    then map (fun r => if invalid_email_mask r then Customer.set_email PdNA r else r) df
    else df in
  df.

Definition clean_customers (df : list Customer.row) : list Customer.row :=
  Dedup.dedup_customers (clean_customers_rows df).

Definition clean_sales (df : list Sale.row) : list Sale.row :=
  let df := map Sale.replace_empty df in
  let df :=
    map (fun r => Sale.set_transaction_id
           (str_strip (astype_str (Sale.transaction_id r))) r) df in
  let df :=
    map (fun r => Sale.set_product_id
           (str_strip (astype_str (Sale.product_id r))) r) df in
  let df :=
    map (fun r => Sale.set_customer_id
           (str_strip (astype_str (Sale.customer_id r))) r) df in
  let crit_missing_mask r :=
    eq_str (Sale.transaction_id r) "" ||
    isna (Sale.product_id r) || eq_str (Sale.product_id r) "" ||
    isna (Sale.customer_id r) || eq_str (Sale.customer_id r) "" ||
    isna (Sale.transaction_date r) in
  let df := drop_where crit_missing_mask df in
  let df := map (fun r => Sale.set_quantity (Num (to_numeric (Sale.quantity r))) r) df in
  let invalid_qty_type_mask r := isna (Sale.quantity r) in
  let df := drop_where invalid_qty_type_mask df in
  let non_positive_mask r :=
    match Sale.quantity r with Num x => float_leb x zero | _ => false end in
  let df := drop_where non_positive_mask df in
  (* the column transaction_date_parsed travels next to the row *)
  let parsed := map (fun r => (r, to_datetime (Sale.transaction_date r))) df in
  let invalid_date_mask (p : Sale.row * option Iso.date) :=
    match p.2 with None => true | Some _ => false end in
  let parsed := drop_where invalid_date_mask parsed in
  omap (fun p : Sale.row * option Iso.date =>
          match p.2 with
          | Some d => Some (Sale.set_transaction_date (Str (Iso.strftime_Ymd d)) p.1)
          | None => None
          end) parsed.

End WithExternals.

(** [Series.isin(set)] *)
Definition isin (values : gset cell) (c : cell) : bool := bool_decide (c ∈ values).

Definition validate_referential_integrity
    (sales_df : list Sale.row) (products_df : list Product.row)
    (customers_df : list Customer.row) : list Sale.row * list Rejected.row :=
  let valid_products : gset cell := list_to_set (map Product.product_id products_df) in
  let valid_customers : gset cell := list_to_set (map Customer.customer_id customers_df) in
  let prod_ok r := isin valid_products (Sale.product_id r) in
  let cust_ok r := isin valid_customers (Sale.customer_id r) in
  let referential_ok r := prod_ok r && cust_ok r in
  let rejected_mask r := negb (referential_ok r) in
  let rejected_df := List.filter rejected_mask sales_df in
  let valid_df := List.filter referential_ok sales_df in
  let rejected_df := map (fun r => Rejected.mk r "") rejected_df in
  let rejected_df :=
    map (fun r => if negb (prod_ok (Rejected.sale r))
                  then Rejected.append_reason "INVALID_PRODUCT_ID;" r else r) rejected_df in
  let rejected_df :=
    map (fun r => if negb (cust_ok (Rejected.sale r))
                  then Rejected.append_reason "INVALID_CUSTOMER_ID;" r else r) rejected_df in
  (valid_df, rejected_df).

End Ex5.

(** ** ex3.py: transforms and the watermark-driven incremental load *)

Module Ex3.

Section WithExternals.
Context `{Externals}.

Definition transform_products (df : list Product.row) : list Product.row :=
  let df :=
    map (fun r => Product.set_category
           (Ex5.map_dict Ex5.CANONICAL_CATEGORIES
              (str_lower (str_strip (astype_str (Product.category r))))) r) df in
  let df :=
    if existsb (fun r => isna (Product.category r)) df
    then map (fun r => if isna (Product.category r)
                       then Product.set_category (Str "Unknown") r else r) df
    else df in
  let missing_name_mask r :=
    isna (Product.product_name r) ||
    Ex5.eq_str (str_strip (astype_str (Product.product_name r))) "" in
  let df := drop_where missing_name_mask df in
  let df := map (fun r => Product.set_price (Num (to_numeric (Product.price r))) r) df in
  let negative_mask r :=
    match Product.price r with Num x => float_ltb x Ex5.zero | _ => false end in
  if existsb negative_mask df
  then map (fun r => if negative_mask r then Product.set_price NaN r else r) df
  else df.

Definition transform_customers (df : list Customer.row) : list Customer.row :=
  let df := map Customer.replace_empty df in
  let df := map (fun r => Customer.set_email (astype_string (Customer.email r)) r) df in
  let invalid_email_mask r :=
    match Customer.email r with
    | Str s => negb (email_pattern_match s)
    | _ => false
    end in
  let df :=
    if existsb invalid_email_mask df
    then map (fun r => if invalid_email_mask r then Customer.set_email PdNA r else r) df
    else df in
  Dedup.dedup_customers df.

Definition transform_sales (df : list Sale.row) : list Sale.row :=
  let df := map Sale.replace_empty df in
  let missing_fk_mask r := isna (Sale.product_id r) || isna (Sale.customer_id r) in
  let df := drop_where missing_fk_mask df in
  let df := map (fun r => Sale.set_quantity (Num (to_numeric (Sale.quantity r))) r) df in
  let invalid_qty_mask r :=
    isna (Sale.quantity r) ||
    match Sale.quantity r with Num x => float_leb x Ex5.zero | _ => false end in
  let df := drop_where invalid_qty_mask df in
  let parsed := map (fun r => (r, to_datetime (Sale.transaction_date r))) df in
  let invalid_date_mask (p : Sale.row * option Iso.date) :=
    match p.2 with None => true | Some _ => false end in
  let parsed := drop_where invalid_date_mask parsed in
  omap (fun p : Sale.row * option Iso.date =>
          match p.2 with
          | Some d => Some (Sale.set_transaction_date (Str (Iso.strftime_Ymd d)) p.1)
          | None => None
          end) parsed.

End WithExternals.

(** One row of [ex_3_etl_state]; the key [pipeline_name] is the map key. *)
Record state_row := StateRow {
  last_processed_date : option Iso.date;   (* DATE, nullable *)
  last_run_ts : Z;                         (* DATETIME, as a clock reading *)
  last_run_rows : Z }.

(** The sink: the state table and the sales table.  A table that was
    never created reads as empty; the staging table lives inside one run. *)
Record database := Database {
  ex_3_etl_state : gmap string state_row;
  ex_3_sales : list Sale.row }.

Definition pipeline_name : string := "ex_3_sales".

Definition get_last_watermark (db : database) : option Iso.date :=
  match ex_3_etl_state db !! pipeline_name with
  | None => None
  | Some row => last_processed_date row
  end.

(** [INSERT ... ON DUPLICATE KEY UPDATE]; [now] is [datetime.now()]. *)
Definition update_state (new_watermark : option Iso.date) (rows_processed : Z)
    (now : Z) (db : database) : database :=
  Database
    (<[pipeline_name := StateRow new_watermark now rows_processed]> (ex_3_etl_state db))
    (ex_3_sales db).

(** [pd.to_datetime] on one [%Y-%m-%d] text.  [None] is the exception
    pandas raises: on a text that names no day of the calendar, such as
    2025-02-31, and on a day outside the bounds of a Timestamp, such as
    1500-01-01 or 9999-12-31. *)
Definition to_datetime_str (s : string) : option Iso.date :=
  d ← Iso.parse_Ymd s;
  if Iso.valid_dateb d then Some d else None.

(** [pd.to_datetime(last_wm)] on the [date] read from the state table:
    it raises on a day outside the bounds of a Timestamp. *)
Definition to_datetime_date (d : Iso.date) : option Iso.date :=
  if Iso.valid_dateb d then Some d else None.

(** [pd.to_datetime] on a cell of the [transaction_date] column the
    loader is given.  The column holds [%Y-%m-%d] text when it comes from
    [transform_sales]; the model follows pandas on such text only and
    gives [None] on every other content as well. *)
Definition to_datetime_Ymd (c : cell) : option Iso.date :=
  match c with
  | Str s => to_datetime_str s
  | _ => None
  end.

Definition with_transaction_date_dt (df : list Sale.row)
    : option (list (Sale.row * Iso.date)) :=
  mapM (fun r => d ← to_datetime_Ymd (Sale.transaction_date r); Some (r, d)) df.

(** [sort_values("transaction_date_dt")]: ascending by date.  Rows of
    equal date stay in frame order here: a row goes in front of the rows
    of its date that follow it in the frame.  pandas leaves their order
    to the sorting routine of numpy, and no statement below depends on
    it. *)
Fixpoint sort_insert (p : Sale.row * Iso.date) (l : list (Sale.row * Iso.date))
    : list (Sale.row * Iso.date) :=
  match l with
  | [] => [p]
  | q :: t => if Iso.date_leb p.2 q.2 then p :: q :: t else q :: sort_insert p t
  end.

Definition sort_values (df : list (Sale.row * Iso.date)) : list (Sale.row * Iso.date) :=
  foldr sort_insert [] df.

(** [Series.max()] on a column of [str]: Python's string order. *)
Definition str_max (l : list cell) : option string :=
  foldr (fun c acc =>
           match c, acc with
           | Str s, Some m => Some (if String.ltb m s then s else m)
           | Str s, None => Some s
           | _, _ => acc
           end) None l.

(** SQL [=] in the join condition: never true on NULL. *)
Definition sql_eq (a b : cell) : bool :=
  notna a && notna b && bool_decide (a = b).

Definition load_incremental_sales (now : Z) (sales_clean : list Sale.row)
    (db : database) : option database :=
  let last_wm := get_last_watermark db in
  sales_clean ← with_transaction_date_dt sales_clean;
  inc_df ←
    match last_wm with
    | None => Some sales_clean
    | Some wm =>
        wm ← to_datetime_date wm;
        Some (List.filter (fun r => Iso.date_ltb wm r.2) sales_clean)
    end;
  let inc_df := sort_values inc_df in
  let inc_df := map fst inc_df in
  let rows_to_load := length inc_df in
  if rows_to_load =? 0 then
    Some (update_state last_wm 0 now db)
  else
    let ex_3_sales_stage := inc_df in
    let kept :=
      List.filter
        (fun s => negb (existsb (fun st => sql_eq (Sale.transaction_id s)
                                             (Sale.transaction_id st))
                          ex_3_sales_stage))
        (ex_3_sales db) in
    let db := Database (ex_3_etl_state db) (kept ++ ex_3_sales_stage) in
    new_wm_str ← str_max (map Sale.transaction_date inc_df);
    new_wm_date ← to_datetime_str new_wm_str;
    Some (update_state (Some new_wm_date) (Z.of_nat rows_to_load) now db).

(** A sequence of runs, each with its clock reading and its cleaned
    batch; the result lists the sink after every run, and the first
    failing run fails the sequence. *)
Fixpoint run_all (runs : list (Z * list Sale.row)) (db : database)
    : option (list database) :=
  match runs with
  | [] => Some []
  | (now, batch) :: rest =>
      db' ← load_incremental_sales now batch db;
      dbs ← run_all rest db';
      Some (db' :: dbs)
  end.

End Ex3.

(** ** ex6.py: the retrying metadata fetch and the enrichment *)

Module Meta.
Record row := mk {
  product_id : cell; description : cell; rating : cell; availability_status : cell }.
Definition set_rating (v : cell) (r : row) :=
  mk (product_id r) (description r) v (availability_status r).
End Meta.

Module Enriched.
Record row := mk {
  product_id : cell; product_name : cell; category : cell; price : cell;
  description : cell; rating : cell; availability_status : cell }.
Definition set_description (v : cell) (r : row) :=
  mk (product_id r) (product_name r) (category r) (price r)
     v (rating r) (availability_status r).
Definition set_availability_status (v : cell) (r : row) :=
  mk (product_id r) (product_name r) (category r) (price r)
     (description r) (rating r) v.
End Enriched.

Module Ex6.

Definition MAX_RETRIES : nat := 3.
Definition BACKOFF_FACTOR : nat := 2.

(** What [resp.json()] and [pd.json_normalize] make of a body: a parse
    failure, a JSON value that is not an array, or an array of objects,
    each flattened to its columns. *)
Inductive body :=
  | Unparseable
  | NonArray
  | Records (data : list (gmap string cell)).

(** What one [requests.get] can do. *)
Inductive response :=
  | Timeout
  | RequestException
  | Http (status_code : Z) (b : body).

(** What the fetcher does to the outside world. *)
Inductive event := Get | Sleep (seconds : nat).

(** [Series.clip(0, 5)] *)
Definition five : float := Fin (Q2Qc 5).

Definition clip (x : float) : float :=
  if float_ltb x Ex5.zero then Ex5.zero
  else if float_ltb five x then five
  else x.

(** [drop_duplicates(subset=[key], keep="first")] *)
Fixpoint drop_duplicates_first {A} (key : A -> cell) (seen : gset cell) (df : list A)
    : list A :=
  match df with
  | [] => []
  | r :: rest =>
      if bool_decide (key r ∈ seen) then drop_duplicates_first key seen rest
      else r :: drop_duplicates_first key ({[key r]} ∪ seen) rest
  end.

(** [drop_duplicates(subset=[key], keep="last")] *)
Fixpoint drop_duplicates_last {A} (key : A -> cell) (df : list A) : list A :=
  match df with
  | [] => []
  | r :: rest =>
      if existsb (fun r' => bool_decide (key r' = key r)) rest
      then drop_duplicates_last key rest
      else r :: drop_duplicates_last key rest
  end.

Section WithExternals.
Context `{Externals}.

(** The frame built from the parsed array: [json_normalize] gives every
    record the union of the columns (NaN where a record lacks one), and a
    column no record has is then added as [pd.NA]. *)
Definition column (data : list (gmap string cell)) (col : string)
    (record : gmap string cell) : cell :=
  if existsb (fun r : gmap string cell => bool_decide (is_Some (r !! col))) data
  then default NaN (record !! col)
  else PdNA.

Definition normalize_metadata (data : list (gmap string cell)) : list Meta.row :=
  let api_df :=
    map (fun record =>
           Meta.mk (column data "product_id" record) (column data "description" record)
                   (column data "rating" record)
                   (column data "availability_status" record)) data in
  let api_df :=
    map (fun r =>
           Meta.mk (str_strip (astype_str (Meta.product_id r)))
                   (astype_string (Meta.description r))
                   (Num (to_numeric (Meta.rating r)))
                   (astype_string (Meta.availability_status r))) api_df in
  let out_of_bounds r :=
    match Meta.rating r with
    | Num x => float_ltb x Ex5.zero || float_ltb five x
    | _ => false
    end in
  let api_df :=
    if existsb out_of_bounds api_df
    then map (fun r =>
                if out_of_bounds r && notna (Meta.rating r)
                then match Meta.rating r with
                     | Num x => Meta.set_rating (Num (clip x)) r
                     | _ => r
                     end
                else r) api_df
    else api_df in
  drop_duplicates_last Meta.product_id api_df.

(** The [while attempt < MAX_RETRIES] loop.  [net k] is the outcome of the
    request number [k]; [sent] counts the requests issued so far.  Every
    iteration returns or raises [attempt], so [fuel] only makes the
    recursion structural; [None] would mean that it ran out. *)
Fixpoint fetch_loop (fuel : nat) (net : nat -> response) (attempt sent : nat)
    : option (list Meta.row) * list event :=
  match fuel with
  | 0 => (None, [])
  | S fuel =>
      if attempt <? MAX_RETRIES then
        match net sent with
        | Timeout =>
            let attempt := attempt + 1 in
            let wait := BACKOFF_FACTOR ^ attempt in
            let '(result, trace) := fetch_loop fuel net attempt (S sent) in
            (result, Get :: Sleep wait :: trace)
        | RequestException => (Some [], [Get])
        | Http status_code b =>
            if bool_decide (status_code ≠ 200%Z) then
              let attempt := attempt + 1 in
              if MAX_RETRIES <=? attempt then (Some [], [Get])
              else
                let wait := BACKOFF_FACTOR ^ attempt in
                let '(result, trace) := fetch_loop fuel net attempt (S sent) in
                (result, Get :: Sleep wait :: trace)
            else
              match b with
              | Unparseable => (Some [], [Get])
              | NonArray => (Some [], [Get])
              | Records data => (Some (normalize_metadata data), [Get])
              end
        end
      else (Some [], [])
  end.

Definition fetch_all_product_metadata (net : nat -> response)
    : option (list Meta.row) * list event :=
  fetch_loop (S MAX_RETRIES) net 0 0.

Definition clean_customers (df : list Customer.row) : list Customer.row :=
  let df := map Customer.replace_empty df in
  let df :=
    map (fun r => Customer.set_customer_id
           (str_strip (astype_str (Customer.customer_id r))) r) df in
  let df :=
    map (fun r => Customer.set_name
           (str_strip (astype_str (Customer.name r))) r) df in
  let df := map (fun r => Customer.set_email (astype_string (Customer.email r)) r) df in
  let invalid_email r :=
    match Customer.email r with
    | Str s => negb (email_pattern_match s)
    | _ => false
    end in
  let df :=
    if existsb invalid_email df
    then map (fun r => if invalid_email r then Customer.set_email PdNA r else r) df
    else df in
  drop_duplicates_first Customer.customer_id ∅ df.

End WithExternals.

Definition requests (trace : list event) : nat :=
  length (List.filter (fun e => match e with Get => true | Sleep _ => false end) trace).

Definition slept (trace : list event) : nat :=
  list_sum (map (fun e => match e with Get => 0 | Sleep s => s end) trace).

(** The configured backoff schedule: [BACKOFF_FACTOR ** attempt] for
    [attempt] = 1 .. [MAX_RETRIES]. *)
Definition backoff_schedule : list nat :=
  map (fun attempt => BACKOFF_FACTOR ^ attempt) (seq 1 MAX_RETRIES).

(** [products_df.merge(api_df, on="product_id", how="left")] *)
Definition merge_left (products_df : list Product.row) (api_df : list Meta.row)
    : list Enriched.row :=
  flat_map
    (fun p =>
       match List.filter (fun m => bool_decide (Meta.product_id m = Product.product_id p))
               api_df with
       | [] =>
           [Enriched.mk (Product.product_id p) (Product.product_name p)
              (Product.category p) (Product.price p) PdNA NaN PdNA]
       | matches =>
           map (fun m =>
                  Enriched.mk (Product.product_id p) (Product.product_name p)
                    (Product.category p) (Product.price p)
                    (Meta.description m) (Meta.rating m) (Meta.availability_status m))
               matches
       end)
    products_df.

Definition default_description : string := "No description available.".

Definition enrich_products_with_api (products_df : list Product.row)
    (api_df : list Meta.row) : list Enriched.row :=
  match api_df with
  | [] =>
      map (fun p =>
             Enriched.mk (Product.product_id p) (Product.product_name p)
               (Product.category p) (Product.price p) PdNA PdNA PdNA) products_df
  | _ =>
      let merged := merge_left products_df api_df in
      let merged :=
        if existsb (fun r => isna (Enriched.description r)) merged
        then map (fun r => if isna (Enriched.description r)
                           then Enriched.set_description (Str default_description) r
                           else r) merged
        else merged in
      let merged :=
        if existsb (fun r => isna (Enriched.availability_status r)) merged
        then map (fun r => if isna (Enriched.availability_status r)
                           then Enriched.set_availability_status (Str "Unknown") r
                           else r) merged
        else merged in
      merged
  end.

End Ex6.

(** ** Sample batches *)

Module Samples.

Definition ann_sparse : Customer.row :=
  Customer.mk (Str "C0001") (Str "Ann Lee") PdNA (Str "Canada").
Definition ann_full : Customer.row :=
  Customer.mk (Str "C0001") (Str "Ann Lee") (Str "ann@example.org") (Str "Canada").
Definition bob : Customer.row :=
  Customer.mk (Str "C0002") (Str "Bob Ray") (Str "bob@example.org") PdNA.

(** Two rows for C0001, the second more complete than the first. *)
Definition customers : list Customer.row := [ann_sparse; ann_full; bob].

(** Two rows for C0001, the first at least as complete as the second. *)
Definition customers_first_best : list Customer.row := [ann_full; ann_sparse; bob].

Definition sale (tid : string) (day : N) : Sale.row :=
  Sale.mk (Str tid) (Str "P0001") (Str "C0001") (Num (Fin (Q2Qc 2)))
    (Str (Iso.strftime_Ymd (Iso.Date 2025 3 day))).

(** Source rows with dates up to 2025-03-10, out of date order. *)
Definition sales_first : list Sale.row :=
  [sale "T000001" 10; sale "T000002" 8; sale "T000003" 9].

(** The same source after rows dated 2025-03-11 .. 2025-03-13 were
    appended. *)
Definition sales_second : list Sale.row :=
  sales_first ++ [sale "T000004" 13; sale "T000005" 11; sale "T000006" 12].

Definition empty_sink : Ex3.database := Ex3.Database ∅ [].

(** One choice of the functions pandas and Python supply: dates are
    read in the [%Y-%m-%d] form only, text never reads as a number. *)
Definition externals : Externals := {|
  str_of_number := fun _ => "0";
  numeric_of_string := fun _ => FNaN;
  datetime_of_string := Iso.parse_Ymd;
  datetime_of_number := fun _ => None;
  email_pattern_match := fun _ => true |}.

Definition mouse : Product.row :=
  Product.mk (Str "P0001") (Str "Wireless Mouse") (Str "Electronics")
    (Num (Fin (Q2Qc 25))).
Definition mug : Product.row :=
  Product.mk (Str "P0002") (Str "Ceramic Mug") (Str "Home") (Num (Fin (Q2Qc 8))).

Definition products : list Product.row := [mouse; mug].

(** Metadata for P0001 only. *)
Definition metadata : list Meta.row :=
  [Meta.mk (Str "P0001") (Str "A mouse without a cable.") (Num (Fin (Q2Qc 4)))
     (Str "In Stock")].

(** Raw rows as [read_csv] delivers them when a required field of the
    CSV line is empty: the field is NaN. *)
Definition product_without_name : Product.row :=
  Product.mk (Str "P0007") NaN (Str "books") (Num (Fin (Q2Qc 12))).
Definition customer_without_name : Customer.row :=
  Customer.mk (Str "C0009") NaN NaN (Str "Canada").
Definition sale_without_product : Sale.row :=
  Sale.mk (Str "T000009") NaN (Str "C0001") (Num (Fin (Q2Qc 2))) (Str "2025-03-10").

(** A products row whose name is blank text. *)
Definition product_blank_name : Product.row :=
  Product.mk (Str "P0008") (Str "  ") (Str "books") (Num (Fin (Q2Qc 12))).

End Samples.

(** ** Vocabulary for the statements about ex5 and the duplicate resolution *)

Module Ex5Spec.
Import Ex5.

(** The test a sales row has to pass: both keys occur in the parents. *)
Definition referential_ok (products_df : list Product.row)
    (customers_df : list Customer.row) (r : Sale.row) : bool :=
  isin (list_to_set (map Product.product_id products_df)) (Sale.product_id r) &&
  isin (list_to_set (map Customer.customer_id customers_df)) (Sale.customer_id r).

End Ex5Spec.

Module DedupSpec.
Import Dedup.

(** Within every group the first row is at least as complete as the
    others. *)
Definition first_is_best (df : list Customer.row) : bool :=
  forallb
    (fun r =>
       match head (get_group Customer.customer_id df (Customer.customer_id r)) with
       | Some r0 => score r <=? score r0
       | None => true
       end) df.

(** No row lacks its key. *)
Definition keys_present (df : list Customer.row) : bool :=
  forallb (fun r => notna (Customer.customer_id r)) df.

End DedupSpec.

(** ** Vocabulary for the statements about the incremental load *)

Module Ex3Spec.
Import Iso Ex3.

(** The date a cleaned row carries in [transaction_date]. *)
Definition date_of (r : Sale.row) : option date :=
  to_datetime_Ymd (Sale.transaction_date r).

(** What [transform_sales] leaves in [transaction_date]: the
    [%Y-%m-%d] text of a date. *)
Definition cleaned_row (r : Sale.row) : bool :=
  match Sale.transaction_date r with
  | Str s =>
      match parse_Ymd s with
      | Some d => valid_dateb d && String.eqb (strftime_Ymd d) s
      | None => false
      end
  | _ => false
  end.

Definition cleaned (df : list Sale.row) : bool := forallb cleaned_row df.

Definition row_date_le (a b : Sale.row) : Prop :=
  match date_of a, date_of b with
  | Some x, Some y => date_le x y
  | _, _ => False
  end.

(** Ascending order of rows that carry their [transaction_date_dt]. *)
Definition dt_le (a b : Sale.row * date) : Prop := date_le a.2 b.2.

(** [transaction_date > watermark] *)
Definition newer_than (wm : date) (r : Sale.row) : bool :=
  match date_of r with
  | Some d => date_ltb wm d
  | None => false
  end.

(** The stored watermark, when there is one, is a date [pd.to_datetime]
    reads: a day within the bounds of a Timestamp. *)
Definition readable_watermark (db : database) : bool :=
  match get_last_watermark db with
  | Some wm => valid_dateb wm
  | None => true
  end.

(** The rows a run has to load, given the stored watermark. *)
Definition incremental_rows (wm : option date) (df : list Sale.row) : list Sale.row :=
  match wm with
  | None => df
  | Some w => List.filter (newer_than w) df
  end.

(** Delete the sink rows whose [transaction_id] is staged, then insert
    the staged rows. *)
Definition upsert (sink staged : list Sale.row) : list Sale.row :=
  List.filter
    (fun s => negb (existsb (fun st => sql_eq (Sale.transaction_id s)
                                         (Sale.transaction_id st)) staged)) sink
  ++ staged.

(** [wm] is the largest date among the rows of [df]; no date when [df]
    has no rows. *)
Definition is_latest_date (wm : option date) (df : list Sale.row) : Prop :=
  match wm with
  | None => df = []
  | Some m =>
      (exists r, r ∈ df /\ date_of r = Some m) /\
      (forall r d, r ∈ df -> date_of r = Some d -> date_le d m)
  end.

(** Order of stored watermarks; NULL is below every date. *)
Definition wm_le (a b : option date) : Prop :=
  match a, b with
  | None, _ => True
  | Some x, Some y => date_le x y
  | Some _, None => False
  end.

(** Every batch of a sequence of runs is cleaned. *)
Definition all_cleaned (runs : list (Z * list Sale.row)) : bool :=
  forallb (fun run => cleaned run.2) runs.

(** A row paired with the value of its [transaction_date_dt]. *)
Definition dated (p : Sale.row * date) : Prop :=
  valid_date p.2 /\ Sale.transaction_date p.1 = Str (strftime_Ymd p.2).

End Ex3Spec.

(** ** Vocabulary for the statements about the fetcher *)

Module Ex6Spec.
Import Ex6.

(** The trace of [k] timed-out requests in a row, starting from
    [attempt]: each is followed by a wait of [BACKOFF_FACTOR ** attempt']
    for the raised attempt counter [attempt']. *)
Definition timeouts (attempt k : nat) : list event :=
  flat_map (fun a => [Get; Sleep (BACKOFF_FACTOR ^ a)]) (seq (S attempt) k).

(** The outcomes after which the loop tries again: a timeout, or an
    answer with a status other than 200. *)
Definition retryable (r : response) : bool :=
  match r with
  | Timeout => true
  | RequestException => false
  | Http status_code _ => bool_decide (status_code <> 200%Z)
  end.

(** A rating is null or a finite number of the closed interval [0, 5]. *)
Definition rating_in_range (c : cell) : Prop :=
  c = NaN \/ exists q : Qc, c = Num (Fin q) /\ (Q2Qc 0 <= q)%Qc /\ (q <= Q2Qc 5)%Qc.

(** One record of the parsed array as a row of the result: the key as
    trimmed text, the rating as a number brought into the interval. *)
Definition normalized_record `{Externals} (data : list (gmap string cell))
    (record : gmap string cell) : Meta.row :=
  Meta.mk (str_strip (astype_str (column data "product_id" record)))
          (astype_string (column data "description" record))
          (Num (clip (to_numeric (column data "rating" record))))
          (astype_string (column data "availability_status" record)).

(** The metadata rows that the join matches to a product. *)
Definition matches (api_df : list Meta.row) (p : Product.row) : list Meta.row :=
  List.filter (fun m => bool_decide (Meta.product_id m = Product.product_id p)) api_df.

(** A product with the three added columns. *)
Definition enriched (p : Product.row) (description rating availability_status : cell)
    : Enriched.row :=
  Enriched.mk (Product.product_id p) (Product.product_name p) (Product.category p)
    (Product.price p) description rating availability_status.

(** The two default fills of the enrichment, row by row. *)
Definition fill_description (r : Enriched.row) : Enriched.row :=
  if isna (Enriched.description r)
  then Enriched.set_description (Str default_description) r else r.

Definition fill_availability_status (r : Enriched.row) : Enriched.row :=
  if isna (Enriched.availability_status r)
  then Enriched.set_availability_status (Str "Unknown") r else r.

End Ex6Spec.

(** ** ex6.py: the CSV cleaning beside the fetch *)

Module Ex6Csv.

Section WithExternals.
Context `{Externals}.

Definition clean_products (df : list Product.row) : list Product.row :=
  let df :=
    map (fun r => Product.set_product_id
           (str_strip (astype_str (Product.product_id r))) r) df in
  let df :=
    map (fun r => Product.set_product_name
           (str_strip (astype_str (Product.product_name r))) r) df in
  let df :=
    map (fun r => Product.set_category
           (Ex5.map_dict Ex5.CANONICAL_CATEGORIES
              (str_lower (str_strip (astype_str (Product.category r))))) r) df in
  let df :=
    map (fun r => if isna (Product.category r)
                  then Product.set_category (Str "Unknown") r else r) df in
  let df := map (fun r => Product.set_price (Num (to_numeric (Product.price r))) r) df in
  let df :=
    map (fun r => if match Product.price r with
                     | Num x => float_ltb x Ex5.zero
                     | _ => false
                     end
                  then Product.set_price NaN r else r) df in
  let crit_missing r :=
    Ex5.eq_str (Product.product_id r) "" || Ex5.eq_str (Product.product_name r) "" in
  drop_where crit_missing df.

Definition clean_sales (df : list Sale.row) : list Sale.row :=
  let df := map Sale.replace_empty df in
  let df :=
    map (fun r => Sale.set_transaction_id
           (str_strip (astype_str (Sale.transaction_id r))) r) df in
  let df :=
    map (fun r => Sale.set_product_id
           (str_strip (astype_str (Sale.product_id r))) r) df in
  let df :=
    map (fun r => Sale.set_customer_id
           (str_strip (astype_str (Sale.customer_id r))) r) df in
  let crit_missing r :=
    Ex5.eq_str (Sale.transaction_id r) "" ||
    isna (Sale.product_id r) || Ex5.eq_str (Sale.product_id r) "" ||
    isna (Sale.customer_id r) || Ex5.eq_str (Sale.customer_id r) "" in
  let df := drop_where crit_missing df in
  let df := map (fun r => Sale.set_quantity (Num (to_numeric (Sale.quantity r))) r) df in
  let invalid_qty r :=
    isna (Sale.quantity r) ||
    match Sale.quantity r with Num x => float_leb x Ex5.zero | _ => false end in
  let df := drop_where invalid_qty df in
  let parsed := map (fun r => (r, to_datetime (Sale.transaction_date r))) df in
  let invalid_date (p : Sale.row * option Iso.date) :=
    match p.2 with None => true | Some _ => false end in
  let parsed := drop_where invalid_date parsed in
  omap (fun p : Sale.row * option Iso.date =>
          match p.2 with
          | Some d => Some (Sale.set_transaction_date (Str (Iso.strftime_Ymd d)) p.1)
          | None => None
          end) parsed.

End WithExternals.

End Ex6Csv.

(** ** The [main] functions and the full-replace loads

    A CSV file is given as the frame [read_csv] makes of it, or as
    [None] when the file does not exist.  A table that was never created
    reads as empty. *)

Module Ex5Main.

Record database := Database {
  ex_5_products : list Product.row;
  ex_5_customers : list Customer.row;
  ex_5_sales : list Sale.row;
  ex_5_sales_rejected : list Rejected.row }.

Inductive outcome :=
  | FileNotFoundError
  | Finished (db : database).

(** [to_sql(..., if_exists="replace")] for the three clean tables; the
    rejected table is written only when there are rejected rows. *)
Definition load_to_mariadb (products : list Product.row) (customers : list Customer.row)
    (sales_valid : list Sale.row) (sales_rejected : list Rejected.row)
    (db : database) : database :=
  let db := Database products (ex_5_customers db) (ex_5_sales db)
              (ex_5_sales_rejected db) in
  let db := Database (ex_5_products db) customers (ex_5_sales db)
              (ex_5_sales_rejected db) in
  let db := Database (ex_5_products db) (ex_5_customers db) sales_valid
              (ex_5_sales_rejected db) in
  if 0 <? length sales_rejected
  then Database (ex_5_products db) (ex_5_customers db) (ex_5_sales db) sales_rejected
  else db.

Definition main `{Externals} (products_csv : option (list Product.row))
    (customers_csv : option (list Customer.row)) (sales_csv : option (list Sale.row))
    (db : database) : outcome :=
  match products_csv, customers_csv, sales_csv with
  | Some products_raw, Some customers_raw, Some sales_raw =>
      let products_clean := Ex5.clean_products products_raw in
      let customers_clean := Ex5.clean_customers customers_raw in
      let sales_clean := Ex5.clean_sales sales_raw in
      let '(sales_valid, sales_rejected) :=
        Ex5.validate_referential_integrity sales_clean products_clean customers_clean in
      Finished (load_to_mariadb products_clean customers_clean sales_valid
                  sales_rejected db)
  | _, _, _ => FileNotFoundError
  end.

End Ex5Main.

Module Ex6Main.

Record database := Database {
  ex_6_products : list Enriched.row;
  ex_6_customers : list Customer.row;
  ex_6_sales : list Sale.row }.

(** [OutOfFuel] is the model's own: the fetch loop given too little fuel. *)
Inductive outcome :=
  | FileNotFoundError
  | OutOfFuel
  | Finished (db : database).

Definition load_to_mariadb (products_enriched : list Enriched.row)
    (customers : list Customer.row) (sales : list Sale.row) (db : database)
    : database :=
  Database products_enriched customers sales.

(** The outcome comes with what the fetcher did to the network. *)
Definition main `{Externals} (products_csv : option (list Product.row))
    (customers_csv : option (list Customer.row)) (sales_csv : option (list Sale.row))
    (net : nat -> Ex6.response) (db : database) : outcome * list Ex6.event :=
  match products_csv, customers_csv, sales_csv with
  | Some products_raw, Some customers_raw, Some sales_raw =>
      let products_clean := Ex6Csv.clean_products products_raw in
      let customers_clean := Ex6.clean_customers customers_raw in
      let sales_clean := Ex6Csv.clean_sales sales_raw in
      let '(api_metadata_df, trace) := Ex6.fetch_all_product_metadata net in
      match api_metadata_df with
      | Some api_metadata_df =>
          let products_enriched :=
            Ex6.enrich_products_with_api products_clean api_metadata_df in
          (Finished (load_to_mariadb products_enriched customers_clean sales_clean db),
           trace)
      | None => (OutOfFuel, trace)
      end
  | _, _, _ => (FileNotFoundError, [])
  end.

End Ex6Main.

Module Ex3Main.

(** The sink of ex3 with its two full-replace tables. *)
Record warehouse := Warehouse {
  ex_3_products : list Product.row;
  ex_3_customers : list Customer.row;
  incremental : Ex3.database }.

(** [Raised w] is an exception that leaves the sink as [w]. *)
Inductive outcome :=
  | Raised (w : warehouse)
  | Finished (w : warehouse).

Definition load_to_mariadb_incremental (products : list Product.row)
    (customers : list Customer.row) (sales : list Sale.row) (now : Z)
    (w : warehouse) : outcome :=
  let w := Warehouse products (ex_3_customers w) (incremental w) in
  let w := Warehouse (ex_3_products w) customers (incremental w) in
  match Ex3.load_incremental_sales now sales (incremental w) with
  | Some db => Finished (Warehouse (ex_3_products w) (ex_3_customers w) db)
  | None => Raised w
  end.

Definition main `{Externals} (products_csv : option (list Product.row))
    (customers_csv : option (list Customer.row)) (sales_csv : option (list Sale.row))
    (now : Z) (w : warehouse) : outcome :=
  match products_csv, customers_csv, sales_csv with
  | Some products_raw, Some customers_raw, Some sales_raw =>
      let products_clean := Ex3.transform_products products_raw in
      let customers_clean := Ex3.transform_customers customers_raw in
      let sales_clean := Ex3.transform_sales sales_raw in
      load_to_mariadb_incremental products_clean customers_clean sales_clean now w
  | _, _, _ => Raised w
  end.

End Ex3Main.

(** ** Vocabulary for the statements about the CSV cleaning *)

Module CleanSpec.

Section WithExternals.
Context `{Externals}.

(** What cleaning makes of one products row: dropped, or cleaned. *)
Definition clean_product_row (r : Product.row) : option Product.row :=
  let product_id := str_strip (astype_str (Product.product_id r)) in
  let product_name := str_strip (astype_str (Product.product_name r)) in
  if Ex5.eq_str product_id "" || Ex5.eq_str product_name "" then None
  else
    let category :=
      Ex5.map_dict Ex5.CANONICAL_CATEGORIES
        (str_lower (str_strip (astype_str (Product.category r)))) in
    let category := if isna category then Str "Unknown" else category in
    let price := to_numeric (Product.price r) in
    let price := if float_ltb price Ex5.zero then FNaN else price in
    Some (Product.mk product_id product_name category (Num price)).

(** What cleaning makes of one sales row. *)
Definition clean_sale_row (r : Sale.row) : option Sale.row :=
  let r := Sale.replace_empty r in
  let transaction_id := str_strip (astype_str (Sale.transaction_id r)) in
  let product_id := str_strip (astype_str (Sale.product_id r)) in
  let customer_id := str_strip (astype_str (Sale.customer_id r)) in
  if Ex5.eq_str transaction_id "" || Ex5.eq_str product_id "" ||
     Ex5.eq_str customer_id ""
  then None
  else
    let quantity := to_numeric (Sale.quantity r) in
    if isna (Num quantity) || float_leb quantity Ex5.zero then None
    else
      match to_datetime (Sale.transaction_date r) with
      | Some d =>
          Some (Sale.mk transaction_id product_id customer_id (Num quantity)
                  (Str (Iso.strftime_Ymd d)))
      | None => None
      end.

End WithExternals.

(** The labels a cleaned category can be. *)
Definition category_labels : list string :=
  ["Electronics"; "Clothing"; "Books"; "Home"; "Sports"; "Unknown"].

(** A cleaned products row: key and name are non-empty text without
    blanks around it, the category is a label, the price is not negative. *)
Definition product_ok (r : Product.row) : Prop :=
  exists (i n c : string) (p : float),
    r = Product.mk (Str i) (Str n) (Str c) (Num p) /\
    i <> "" /\ n <> "" /\ strip i = i /\ strip n = n /\
    c ∈ category_labels /\ float_ltb p Ex5.zero = false.

(** A cleaned sales row: the three keys are non-empty text without
    blanks around it, the quantity is a number above zero, the date is a
    [%Y-%m-%d] text. *)
Definition sale_ok (r : Sale.row) : Prop :=
  exists (t p c : string) (q : float) (d : Iso.date),
    r = Sale.mk (Str t) (Str p) (Str c) (Num q) (Str (Iso.strftime_Ymd d)) /\
    t <> "" /\ p <> "" /\ c <> "" /\
    strip t = t /\ strip p = p /\ strip c = c /\
    float_ltb Ex5.zero q = true.

End CleanSpec.

(** ** Vocabulary for the statements about the cleaning of customers *)

Module CustomerSpec.

Section WithExternals.
Context `{Externals}.

(** The e-mail check on one cell: text that fails the pattern becomes
    missing. *)
Definition checked_email (c : cell) : cell :=
  match astype_string c with
  | Str s => if email_pattern_match s then Str s else PdNA
  | e => e
  end.

(** What ex5 makes of one customers row before the grouping. *)
Definition clean_customer_row (r : Customer.row) : option Customer.row :=
  let r := Customer.replace_empty r in
  let customer_id := str_strip (astype_str (Customer.customer_id r)) in
  let name := str_strip (astype_str (Customer.name r)) in
  if Ex5.eq_str customer_id "" || Ex5.eq_str name "" then None
  else Some (Customer.mk customer_id name (checked_email (Customer.email r))
               (Customer.country r)).

(** What ex6 makes of one customers row before it drops duplicates. *)
Definition ex6_customer_row (r : Customer.row) : Customer.row :=
  let r := Customer.replace_empty r in
  Customer.mk (str_strip (astype_str (Customer.customer_id r)))
    (str_strip (astype_str (Customer.name r)))
    (checked_email (Customer.email r)) (Customer.country r).

(** An e-mail cell after the check: missing, or text the pattern
    accepts. *)
Definition email_ok (c : cell) : Prop :=
  c = PdNA \/ exists s, c = Str s /\ email_pattern_match s = true.

(** A cleaned customers row of ex5. *)
Definition customer_ok (r : Customer.row) : Prop :=
  exists i n : string,
    Customer.customer_id r = Str i /\ Customer.name r = Str n /\
    i <> "" /\ n <> "" /\ strip i = i /\ strip n = n /\
    email_ok (Customer.email r) /\ Customer.country r <> Str "".

End WithExternals.

End CustomerSpec.

(** ** Vocabulary for the statements about the transforms of ex2 and ex3 *)

Module TransformSpec.

Section WithExternals.
Context `{Externals}.

(** The test [transform_products] makes on the raw product_name. *)
Definition name_present (name : cell) : bool :=
  negb (isna name || Ex5.eq_str (str_strip (astype_str name)) "").

(** What [transform_products] makes of one row. *)
Definition transform_product_row (r : Product.row) : option Product.row :=
  if name_present (Product.product_name r) then
    let category :=
      Ex5.map_dict Ex5.CANONICAL_CATEGORIES
        (str_lower (str_strip (astype_str (Product.category r)))) in
    let category := if isna category then Str "Unknown" else category in
    let price := to_numeric (Product.price r) in
    let price := if float_ltb price Ex5.zero then FNaN else price in
    Some (Product.mk (Product.product_id r) (Product.product_name r) category
            (Num price))
  else None.

(** What [transform_sales] makes of one row. *)
Definition transform_sale_row (r : Sale.row) : option Sale.row :=
  let r := Sale.replace_empty r in
  if isna (Sale.product_id r) || isna (Sale.customer_id r) then None
  else
    let quantity := to_numeric (Sale.quantity r) in
    if isna (Num quantity) || float_leb quantity Ex5.zero then None
    else
      match to_datetime (Sale.transaction_date r) with
      | Some d =>
          Some (Sale.mk (Sale.transaction_id r) (Sale.product_id r)
                  (Sale.customer_id r) (Num quantity) (Str (Iso.strftime_Ymd d)))
      | None => None
      end.

(** What [transform_customers] makes of one row before the grouping. *)
Definition transform_customer_row (r : Customer.row) : Customer.row :=
  let r := Customer.replace_empty r in
  Customer.mk (Customer.customer_id r) (Customer.name r)
    (CustomerSpec.checked_email (Customer.email r)) (Customer.country r).

(** A row [transform_customers] returns. *)
Definition transformed_customer_ok (r : Customer.row) : Prop :=
  notna (Customer.customer_id r) = true /\
  CustomerSpec.email_ok (Customer.email r) /\
  Customer.customer_id r <> Str "" /\ Customer.name r <> Str "" /\
  Customer.country r <> Str "".

End WithExternals.

(** A row [transform_sales] lets through. *)
Definition transformed_sale_ok (r : Sale.row) : Prop :=
  isna (Sale.product_id r) = false /\ isna (Sale.customer_id r) = false /\
  (exists q, Sale.quantity r = Num q /\ float_ltb Ex5.zero q = true) /\
  (exists d, Sale.transaction_date r = Str (Iso.strftime_Ymd d)).

End TransformSpec.

(** ** Further vocabulary for the incremental load *)

Module LoaderSpec.
Import Iso Ex3 Ex3Spec.

(** The stored watermark is a date, and no row of the sales table is
    dated after it. *)
Definition sink_bounded (db : database) : Prop :=
  forall r, r ∈ ex_3_sales db ->
    exists d wm, date_of r = Some d /\ get_last_watermark db = Some wm /\ date_le d wm.

End LoaderSpec.

(** ** Further vocabulary for the fetch and the enrichment *)

Module EnrichSpec.

(** The product columns of an enriched row. *)
Definition base (e : Enriched.row) : Product.row :=
  Product.mk (Enriched.product_id e) (Enriched.product_name e)
    (Enriched.category e) (Enriched.price e).

(** The description and the availability status an enriched row shows
    for a metadata value: the default where the value is missing. *)
Definition shown_description (c : cell) : cell :=
  if isna c then Str Ex6.default_description else c.

Definition shown_availability_status (c : cell) : cell :=
  if isna c then Str "Unknown" else c.

End EnrichSpec.

(** One more choice of the external functions: dates are read in the
    [%Y-%m-%d] form and only when they are calendar dates. *)
Module MoreSamples.

Definition externals_valid : Externals := {|
  str_of_number := fun _ => "0";
  numeric_of_string := fun _ => FNaN;
  datetime_of_string :=
    fun s => match Iso.parse_Ymd s with
             | Some d => if Iso.valid_dateb d then Some d else None
             | None => None
             end;
  datetime_of_number := fun _ => None;
  email_pattern_match := fun _ => true |}.

Definition raw_sales : list Sale.row :=
  [Sale.mk (Str "T000001") (Str "P0001") (Str "C0001") (Num (Fin (Q2Qc 2)))
     (Str "2025-03-10");
   Sale.mk (Str "T000002") (Str "P0002") NaN (Num (Fin (Q2Qc 1))) (Str "2025-03-11");
   Sale.mk (Str "T000003") (Str "P0001") (Str "C0002") (Num (Fin (Q2Qc 0)))
     (Str "2025-03-12")].

(** A parsed array with ratings on both sides of [0, 5], and two
    records for P0001. *)
Definition rated (product_id : string) (rating : Z) : gmap string cell :=
  <["rating" := Num (Fin (Q2Qc (inject_Z rating)))]>
    {["product_id" := Str product_id]}.

Definition ratings_out_of_range : list (gmap string cell) :=
  [rated "P0001" 3; rated "P0002" (-1); rated "P0001" 7].

Definition empty_warehouse : Ex3Main.warehouse :=
  Ex3Main.Warehouse [] [] Samples.empty_sink.

End MoreSamples.

(** * Properties *)

(** ** Dates and their rendering *)

Section IsoFacts.
Import Iso.

Lemma valid_dateb_spec d : valid_dateb d = true <-> valid_date d.
Proof. reflexivity. Qed.

Lemma days_in_month_bound y m : (28 <= days_in_month y m <= 31)%N.
Proof.
  unfold days_in_month.
  destruct (m =? 2)%N; [destruct (is_leap y); lia|].
  destruct ((m =? 4) || (m =? 6) || (m =? 9) || (m =? 11))%N; lia.
Qed.

(** A valid date fills the columns of the rendering: four digits for
    the year, two for the month and the day. *)
Lemma valid_date_digits d :
  valid_date d ->
  (1000 <= year d <= 9999 /\ 1 <= month d <= 12 /\ 1 <= day d <= 31)%N.
Proof.
  unfold valid_date, valid_dateb. rewrite !andb_true_iff, !N.leb_le.
  intros [[[[[Hm1 Hm2] Hd1] Hd2] Hlo] Hhi].
  pose proof (days_in_month_bound (year d) (month d)).
  assert (1677 <= year d)%N.
  { revert Hlo. unfold date_leb, date_compare, Timestamp_min. cbn [year month day].
    destruct (N.compare_spec 1677 (year d)); [lia | lia | discriminate]. }
  assert (year d <= 2262)%N.
  { revert Hhi. unfold date_leb, date_compare, Timestamp_max. cbn [year month day].
    destruct (N.compare_spec (year d) 2262); [lia | lia | discriminate]. }
  lia.
Qed.

Lemma digit_val_digit n : (n < 10)%N -> digit_val (digit n) = Some n.
Proof.
  intros H. unfold digit_val, digit.
  rewrite N_ascii_embedding by lia.
  destruct (N.leb_spec 48 (48 + n)), (N.leb_spec (48 + n) 57); simpl; try lia.
  f_equal. lia.
Qed.

Lemma digit_compare a b :
  (a < 10)%N -> (b < 10)%N -> Ascii.compare (digit a) (digit b) = N.compare a b.
Proof.
  intros Ha Hb. unfold Ascii.compare, digit.
  rewrite !N_ascii_embedding by lia.
  destruct (N.compare_spec a b), (N.compare_spec (48 + a) (48 + b)); auto; lia.
Qed.

Lemma lex2 a1 a0 b1 b0 :
  (a0 < 10 -> b0 < 10 ->
   match a1 ?= b1 with Eq => a0 ?= b0 | c => c end =
   (10 * a1 + a0 ?= 10 * b1 + b0))%N.
Proof.
  intros Ha Hb.
  destruct (N.compare_spec a1 b1), (N.compare_spec a0 b0),
    (N.compare_spec (10 * a1 + a0) (10 * b1 + b0))%N; auto; lia.
Qed.

Lemma lex4 a3 a2 a1 a0 b3 b2 b1 b0 :
  (a2 < 10 -> a1 < 10 -> a0 < 10 -> b2 < 10 -> b1 < 10 -> b0 < 10 ->
   match a3 ?= b3 with
   | Eq => match a2 ?= b2 with
           | Eq => match a1 ?= b1 with Eq => a0 ?= b0 | c => c end
           | c => c
           end
   | c => c
   end =
   (1000 * a3 + 100 * a2 + 10 * a1 + a0 ?= 1000 * b3 + 100 * b2 + 10 * b1 + b0))%N.
Proof.
  intros.
  destruct (N.compare_spec a3 b3); [destruct (N.compare_spec a2 b2) | |];
    [destruct (N.compare_spec a1 b1); [destruct (N.compare_spec a0 b0) | |] | | | |];
    symmetry;
    first [ apply N.compare_eq_iff | apply N.compare_lt_iff | apply N.compare_gt_iff ];
    lia.
Qed.

Lemma digits4 n :
  (n = 1000 * (n / 1000) + 100 * (n / 100 mod 10) + 10 * (n / 10 mod 10) + n mod 10)%N.
Proof.
  assert (H1 := N.div_mod n 10). assert (H2 := N.div_mod (n / 10) 10).
  assert (H3 := N.div_mod (n / 100) 10).
  replace (n / 1000)%N with (n / 100 / 10)%N by (rewrite N.Div0.div_div; reflexivity).
  replace (n / 100)%N with (n / 10 / 10)%N in * by (rewrite N.Div0.div_div; reflexivity).
  lia.
Qed.

Lemma digits2 n : (n = 10 * (n / 10) + n mod 10)%N.
Proof. apply N.div_mod. lia. Qed.

Lemma mod10_lt n : (n mod 10 < 10)%N.
Proof. apply N.mod_lt. lia. Qed.

Lemma div_digit n k : (0 < k)%N -> (n < k * 10)%N -> (n / k < 10)%N.
Proof. intros Hk H. apply N.Div0.div_lt_upper_bound. lia. Qed.

Ltac digit_bound :=
  first [ apply mod10_lt | apply div_digit; lia | lia ].

(** [to_datetime] undoes [strftime] on every valid date. *)
Lemma parse_strftime d : valid_date d -> parse_Ymd (strftime_Ymd d) = Some d.
Proof.
  intros (Hy & Hm & Hd)%valid_date_digits. unfold strftime_Ymd, parse_Ymd.
  rewrite !digit_val_digit by digit_bound.
  destruct d as [y m dd]; simpl in *.
  rewrite <- digits4, <- !digits2. reflexivity.
Qed.

(** Python compares [str] values code point by code point; on the
    fixed-width rendering this is the chronological order. *)
Lemma strftime_compare a b :
  valid_date a -> valid_date b ->
  String.compare (strftime_Ymd a) (strftime_Ymd b) = date_compare a b.
Proof.
  intros (Hya & Hma & Hda)%valid_date_digits (Hyb & Hmb & Hdb)%valid_date_digits.
  unfold strftime_Ymd, date_compare. cbn [String.compare].
  rewrite !digit_compare by digit_bound.
  change (Ascii.compare "-" "-") with Eq. cbv iota.
  rewrite (digits4 (year a)) at 5. rewrite (digits4 (year b)) at 5.
  rewrite (digits2 (month a)) at 3. rewrite (digits2 (month b)) at 3.
  rewrite (digits2 (day a)) at 3. rewrite (digits2 (day b)) at 3.
  rewrite <- lex4, <- !lex2 by digit_bound.
  repeat match goal with
         | |- context [N.compare ?x ?y] =>
             destruct (N.compare x y); try reflexivity
         end.
Qed.

End IsoFacts.

(** ** Column operations *)

Lemma drop_where_filter {A} (mask : A -> bool) (df : list A) :
  drop_where mask df = List.filter (fun r => negb (mask r)) df.
Proof.
  unfold drop_where. destruct (existsb mask df) eqn:E; [reflexivity|].
  induction df as [|r df IH]; [reflexivity|]. simpl in *.
  apply orb_false_iff in E as [-> E]. simpl. f_equal. auto.
Qed.

Lemma filter_split_length {A} (p : A -> bool) (l : list A) :
  length (List.filter p l) + length (List.filter (fun x => negb (p x)) l) = length l.
Proof.
  induction l as [|x l IH]; [reflexivity|].
  simpl. destruct (p x); simpl; lia.
Qed.

Lemma filter_split_perm {A} (p : A -> bool) (l : list A) :
  List.filter p l ++ List.filter (fun x => negb (p x)) l ≡ₚ l.
Proof.
  induction l as [|x l IH]; [reflexivity|].
  simpl. destruct (p x); simpl.
  - by rewrite IH.
  - by rewrite <- Permutation_middle, IH.
Qed.

Lemma elem_of_List_filter {A} (p : A -> bool) (l : list A) (x : A) :
  x ∈ List.filter p l <-> x ∈ l /\ p x = true.
Proof. rewrite !list_elem_of_In. apply filter_In. Qed.

(** ** Referential integrity (ex5) *)

Section Referential.
Import Ex5 Ex5Spec.

Lemma validate_valid sales_df products_df customers_df :
  (validate_referential_integrity sales_df products_df customers_df).1 =
  List.filter (referential_ok products_df customers_df) sales_df.
Proof. reflexivity. Qed.

Lemma validate_rejected_sales sales_df products_df customers_df :
  map Rejected.sale (validate_referential_integrity sales_df products_df customers_df).2 =
  List.filter (fun r => negb (referential_ok products_df customers_df r)) sales_df.
Proof.
  unfold validate_referential_integrity. cbn [snd].
  rewrite !map_map. erewrite map_ext; [apply map_id|].
  intros r. cbn. repeat case_match; reflexivity.
Qed.

(** C1.  The referential validator splits the cleaned sales batch in two:
    the sizes add up, no row is on both sides, every input row is on
    exactly one side, and together the two sides hold the input rows, each
    as often as the input does, so nothing is dropped. *)
Theorem validate_referential_integrity_partition
    (sales_df : list Sale.row) (products_df : list Product.row)
    (customers_df : list Customer.row) :
  let out := validate_referential_integrity sales_df products_df customers_df in
  let valid := out.1 in
  let rejected := map Rejected.sale out.2 in
  length valid + length (out.2) = length sales_df /\
  (forall r, r ∈ valid -> r ∉ rejected) /\
  (forall r, r ∈ sales_df ->
     (r ∈ valid /\ r ∉ rejected) \/ ((r ∉ valid) /\ r ∈ rejected)) /\
  valid ++ rejected ≡ₚ sales_df.
Proof.
  intros out valid rejected.
  assert (Hv : valid = List.filter (referential_ok products_df customers_df) sales_df)
    by apply validate_valid.
  assert (Hr : rejected =
               List.filter (fun r => negb (referential_ok products_df customers_df r))
                 sales_df) by apply validate_rejected_sales.
  assert (Hlen : length (out.2) = length rejected)
    by (unfold rejected; by rewrite length_map).
  rewrite Hlen, Hv, Hr. repeat split.
  - apply filter_split_length.
  - intros r [_ Hok]%elem_of_List_filter [_ Hno]%elem_of_List_filter.
    rewrite Hok in Hno. discriminate.
  - intros r Hin. rewrite !elem_of_List_filter.
    destruct (referential_ok products_df customers_df r) eqn:E; [left|right];
      naive_solver.
  - apply filter_split_perm.
Qed.

End Referential.

(** ** Duplicate resolution *)

Section DedupFacts.
Import Dedup.

(** [idxmax_scan] carries the first position of the largest value seen. *)
Lemma idxmax_scan_spec (t : list nat) : forall (p : list nat) (best_i best : nat),
  p !! best_i = Some best ->
  (forall j x, p !! j = Some x -> x <= best) ->
  (forall j x, j < best_i -> p !! j = Some x -> x < best) ->
  let i := idxmax_scan t (length p) best_i best in
  exists m, (p ++ t) !! i = Some m /\
    (forall j x, (p ++ t) !! j = Some x -> x <= m) /\
    (forall j x, j < i -> (p ++ t) !! j = Some x -> x < m).
Proof.
  induction t as [|x t IH]; intros p best_i best Hb Hmax Hfirst; simpl.
  - exists best. rewrite app_nil_r. auto.
  - replace (p ++ x :: t) with ((p ++ [x]) ++ t) by (by rewrite <- app_assoc).
    replace (S (length p)) with (length (p ++ [x]))
      by (rewrite length_app; simpl; lia).
    destruct (Nat.ltb_spec best x) as [Hlt|Hge].
    + apply IH.
      * rewrite lookup_app_r by lia. by rewrite Nat.sub_diag.
      * intros j y Hj. apply lookup_app_Some in Hj as [Hj|[_ Hj]].
        -- apply Hmax in Hj. lia.
        -- apply list_lookup_singleton_Some in Hj as [_ ->]. lia.
      * intros j y Hlt' Hj. rewrite lookup_app_l in Hj by done.
        apply Hmax in Hj. lia.
    + apply IH.
      * apply lookup_app_l_Some. done.
      * intros j y Hj. apply lookup_app_Some in Hj as [Hj|[_ Hj]].
        -- by apply Hmax in Hj.
        -- apply list_lookup_singleton_Some in Hj as [_ ->]. lia.
      * intros j y Hlt' Hj.
        apply lookup_lt_Some in Hb.
        rewrite lookup_app_l in Hj by lia. eauto.
Qed.

Lemma idxmax_spec (l : list nat) :
  l <> [] ->
  exists i m, idxmax l = Some i /\ l !! i = Some m /\
    (forall j x, l !! j = Some x -> x <= m) /\
    (forall j x, j < i -> l !! j = Some x -> x < m).
Proof.
  destruct l as [|x t]; [done|]. intros _.
  destruct (idxmax_scan_spec t [x] 0 x) as (m & ? & ? & ?).
  - reflexivity.
  - intros j y Hj. apply list_lookup_singleton_Some in Hj as [_ ->]. lia.
  - intros j y Hj. lia.
  - exists (idxmax_scan t 1 0 x), m. auto.
Qed.

(** [choose_best_record] returns the earliest row of the group among
    those with the largest score. *)
Lemma choose_best_record_spec (group : list Customer.row) :
  group <> [] ->
  exists best i, choose_best_record group = Some best /\
    group !! i = Some best /\
    (forall r, r ∈ group -> score r <= score best) /\
    (forall j r, j < i -> group !! j = Some r -> score r < score best).
Proof.
  intros Hne.
  destruct (idxmax_spec (scores group)) as (i & m & Hi & Hm & Hmax & Hfirst).
  { unfold scores. destruct group; done. }
  unfold scores in *. rewrite list_lookup_fmap in Hm.
  destruct (group !! i) as [best|] eqn:Hbest; [|done].
  injection Hm as <-.
  exists best, i. unfold choose_best_record, scores. rewrite Hi. repeat split; auto.
  - intros r [j Hj]%list_elem_of_lookup.
    apply (Hmax j). by rewrite list_lookup_fmap, Hj.
  - intros j r Hlt Hj. apply (Hfirst j); [done|].
    by rewrite list_lookup_fmap, Hj.
Qed.

Section Groups.
Context {A : Type} (key : A -> cell).

Lemma group_keys_NoDup (df : list A) : NoDup (group_keys key df).
Proof.
  unfold group_keys. rewrite merge_sort_Permutation. apply NoDup_remove_dups.
Qed.

Lemma elem_of_group_keys (df : list A) (k : cell) :
  k ∈ group_keys key df <-> notna k = true /\ k ∈ map key df.
Proof.
  unfold group_keys. rewrite merge_sort_Permutation, elem_of_remove_dups.
  rewrite elem_of_List_filter. tauto.
Qed.

Lemma elem_of_get_group (df : list A) (k : cell) (r : A) :
  r ∈ get_group key df k <-> r ∈ df /\ key r = k.
Proof.
  unfold get_group. rewrite elem_of_List_filter, bool_decide_eq_true. tauto.
Qed.

Lemma get_group_nonempty (df : list A) (k : cell) :
  k ∈ map key df -> get_group key df k <> [].
Proof.
  intros (r & -> & Hr)%list_elem_of_fmap Hnil.
  assert (r ∈ get_group key df (key r)) as Hin by (by apply elem_of_get_group).
  rewrite Hnil in Hin. by apply not_elem_of_nil in Hin.
Qed.

End Groups.

(** The rows of the output that carry key [k] are what the group of [k]
    contributes, when [k] is among the listed keys, and none otherwise. *)
Lemma dedup_rows_of_key (df : list Customer.row) (k : cell) (keys : list cell) :
  NoDup keys ->
  (forall k', k' ∈ keys -> k' ∈ map Customer.customer_id df) ->
  List.filter (fun r => bool_decide (Customer.customer_id r = k))
    (omap choose_best_record (map (get_group Customer.customer_id df) keys)) =
  if bool_decide (k ∈ keys)
  then option_list (choose_best_record (get_group Customer.customer_id df k))
  else [].
Proof.
  induction keys as [|k' keys IH]; intros Hnd Hin; [reflexivity|].
  apply NoDup_cons in Hnd as [Hk' Hnd].
  specialize (IH Hnd (fun x Hx => Hin x (list_elem_of_further _ _ _ Hx))).
  destruct (choose_best_record_spec (get_group Customer.customer_id df k'))
    as (best & i & Hbest & Hi & _).
  { apply get_group_nonempty, Hin. left. }
  assert (Customer.customer_id best = k') as Hkey.
  { apply list_elem_of_lookup_2 in Hi. by apply elem_of_get_group in Hi as [_ ?]. }
  cbn [map omap list_omap]. rewrite Hbest. cbn [List.filter].
  fold (omap choose_best_record (map (get_group Customer.customer_id df) keys)).
  rewrite IH, Hkey.
  destruct (decide (k' = k)) as [->|Hne].
  - rewrite bool_decide_eq_true_2 by done.
    rewrite (bool_decide_eq_true_2 (k ∈ k :: keys)) by left.
    rewrite (bool_decide_eq_false_2 (k ∈ keys)) by done.
    by rewrite Hbest.
  - rewrite bool_decide_eq_false_2 by done.
    destruct (decide (k ∈ keys)) as [Hk|Hk].
    + rewrite !bool_decide_eq_true_2; [done| by right | done].
    + rewrite !bool_decide_eq_false_2; [done| |done].
      by intros [?|?]%elem_of_cons.
Qed.

(** C3.  For every customer batch and every key present in it, the
    output of the duplicate resolution holds exactly one record with that
    key: the earliest row, in input order, among the rows of that key
    with the largest number of non-null fields among name, email and
    country. *)
Theorem dedup_one_record_per_key (df : list Customer.row) (k : cell) :
  notna k = true ->
  k ∈ map Customer.customer_id df ->
  let group := get_group Customer.customer_id df k in
  exists best i,
    List.filter (fun r => bool_decide (Customer.customer_id r = k))
      (dedup_customers df) = [best] /\
    group !! i = Some best /\
    (forall r, r ∈ group -> score r <= score best) /\
    (forall j r, j < i -> group !! j = Some r -> score r < score best).
Proof.
  intros Hna Hin group.
  destruct (choose_best_record_spec group) as (best & i & Hbest & Hi & Hmax & Hfirst).
  { by apply get_group_nonempty. }
  exists best, i. repeat split; auto.
  unfold dedup_customers, groupby.
  rewrite dedup_rows_of_key.
  - rewrite bool_decide_eq_true_2 by (by apply elem_of_group_keys).
    fold group. by rewrite Hbest.
  - apply group_keys_NoDup.
  - intros k' Hk'. by apply elem_of_group_keys in Hk' as [_ ?].
Qed.

End DedupFacts.

(** C3 on [Samples.customers] and the key C0001. *)
Lemma dedup_one_record_per_key_witness :
  notna (Str "C0001") = true /\
  Str "C0001" ∈ map Customer.customer_id Samples.customers /\
  exists best i,
    List.filter (fun r => bool_decide (Customer.customer_id r = Str "C0001"))
      (Dedup.dedup_customers Samples.customers) = [best] /\
    Dedup.get_group Customer.customer_id Samples.customers (Str "C0001") !! i = Some best /\
    (forall r, r ∈ Dedup.get_group Customer.customer_id Samples.customers (Str "C0001") ->
       Dedup.score r <= Dedup.score best) /\
    (forall j r, j < i ->
       Dedup.get_group Customer.customer_id Samples.customers (Str "C0001") !! j = Some r ->
       Dedup.score r < Dedup.score best).
Proof.
  split; [reflexivity|]. split; [simpl; left|].
  apply (dedup_one_record_per_key Samples.customers (Str "C0001"));
    [reflexivity | simpl; left].
Defined.

Example dedup_sample :
  Dedup.dedup_customers Samples.customers = [Samples.ann_full; Samples.bob].
Proof. vm_compute. reflexivity. Qed.

(** ** The two duplicate resolutions compared (ex5 against ex6) *)

Section DedupCompared.
Import Dedup DedupSpec Ex6.

(** C10, counterexample.  On [Samples.customers] ex5 keeps the most
    complete row of C0001 and ex6 the first one, so the outputs differ even
    as collections of records. *)
Lemma dedup_implementations_differ :
  ~ (forall df : list Customer.row,
       dedup_customers df ≡ₚ drop_duplicates_first Customer.customer_id ∅ df).
Proof.
  intros Heq. specialize (Heq Samples.customers).
  assert (Hin : Samples.ann_full ∈ dedup_customers Samples.customers)
    by (vm_compute; left).
  rewrite Heq in Hin. vm_compute in Hin.
  apply elem_of_cons in Hin as [Hin|Hin]; [discriminate|].
  apply elem_of_cons in Hin as [Hin|Hin]; [discriminate|].
  by apply not_elem_of_nil in Hin.
Qed.

Lemma first_is_best_spec (df : list Customer.row) (k : cell) (r0 r : Customer.row) :
  first_is_best df = true ->
  head (get_group Customer.customer_id df k) = Some r0 ->
  r ∈ get_group Customer.customer_id df k -> score r <= score r0.
Proof.
  unfold first_is_best. rewrite forallb_forall.
  intros Hall Hhd [Hr <-]%elem_of_get_group.
  apply list_elem_of_In, Hall in Hr. rewrite Hhd in Hr. by apply Nat.leb_le.
Qed.

Lemma choose_best_record_first (group : list Customer.row) (r0 : Customer.row) :
  head group = Some r0 ->
  (forall r, r ∈ group -> score r <= score r0) ->
  choose_best_record group = Some r0.
Proof.
  intros Hhd Hbest.
  destruct (choose_best_record_spec group) as (best & i & -> & Hi & Hmax & Hfirst).
  { destruct group; done. }
  destruct i as [|i].
  - rewrite <- head_lookup in Hi. congruence.
  - rewrite head_lookup in Hhd.
    specialize (Hfirst 0 r0 ltac:(lia) Hhd).
    specialize (Hbest best (list_elem_of_lookup_2 _ _ _ Hi)). lia.
Qed.

Lemma get_group_cons (df : list Customer.row) (r : Customer.row) (k : cell) :
  get_group Customer.customer_id (r :: df) k =
  if bool_decide (Customer.customer_id r = k)
  then r :: get_group Customer.customer_id df k
  else get_group Customer.customer_id df k.
Proof. reflexivity. Qed.

(** [keep="first"] keeps a row exactly when its key is new and it is the
    first row of its group. *)
Lemma elem_of_drop_duplicates_first (df : list Customer.row) :
  forall (seen : gset cell) (r : Customer.row),
    r ∈ drop_duplicates_first Customer.customer_id seen df <->
    (Customer.customer_id r ∉ seen) /\
    head (get_group Customer.customer_id df (Customer.customer_id r)) = Some r.
Proof.
  induction df as [|x df IH]; intros seen r; cbn [drop_duplicates_first].
  - split; [by intros ?%not_elem_of_nil | by intros [_ ?]].
  - rewrite get_group_cons. case_bool_decide as Hseen.
    + rewrite IH. case_bool_decide as Hk; [|done].
      split; [intros [Hr _]; congruence|].
      intros [Hr [= ->]]. done.
    + rewrite elem_of_cons, IH. case_bool_decide as Hk.
      * split.
        -- intros [->|[Hr _]]; [done|]. set_solver.
        -- intros [_ [= ->]]. by left.
      * split.
        -- intros [->|[Hr Hh]]; [done|]. split; [set_solver|done].
        -- intros [Hr Hh]. right. split; [|done]. set_solver.
Qed.

Lemma drop_duplicates_first_NoDup (df : list Customer.row) :
  forall seen : gset cell,
    NoDup (drop_duplicates_first Customer.customer_id seen df).
Proof.
  induction df as [|x df IH]; intros seen; simpl; [constructor|].
  case_bool_decide; [apply IH|].
  constructor; [|apply IH].
  rewrite elem_of_drop_duplicates_first. intros [Hx _]. set_solver.
Qed.

Lemma elem_of_dedup_customers (df : list Customer.row) (r : Customer.row) :
  r ∈ dedup_customers df <->
  exists k, k ∈ group_keys Customer.customer_id df /\
            choose_best_record (get_group Customer.customer_id df k) = Some r.
Proof.
  unfold dedup_customers, groupby. rewrite list_elem_of_omap.
  setoid_rewrite list_elem_of_fmap. naive_solver.
Qed.

Lemma choose_best_record_key (df : list Customer.row) (k : cell) (r : Customer.row) :
  choose_best_record (get_group Customer.customer_id df k) = Some r ->
  Customer.customer_id r = k.
Proof.
  unfold choose_best_record. destruct (idxmax _); [|done].
  intros Hr%list_elem_of_lookup_2. by apply elem_of_get_group in Hr as [_ ?].
Qed.

Lemma dedup_customers_NoDup (df : list Customer.row) : NoDup (dedup_customers df).
Proof.
  unfold dedup_customers, groupby.
  pose proof (group_keys_NoDup Customer.customer_id df) as Hnd.
  induction (group_keys Customer.customer_id df) as [|k keys IH]; [constructor|].
  apply NoDup_cons in Hnd as [Hk Hnd]. cbn [map omap list_omap].
  fold (omap choose_best_record (map (get_group Customer.customer_id df) keys)).
  destruct (choose_best_record _) as [r|] eqn:Hr; [|auto].
  constructor; [|auto].
  rewrite list_elem_of_omap. intros (g & Hg & Hr').
  apply list_elem_of_fmap in Hg as (k' & -> & Hk').
  apply choose_best_record_key in Hr, Hr'. congruence.
Qed.

(** C10, amended.  On a cleaned customer batch whose keys are all
    present and in which the first row of every key is at least as
    complete as the other rows of that key, ex5 and ex6 keep the same
    records; ex5 lists them by key, ex6 by first occurrence. *)
Theorem dedup_implementations_agree (df : list Customer.row) :
  keys_present df = true ->
  first_is_best df = true ->
  dedup_customers df ≡ₚ drop_duplicates_first Customer.customer_id ∅ df.
Proof.
  intros Hkeys Hfirst.
  apply NoDup_Permutation.
  - apply dedup_customers_NoDup.
  - apply drop_duplicates_first_NoDup.
  - intros r. rewrite elem_of_dedup_customers, elem_of_drop_duplicates_first.
    split.
    + intros (k & Hk & Hr). split; [set_solver|].
      pose proof (choose_best_record_key _ _ _ Hr) as Hkr. subst k.
      destruct (get_group Customer.customer_id df (Customer.customer_id r))
        as [|r0 g] eqn:Hg; [discriminate Hr|].
      rewrite <- Hg in Hr.
      rewrite (choose_best_record_first _ r0) in Hr.
      * simpl. congruence.
      * by rewrite Hg.
      * intros r' Hr'. eapply first_is_best_spec; [done| |exact Hr']. by rewrite Hg.
    + intros [_ Hhd]. exists (Customer.customer_id r).
      assert (r ∈ get_group Customer.customer_id df (Customer.customer_id r)) as Hin.
      { destruct (get_group _ _ _) as [|r0 g]; [done|]. injection Hhd as ->. left. }
      apply elem_of_get_group in Hin as [Hin _].
      split.
      * apply elem_of_group_keys. split.
        -- unfold keys_present in Hkeys. rewrite forallb_forall in Hkeys.
           by apply Hkeys, list_elem_of_In.
        -- apply list_elem_of_fmap. eauto.
      * apply choose_best_record_first; [done|].
        intros r' Hr'. by eapply first_is_best_spec.
Qed.

(** C10, amended, on [Samples.customers_first_best]. *)
Lemma dedup_implementations_agree_witness :
  keys_present Samples.customers_first_best = true /\
  first_is_best Samples.customers_first_best = true /\
  dedup_customers Samples.customers_first_best ≡ₚ
  drop_duplicates_first Customer.customer_id ∅ Samples.customers_first_best.
Proof.
  split; [reflexivity|]. split; [reflexivity|].
  apply (dedup_implementations_agree Samples.customers_first_best); reflexivity.
Defined.

(** Where both keep the same records their order can still differ. *)
Example dedup_order_differs :
  dedup_customers [Samples.bob; Samples.ann_full] = [Samples.ann_full; Samples.bob] /\
  drop_duplicates_first Customer.customer_id ∅ [Samples.bob; Samples.ann_full] =
    [Samples.bob; Samples.ann_full].
Proof. split; vm_compute; reflexivity. Qed.

(** The same difference on the two [clean_customers] as a whole. *)
Example clean_customers_differ :
  @Ex5.clean_customers Samples.externals Samples.customers =
    [Samples.ann_full; Samples.bob] /\
  @Ex6.clean_customers Samples.externals Samples.customers =
    [Samples.ann_sparse; Samples.bob].
Proof. split; vm_compute; reflexivity. Qed.

End DedupCompared.

(** ** Order of dates *)

Section DateOrder.
Import Iso.

Lemma date_leb_spec (a b : date) :
  date_leb a b = true <->
  (year a < year b \/
   (year a = year b /\
    (month a < month b \/ (month a = month b /\ day a <= day b))))%N.
Proof.
  unfold date_leb, date_compare.
  destruct (N.compare_spec (year a) (year b));
    [destruct (N.compare_spec (month a) (month b));
       [destruct (N.compare_spec (day a) (day b))| |] | |];
    split; (done || lia).
Qed.

Lemma date_ltb_spec (a b : date) :
  date_ltb a b = true <->
  (year a < year b \/
   (year a = year b /\
    (month a < month b \/ (month a = month b /\ day a < day b))))%N.
Proof.
  unfold date_ltb, date_compare.
  destruct (N.compare_spec (year a) (year b));
    [destruct (N.compare_spec (month a) (month b));
       [destruct (N.compare_spec (day a) (day b))| |] | |];
    split; (done || lia).
Qed.

#[local] Instance date_le_refl : Reflexive date_le.
Proof. intros a. apply date_leb_spec. lia. Qed.

#[local] Instance date_le_trans : Transitive date_le.
Proof.
  intros a b c. unfold date_le. rewrite !date_leb_spec. lia.
Qed.

#[local] Instance date_le_total : Total date_le.
Proof.
  intros a b. unfold date_le. rewrite !date_leb_spec. lia.
Qed.

Lemma date_ltb_le (a b : date) : date_ltb a b = true -> date_le a b.
Proof. unfold date_le. rewrite date_ltb_spec, date_leb_spec. lia. Qed.

Lemma date_ltb_false_le (a b : date) : date_ltb a b = false -> date_le b a.
Proof.
  intros Hf. unfold date_le. apply date_leb_spec.
  destruct (decide (year b < year a \/
     (year b = year a /\
      (month b < month a \/ (month b = month a /\ day b <= day a))))%N) as [|Hn];
    [done|].
  assert (date_ltb a b = true) by (apply date_ltb_spec; lia). congruence.
Qed.

Lemma string_ltb_strftime (a b : date) :
  valid_date a -> valid_date b ->
  String.ltb (strftime_Ymd a) (strftime_Ymd b) = date_ltb a b.
Proof.
  intros Ha Hb. unfold String.ltb, date_ltb. by rewrite strftime_compare.
Qed.

End DateOrder.

(** ** The incremental load (ex3) *)

Section IncrementalLoad.
Import Iso Ex3 Ex3Spec.

#[local] Existing Instances date_le_refl date_le_trans date_le_total.

Lemma cleaned_row_spec (r : Sale.row) :
  cleaned_row r = true ->
  exists d, dated (r, d).
Proof.
  unfold cleaned_row, dated.
  destruct (Sale.transaction_date r) as [| |s|] eqn:E; try done.
  destruct (parse_Ymd s) as [d|]; [|done].
  intros [Hv Hs]%andb_true_iff. exists d. split.
  - by apply valid_dateb_spec.
  - simpl. rewrite E. f_equal. symmetry. by apply String.eqb_eq.
Qed.

Lemma to_datetime_str_strftime (d : date) :
  valid_date d -> to_datetime_str (strftime_Ymd d) = Some d.
Proof.
  intros Hv. unfold to_datetime_str. rewrite parse_strftime by done.
  cbn [mbind option_bind]. unfold valid_date in Hv. by rewrite Hv.
Qed.

Lemma to_datetime_str_valid (s : string) (d : date) :
  to_datetime_str s = Some d -> valid_date d.
Proof.
  unfold to_datetime_str. destruct (parse_Ymd s) as [d'|]; [|done].
  cbn [mbind option_bind]. destruct (valid_dateb d') eqn:Hv; [|done].
  by intros [= <-].
Qed.

Lemma date_of_valid (r : Sale.row) (d : date) : date_of r = Some d -> valid_date d.
Proof.
  unfold date_of, to_datetime_Ymd.
  destruct (Sale.transaction_date r); try done. apply to_datetime_str_valid.
Qed.

Lemma dated_date_of (p : Sale.row * date) : dated p -> date_of p.1 = Some p.2.
Proof.
  intros [Hv Hs]. unfold date_of, to_datetime_Ymd. rewrite Hs.
  by apply to_datetime_str_strftime.
Qed.

Lemma dated_cleaned_row (p : Sale.row * date) : dated p -> cleaned_row p.1 = true.
Proof.
  intros [Hv Hs]. unfold cleaned_row. rewrite Hs, parse_strftime by done.
  apply andb_true_iff. split; [by apply valid_dateb_spec | apply String.eqb_refl].
Qed.

Lemma with_transaction_date_dt_cleaned (df : list Sale.row) :
  cleaned df = true ->
  exists l, with_transaction_date_dt df = Some l /\ map fst l = df /\ Forall dated l.
Proof.
  unfold cleaned, with_transaction_date_dt.
  induction df as [|r df IH]; intros Hc.
  - exists []. by repeat split.
  - simpl in Hc. apply andb_true_iff in Hc as [Hr Hdf].
    destruct (IH Hdf) as (l & Hl & Hfst & Hall).
    destruct (cleaned_row_spec r Hr) as (d & Hd).
    exists ((r, d) :: l). repeat split.
    + pose proof (dated_date_of (r, d) Hd) as Hd'. unfold date_of in Hd'.
      simpl in Hd'. simpl. rewrite Hd'. simpl.
      unfold with_transaction_date_dt in Hl. by rewrite Hl.
    + simpl. by rewrite Hfst.
    + by constructor.
Qed.

Lemma filter_dated_fst (wm : date) (l : list (Sale.row * date)) :
  Forall dated l ->
  map fst (List.filter (fun p => date_ltb wm p.2) l) =
  List.filter (newer_than wm) (map fst l).
Proof.
  induction 1 as [|p l Hp Hl IH]; [reflexivity|].
  simpl. unfold newer_than at 1. rewrite (dated_date_of p Hp).
  destruct (date_ltb wm p.2); simpl; by rewrite IH.
Qed.

(** The largest text of the column is the text of the largest date. *)
Lemma str_max_dated (l : list (Sale.row * date)) :
  Forall dated l -> l <> [] ->
  exists p, p ∈ l /\
    str_max (map Sale.transaction_date (map fst l)) = Some (strftime_Ymd p.2) /\
    (forall q, q ∈ l -> date_le q.2 p.2).
Proof.
  induction 1 as [|p l Hp Hl IH]; [done|]. intros _.
  destruct Hp as [Hv Hs]. simpl. rewrite Hs.
  destruct l as [|p' l'].
  - exists p. repeat split; [left|].
    intros q ->%list_elem_of_singleton. reflexivity.
  - destruct IH as (m & Hm & -> & Hmax); [done|].
    assert (valid_date m.2) as Hvm.
    { rewrite Forall_forall in Hl. by destruct (Hl m Hm). }
    rewrite string_ltb_strftime by done.
    destruct (date_ltb m.2 p.2) eqn:Hlt.
    + exists p. repeat split; [left|].
      intros q [->|Hq]%elem_of_cons; [reflexivity|].
      transitivity m.2; [by apply Hmax | by apply date_ltb_le].
    + exists m. repeat split; [by right|].
      intros q [->|Hq]%elem_of_cons; [by apply date_ltb_false_le | by apply Hmax].
Qed.

#[local] Instance dt_le_total : Total dt_le.
Proof. intros a b. apply date_le_total. Qed.

Lemma sort_insert_Permutation (p : Sale.row * date) (l : list (Sale.row * date)) :
  sort_insert p l ≡ₚ p :: l.
Proof.
  induction l as [|q l IH]; cbn [sort_insert]; [done|].
  destruct (date_leb p.2 q.2); [done|]. rewrite IH. apply Permutation_swap.
Qed.

Lemma sort_values_Permutation (l : list (Sale.row * date)) : sort_values l ≡ₚ l.
Proof.
  unfold sort_values. induction l as [|p l IH]; cbn [foldr]; [done|].
  by rewrite sort_insert_Permutation, IH.
Qed.

Lemma sort_insert_Sorted (p : Sale.row * date) (l : list (Sale.row * date)) :
  Sorted dt_le l -> Sorted dt_le (sort_insert p l).
Proof.
  intros Hs. induction l as [|q l IH]; cbn [sort_insert]; [by repeat constructor|].
  apply Sorted_inv in Hs as [Hl Hhd].
  destruct (date_leb p.2 q.2) eqn:Hle.
  - constructor; [by constructor|]. by constructor.
  - constructor; [by apply IH|].
    assert (dt_le q p) as Hqp.
    { destruct (date_le_total q.2 p.2) as [|Hpq]; [done|].
      unfold date_le in Hpq. congruence. }
    destruct l as [|q' l]; cbn [sort_insert]; [by constructor|].
    apply HdRel_inv in Hhd. destruct (date_leb p.2 q'.2); by constructor.
Qed.

Lemma sort_values_Sorted (l : list (Sale.row * date)) : Sorted dt_le (sort_values l).
Proof.
  unfold sort_values. induction l as [|p l IH]; cbn [foldr]; [constructor|].
  by apply sort_insert_Sorted.
Qed.

Lemma sorted_dated_rows (l : list (Sale.row * date)) :
  Forall dated l -> Sorted dt_le l -> Sorted row_date_le (map fst l).
Proof.
  intros Hall Hs. induction Hs as [|p l Hs IH Hhd]; [constructor|].
  apply Forall_cons in Hall as [Hp Hl]. simpl. constructor; [auto|].
  destruct Hhd as [|q l Hpq]; simpl; constructor.
  apply Forall_cons in Hl as [Hq _].
  unfold row_date_le. by rewrite (dated_date_of p Hp), (dated_date_of q Hq).
Qed.

Lemma upsert_nil (sink : list Sale.row) : upsert sink [] = sink.
Proof.
  unfold upsert. rewrite app_nil_r. induction sink as [|s sink IH]; [done|].
  simpl in *. by rewrite IH.
Qed.

(** One run on a cleaned batch: it does not fail, it loads the
    incremental rows in date order, and it writes the state row. *)
Lemma load_incremental_sales_run (now : Z) (batch : list Sale.row) (db : database) :
  cleaned batch = true ->
  readable_watermark db = true ->
  exists loaded new_wm,
    load_incremental_sales now batch db =
      Some (update_state new_wm (Z.of_nat (length loaded)) now
              (Database (ex_3_etl_state db) (upsert (ex_3_sales db) loaded))) /\
    loaded ≡ₚ incremental_rows (get_last_watermark db) batch /\
    Sorted row_date_le loaded /\
    (loaded = [] -> new_wm = get_last_watermark db) /\
    (loaded <> [] -> is_latest_date new_wm loaded).
Proof.
  intros Hc Hr.
  destruct (with_transaction_date_dt_cleaned batch Hc) as (l & Hl & Hfst & Hall).
  unfold load_incremental_sales. rewrite Hl. cbn [mbind option_bind].
  unfold readable_watermark in Hr.
  set (wm := get_last_watermark db) in *.
  set (F := match wm with
            | Some w => List.filter (fun r : Sale.row * date => date_ltb w r.2) l
            | None => l
            end).
  assert (HFeq :
    match wm with
    | Some wm0 =>
        to_datetime_date wm0 ≫= fun wm1 : date =>
          Some (List.filter (fun r : Sale.row * date => date_ltb wm1 r.2) l)
    | None => Some l
    end = Some F).
  { unfold F. destruct wm as [w|]; [|done]. unfold to_datetime_date. by rewrite Hr. }
  rewrite HFeq. cbn [mbind option_bind]. clear HFeq.
  assert (HF : Forall dated F).
  { unfold F. destruct wm; [|done].
    rewrite Forall_forall in *. intros p [Hp _]%elem_of_List_filter. auto. }
  assert (HFrows : map fst F = incremental_rows wm batch).
  { unfold F, incremental_rows. destruct wm; [|done].
    by rewrite filter_dated_fst, Hfst. }
  assert (HS : Forall dated (sort_values F)) by (by rewrite sort_values_Permutation).
  exists (map fst (sort_values F)).
  destruct (sort_values F) as [|p S] eqn:ES.
  - exists wm. cbn [map length Nat.eqb]. rewrite upsert_nil.
    split; [by destruct db|]. split; [|split; [constructor|by split]].
    rewrite <- HFrows.
    assert (F ≡ₚ []) as HFnil by (by rewrite <- ES, sort_values_Permutation).
    apply Permutation_nil_r in HFnil. by rewrite HFnil.
  - destruct (str_max_dated (p :: S) HS) as (m & Hm & Hmax & Hle); [done|].
    exists (Some m.2).
    cbn [length map Nat.eqb]. cbn [map] in Hmax. rewrite Hmax.
    cbn [mbind option_bind].
    assert (dated m) as Hdm by (rewrite Forall_forall in HS; auto).
    rewrite to_datetime_str_strftime by apply Hdm.
    cbn [mbind option_bind].
    split; [done|]. split; [|split; [|split; [done|]]].
    + change (map fst (p :: S) ≡ₚ incremental_rows wm batch).
      by rewrite <- HFrows, <- ES, sort_values_Permutation.
    + change (Sorted row_date_le (map fst (p :: S))).
      apply sorted_dated_rows; [done|].
      rewrite <- ES. apply sort_values_Sorted.
    + intros _. split.
      * exists m.1. split.
        -- change (m.1 ∈ map fst (p :: S)). apply list_elem_of_fmap. eauto.
        -- by apply dated_date_of.
      * intros r d Hr' Hd.
        change (r ∈ map fst (p :: S)) in Hr'.
        apply list_elem_of_fmap in Hr' as (q & -> & Hq).
        assert (dated q) as Hdq by (rewrite Forall_forall in HS; auto).
        rewrite (dated_date_of q Hdq) in Hd. injection Hd as <-. by apply Hle.
Qed.

Lemma get_last_watermark_update_state (wm : option date) (n now : Z) (db : database) :
  get_last_watermark (update_state wm n now db) = wm.
Proof.
  unfold get_last_watermark, update_state. cbn. by rewrite lookup_insert_eq.
Qed.

(** A run leaves a watermark that the next run can read. *)
Lemma load_incremental_sales_readable (now : Z) (batch : list Sale.row)
    (db db' : database) :
  cleaned batch = true ->
  readable_watermark db = true ->
  load_incremental_sales now batch db = Some db' ->
  readable_watermark db' = true.
Proof.
  intros Hc Hr Hrun.
  destruct (load_incremental_sales_run now batch db Hc Hr)
    as (loaded & new_wm & Hrun' & _ & _ & Hnil & Hcons).
  rewrite Hrun in Hrun'. injection Hrun' as ->.
  unfold readable_watermark. rewrite get_last_watermark_update_state.
  destruct loaded as [|r loaded].
  - rewrite Hnil by done. exact Hr.
  - specialize (Hcons ltac:(done)). destruct new_wm as [m|]; [|done].
    destruct Hcons as [(r' & _ & Hd) _]. by apply date_of_valid in Hd.
Qed.

Lemma is_latest_date_perm (wm : option date) (l k : list Sale.row) :
  l ≡ₚ k -> is_latest_date wm l -> is_latest_date wm k.
Proof.
  intros Hp. destruct wm as [m|]; simpl.
  - intros [(r & Hr & Hd) Hmax]. split.
    + exists r. by rewrite <- Hp.
    + intros r' d Hr'. apply Hmax. by rewrite Hp.
  - intros ->. by apply Permutation_nil_l in Hp.
Qed.

(** C2.  One run of the incremental loader on a cleaned batch: every
    [transaction_date] is the [%Y-%m-%d] text of a day that pandas reads,
    and so is the stored watermark when there is one.  The run loads
    [loaded] into the sink, in ascending date order.  When the state table
    has no row for the pipeline, [loaded] is the whole batch and the
    stored watermark becomes the largest [transaction_date] of the batch.
    When a watermark [wm] is stored, [loaded] is exactly the rows of the
    batch whose [transaction_date] is strictly after [wm]. *)
Theorem load_incremental_sales_step (now : Z) (batch : list Sale.row) (db : database) :
  cleaned batch = true ->
  readable_watermark db = true ->
  exists loaded db',
    load_incremental_sales now batch db = Some db' /\
    ex_3_sales db' = upsert (ex_3_sales db) loaded /\
    Sorted row_date_le loaded /\
    (ex_3_etl_state db !! pipeline_name = None ->
       loaded ≡ₚ batch /\ is_latest_date (get_last_watermark db') batch) /\
    (forall wm, get_last_watermark db = Some wm ->
       loaded ≡ₚ List.filter (newer_than wm) batch).
Proof.
  intros Hc Hr.
  destruct (load_incremental_sales_run now batch db Hc Hr)
    as (loaded & new_wm & Hrun & Hperm & Hsorted & Hnil & Hcons).
  exists loaded. eexists. split; [exact Hrun|].
  split; [reflexivity|]. split; [exact Hsorted|]. split.
  - intros Hrow. rewrite get_last_watermark_update_state.
    assert (get_last_watermark db = None) as Hwm
      by (unfold get_last_watermark; by rewrite Hrow).
    rewrite Hwm in Hperm, Hnil. simpl in Hperm. split; [done|].
    apply (is_latest_date_perm _ loaded); [done|].
    destruct loaded as [|r loaded]; [by rewrite Hnil | by apply Hcons].
  - intros wm Hwm. by rewrite Hwm in Hperm.
Qed.

#[local] Instance wm_le_refl : Reflexive wm_le.
Proof. intros [a|]; simpl; [reflexivity|done]. Qed.

#[local] Instance wm_le_trans : Transitive wm_le.
Proof.
  intros [a|] [b|] [c|]; simpl; try done. apply date_le_trans.
Qed.

(** One run never lowers the watermark, and a run that finds nothing to
    load writes the clock reading and a row count of zero next to the
    watermark it found. *)
Lemma load_incremental_sales_watermark (now : Z) (batch : list Sale.row) (db : database) :
  cleaned batch = true ->
  readable_watermark db = true ->
  exists db',
    load_incremental_sales now batch db = Some db' /\
    wm_le (get_last_watermark db) (get_last_watermark db') /\
    (incremental_rows (get_last_watermark db) batch = [] ->
       ex_3_etl_state db' !! pipeline_name =
         Some (StateRow (get_last_watermark db) now 0) /\
       ex_3_sales db' = ex_3_sales db).
Proof.
  intros Hc Hr.
  destruct (load_incremental_sales_run now batch db Hc Hr)
    as (loaded & new_wm & Hrun & Hperm & Hsorted & Hnil & Hcons).
  eexists. split; [exact Hrun|]. rewrite get_last_watermark_update_state. split.
  - destruct loaded as [|r loaded]; [by rewrite Hnil|].
    specialize (Hcons ltac:(done)).
    destruct (get_last_watermark db) as [w|]; [|done].
    destruct new_wm as [m|]; [|done].
    destruct Hcons as [(r' & Hr' & Hd) _]. simpl in *.
    rewrite Hperm in Hr'. apply elem_of_List_filter in Hr' as [_ Hnew].
    unfold newer_than in Hnew. rewrite Hd in Hnew. by apply date_ltb_le.
  - intros Hempty. rewrite Hempty in Hperm. apply Permutation_nil_r in Hperm.
    subst loaded. rewrite Hnil by done. cbn. rewrite upsert_nil.
    split; [|done]. by rewrite lookup_insert_eq.
Qed.

(** C4.  Take any sequence of runs on cleaned batches, from a sink whose
    stored watermark, if there is one, is a day pandas reads.  No run
    fails, the stored [last_processed_date] never decreases from one point
    of the sequence to a later one; and a run whose incremental batch is
    empty stores the clock reading in [last_run_ts] and 0 in
    [last_run_rows] and leaves [last_processed_date] as it was. *)
Theorem watermark_monotone (runs : list (Z * list Sale.row)) (db : database) :
  all_cleaned runs = true ->
  readable_watermark db = true ->
  exists dbs,
    run_all runs db = Some dbs /\
    length dbs = length runs /\
    StronglySorted wm_le (map get_last_watermark (db :: dbs)) /\
    (forall i now batch before after,
       runs !! i = Some (now, batch) ->
       (db :: dbs) !! i = Some before ->
       dbs !! i = Some after ->
       incremental_rows (get_last_watermark before) batch = [] ->
       ex_3_etl_state after !! pipeline_name =
         Some (StateRow (get_last_watermark before) now 0) /\
       get_last_watermark after = get_last_watermark before).
Proof.
  revert db. induction runs as [|[now batch] runs IH]; intros db Hc Hr.
  - exists []. split; [done|]. split; [done|]. split.
    + repeat constructor.
    + intros i ? ? ? ? Hi. by rewrite lookup_nil in Hi.
  - simpl in Hc. apply andb_true_iff in Hc as [Hb Hc].
    destruct (load_incremental_sales_watermark now batch db Hb Hr)
      as (db' & Hrun & Hle & Hempty).
    pose proof (load_incremental_sales_readable now batch db db' Hb Hr Hrun) as Hr'.
    destruct (IH db' Hc Hr') as (dbs & Hdbs & Hlen & Hsorted & Hruns).
    exists (db' :: dbs). cbn [run_all]. rewrite Hrun. cbn. rewrite Hdbs. cbn.
    split; [done|]. split; [by rewrite Hlen|]. split.
    + apply Sorted_StronglySorted; [apply _|].
      apply StronglySorted_Sorted in Hsorted.
      constructor; [exact Hsorted|]. by constructor.
    + intros [|i] now' batch' before after Hi Hbefore Hafter Hnone.
      * injection Hi as -> ->. injection Hbefore as <-. injection Hafter as <-.
        destruct (Hempty Hnone) as [Hrow _]. split; [done|].
        unfold get_last_watermark at 1. by rewrite Hrow.
      * by apply (Hruns i now' batch' before after).
Qed.

(** A stored row whose date is NULL is read like a missing row: the run
    is a full load. *)
Lemma load_incremental_sales_null_watermark (now : Z) (batch : list Sale.row)
    (db : database) :
  cleaned batch = true ->
  get_last_watermark db = None ->
  exists loaded db',
    load_incremental_sales now batch db = Some db' /\
    ex_3_sales db' = upsert (ex_3_sales db) loaded /\
    loaded ≡ₚ batch.
Proof.
  intros Hc Hwm.
  assert (Hr : readable_watermark db = true)
    by (unfold readable_watermark; by rewrite Hwm).
  destruct (load_incremental_sales_run now batch db Hc Hr)
    as (loaded & new_wm & Hrun & Hperm & _).
  rewrite Hwm in Hperm. exists loaded. eexists. by split; [exact Hrun|].
Qed.

(** The batch [transform_sales] hands to the loader is cleaned, as long
    as the date parser of pandas yields days of the calendar whose
    midnight lies within the Timestamp bounds. *)
Lemma transform_sales_cleaned `{Externals} (df : list Sale.row) :
  (forall s d, datetime_of_string s = Some d -> valid_date d) ->
  (forall x d, datetime_of_number x = Some d -> valid_date d) ->
  cleaned (transform_sales df) = true.
Proof.
  intros Hstr Hnum. unfold cleaned. apply forallb_forall.
  intros r Hr%list_elem_of_In. unfold transform_sales in Hr.
  apply list_elem_of_omap in Hr as ([r0 [d|]] & Hin & Hr); [|done].
  cbn in Hr. injection Hr as <-.
  rewrite drop_where_filter in Hin. apply elem_of_List_filter in Hin as [Hin _].
  apply list_elem_of_fmap in Hin as (r1 & [= -> Hd] & _).
  apply (dated_cleaned_row (_, d)). split; [|done]. cbn.
  unfold to_datetime in Hd. repeat case_match; try done; eauto.
Qed.

End IncrementalLoad.

Section IncrementalLoadSamples.
Import Iso Ex3 Ex3Spec.

(** C2 on the first run over an empty sink. *)
Lemma load_incremental_sales_step_witness :
  cleaned Samples.sales_first = true /\
  readable_watermark Samples.empty_sink = true /\
  exists loaded db',
    load_incremental_sales 1 Samples.sales_first Samples.empty_sink = Some db' /\
    ex_3_sales db' = upsert (ex_3_sales Samples.empty_sink) loaded /\
    Sorted row_date_le loaded /\
    (ex_3_etl_state Samples.empty_sink !! pipeline_name = None ->
       loaded ≡ₚ Samples.sales_first /\
       is_latest_date (get_last_watermark db') Samples.sales_first) /\
    (forall wm, get_last_watermark Samples.empty_sink = Some wm ->
       loaded ≡ₚ List.filter (newer_than wm) Samples.sales_first).
Proof.
  split; [reflexivity|]. split; [reflexivity|].
  apply (load_incremental_sales_step 1 Samples.sales_first Samples.empty_sink);
    reflexivity.
Defined.

(** C4 on three runs, the second of which finds nothing new. *)
Lemma watermark_monotone_witness :
  all_cleaned [(1%Z, Samples.sales_first); (2%Z, Samples.sales_first);
               (3%Z, Samples.sales_second)] = true /\
  readable_watermark Samples.empty_sink = true /\
  exists dbs,
    run_all [(1%Z, Samples.sales_first); (2%Z, Samples.sales_first);
             (3%Z, Samples.sales_second)] Samples.empty_sink = Some dbs /\
    length dbs = 3 /\
    StronglySorted wm_le (map get_last_watermark (Samples.empty_sink :: dbs)) /\
    (forall i now batch before after,
       [(1%Z, Samples.sales_first); (2%Z, Samples.sales_first);
        (3%Z, Samples.sales_second)] !! i = Some (now, batch) ->
       (Samples.empty_sink :: dbs) !! i = Some before ->
       dbs !! i = Some after ->
       incremental_rows (get_last_watermark before) batch = [] ->
       ex_3_etl_state after !! pipeline_name =
         Some (StateRow (get_last_watermark before) now 0) /\
       get_last_watermark after = get_last_watermark before).
Proof.
  split; [reflexivity|]. split; [reflexivity|].
  apply (watermark_monotone
           [(1%Z, Samples.sales_first); (2%Z, Samples.sales_first);
            (3%Z, Samples.sales_second)] Samples.empty_sink);
    reflexivity.
Defined.

(** The scenario of the specification: a first full load, a second run
    on the unchanged source, a third run after three newer rows arrived. *)
Example three_runs :
  (fun dbs => map (fun db => (get_last_watermark db, map Sale.transaction_id (ex_3_sales db)))
                dbs)
    <$> run_all [(1%Z, Samples.sales_first); (2%Z, Samples.sales_first);
                 (3%Z, Samples.sales_second)] Samples.empty_sink =
  Some [ (Some (Date 2025 3 10), [Str "T000002"; Str "T000003"; Str "T000001"]);
         (Some (Date 2025 3 10), [Str "T000002"; Str "T000003"; Str "T000001"]);
         (Some (Date 2025 3 13),
          [Str "T000002"; Str "T000003"; Str "T000001";
           Str "T000005"; Str "T000006"; Str "T000004"]) ].
Proof. vm_compute. reflexivity. Qed.

End IncrementalLoadSamples.

(** ** The retrying fetch (ex6) *)

Section Fetcher.
Import Ex6 Ex6Spec.
Context `{Externals}.

Lemma requests_retry (n : nat) (trace : list event) :
  requests (Get :: Sleep n :: trace) = S (requests trace).
Proof. reflexivity. Qed.

Lemma slept_retry (n : nat) (trace : list event) :
  slept (Get :: Sleep n :: trace) = n + slept trace.
Proof. reflexivity. Qed.

Lemma backoff_from (attempt : nat) :
  attempt < MAX_RETRIES ->
  list_sum (map (fun a => BACKOFF_FACTOR ^ a) (seq (S attempt) (MAX_RETRIES - attempt))) =
  BACKOFF_FACTOR ^ (attempt + 1) +
  list_sum (map (fun a => BACKOFF_FACTOR ^ a)
              (seq (S (attempt + 1)) (MAX_RETRIES - (attempt + 1)))).
Proof.
  intros Hlt.
  replace (MAX_RETRIES - attempt) with (S (MAX_RETRIES - (attempt + 1))) by lia.
  cbn [seq map list_sum foldr]. by rewrite Nat.add_1_r.
Qed.

(** With fuel beyond the attempts that remain the loop returns; it
    issues at most one request per remaining attempt and sleeps at most
    the remaining part of the backoff schedule. *)
Lemma fetch_loop_bound (net : nat -> response) (fuel : nat) :
  forall attempt sent,
    MAX_RETRIES - attempt < fuel ->
    exists df trace,
      fetch_loop fuel net attempt sent = (Some df, trace) /\
      requests trace <= MAX_RETRIES - attempt /\
      slept trace <=
        list_sum (map (fun a => BACKOFF_FACTOR ^ a)
                    (seq (S attempt) (MAX_RETRIES - attempt))).
Proof.
  induction fuel as [|fuel IH]; intros attempt sent Hfuel; [lia|].
  cbn [fetch_loop].
  destruct (Nat.ltb_spec attempt MAX_RETRIES) as [Hlt|Hge].
  2: { exists [], []. split; [done|].
       change (requests []) with 0. change (slept []) with 0. lia. }
  assert (Hretry :
    exists df trace,
      (let '(result, trace) := fetch_loop fuel net (attempt + 1) (S sent) in
       (result, Get :: Sleep (BACKOFF_FACTOR ^ (attempt + 1)) :: trace)) =
      (Some df, trace) /\
      requests trace <= MAX_RETRIES - attempt /\
      slept trace <=
        list_sum (map (fun a => BACKOFF_FACTOR ^ a)
                    (seq (S attempt) (MAX_RETRIES - attempt)))).
  { destruct (IH (attempt + 1) (S sent)) as (df & trace & -> & Hreq & Hslept); [lia|].
    eexists _, _. split; [reflexivity|]. rewrite backoff_from by done.
    rewrite requests_retry, slept_retry. split; lia. }
  assert (Hstop :
    requests [Get] <= MAX_RETRIES - attempt /\
    slept [Get] <=
      list_sum (map (fun a => BACKOFF_FACTOR ^ a)
                  (seq (S attempt) (MAX_RETRIES - attempt)))).
  { change (requests [Get]) with 1. change (slept [Get]) with 0. split; lia. }
  destruct (net sent) as [| |status_code b].
  - exact Hretry.
  - exists [], [Get]. split; [done|]. exact Hstop.
  - case_bool_decide.
    + destruct (Nat.leb_spec MAX_RETRIES (attempt + 1)).
      * exists [], [Get]. split; [done|]. exact Hstop.
      * exact Hretry.
    + destruct b as [| |data]; eexists _, [Get]; (split; [reflexivity|]);
        exact Hstop.
Qed.

(** C6.  Whatever the network answers, the fetcher returns, having
    issued at most [MAX_RETRIES] requests and having slept at most the sum
    of [BACKOFF_FACTOR ** attempt] over the attempts 1 .. [MAX_RETRIES]. *)
Theorem fetch_retry_bound (net : nat -> response) :
  exists df trace,
    fetch_all_product_metadata net = (Some df, trace) /\
    requests trace <= MAX_RETRIES /\
    slept trace <= list_sum backoff_schedule.
Proof.
  destruct (fetch_loop_bound net (S MAX_RETRIES) 0 0) as (df & trace & Hf & Hr & Hs);
    [lia|].
  exists df, trace. split; [exact Hf|].
  rewrite Nat.sub_0_r in Hr, Hs. by split.
Qed.




End Fetcher.

Section FetcherSamples.
Import Ex6 Ex6Spec.


(** Three timeouts exhaust the retries; a 500 on the last attempt ends
    the run without a further wait. *)
Example fetch_traces :
  @fetch_all_product_metadata Samples.externals (fun _ => Timeout) =
    (Some [], [Get; Sleep 2; Get; Sleep 4; Get; Sleep 8]) /\
  @fetch_all_product_metadata Samples.externals (fun _ => Http 500 Unparseable) =
    (Some [], [Get; Sleep 2; Get; Sleep 4; Get]).
Proof. split; vm_compute; reflexivity. Qed.

End FetcherSamples.

(** ** Ratings of the fetched metadata (ex6) *)

Section Ratings.
Import Ex6 Ex6Spec.
Context `{Externals}.

Lemma Qc_ltb_spec (a b : Qc) : Qc_ltb a b = true <-> (a < b)%Qc.
Proof.
  unfold Qc_ltb. rewrite Qclt_alt. destruct (a ?= b)%Qc; split; congruence.
Qed.

Lemma Qc_ltb_false (a b : Qc) : Qc_ltb a b = false -> (b <= a)%Qc.
Proof.
  intros Hf. apply Qcnot_lt_le. intros Hlt%Qc_ltb_spec. congruence.
Qed.

Lemma clip_id (x : float) :
  float_ltb x Ex5.zero || float_ltb five x = false -> clip x = x.
Proof.
  intros [H0 H5]%orb_false_iff. unfold clip. by rewrite H0, H5.
Qed.

Lemma clip_in_range (x : float) : rating_in_range (Num (clip x)).
Proof.
  assert (Hz : rating_in_range (Num Ex5.zero)).
  { right. exists (Q2Qc 0). split; [done|]. split; [apply Qcle_refl | done]. }
  assert (Hf : rating_in_range (Num five)).
  { right. exists (Q2Qc 5). split; [done|]. split; [done | apply Qcle_refl]. }
  unfold clip. destruct x as [| | |q]; cbn; try done.
  - by left.
  - destruct (Qc_ltb q (Q2Qc 0)) eqn:H0; [done|].
    destruct (Qc_ltb (Q2Qc 5) q) eqn:H5; [done|].
    right. exists q. split; [done|]. split; by apply Qc_ltb_false.
Qed.

Lemma set_rating_same (r : Meta.row) : Meta.set_rating (Meta.rating r) r = r.
Proof. by destruct r. Qed.

(** The conditional update of the column equals clipping every rating. *)
Lemma normalize_metadata_records (data : list (gmap string cell)) :
  normalize_metadata data =
  drop_duplicates_last Meta.product_id (map (normalized_record data) data).
Proof.
  unfold normalize_metadata. f_equal. rewrite map_map.
  set (rows := map _ data).
  set (out_of_bounds := fun r : Meta.row =>
         match Meta.rating r with
         | Num x => float_ltb x Ex5.zero || float_ltb five x
         | _ => false
         end).
  assert (Hrows : forall r, r ∈ rows -> exists x, Meta.rating r = Num x).
  { intros r (rec & -> & _)%list_elem_of_fmap. eauto. }
  assert (Hclip : forall r x, Meta.rating r = Num x ->
            (if out_of_bounds r && notna (Meta.rating r)
             then match Meta.rating r with
                  | Num x => Meta.set_rating (Num (clip x)) r
                  | _ => r
                  end
             else r) = Meta.set_rating (Num (clip x)) r).
  { intros r x Hx. unfold out_of_bounds. rewrite Hx.
    destruct (float_ltb x Ex5.zero || float_ltb five x) eqn:Hoob.
    - destruct x; try done.
    - rewrite clip_id by done. rewrite <- Hx. by rewrite set_rating_same. }
  transitivity (map (fun r => match Meta.rating r with
                              | Num x => Meta.set_rating (Num (clip x)) r
                              | _ => r
                              end) rows).
  - destruct (existsb out_of_bounds rows) eqn:Hex.
    + apply map_ext_in. intros r Hr%list_elem_of_In.
      destruct (Hrows r Hr) as [x Hx]. cbv beta.
      fold (out_of_bounds r). rewrite (Hclip r x Hx). by rewrite Hx.
    + rewrite <- (map_id rows) at 1. apply map_ext_in. intros r Hr.
      pose proof Hr as Hr'%list_elem_of_In.
      destruct (Hrows r Hr') as [x Hx]. rewrite Hx.
      assert (out_of_bounds r = false) as Hno.
      { destruct (out_of_bounds r) eqn:E; [|done].
        assert (existsb out_of_bounds rows = true)
          by (apply existsb_exists; eauto). congruence. }
      unfold out_of_bounds in Hno. rewrite Hx in Hno.
      rewrite clip_id by done. rewrite <- Hx. by rewrite set_rating_same.
  - unfold rows. rewrite map_map. reflexivity.
Qed.

Lemma elem_of_drop_duplicates_last {A} (key : A -> cell) (df : list A) (r : A) :
  r ∈ drop_duplicates_last key df -> r ∈ df.
Proof.
  induction df as [|x df IH]; [done|]. cbn [drop_duplicates_last].
  destruct (existsb _ df).
  - intros ?%IH. by right.
  - intros [->|?%IH]%elem_of_cons; [left | by right].
Qed.

Lemma normalize_metadata_in_range (data : list (gmap string cell)) :
  Forall (fun r => rating_in_range (Meta.rating r)) (normalize_metadata data).
Proof.
  rewrite normalize_metadata_records. apply Forall_forall.
  intros r Hr%elem_of_drop_duplicates_last.
  apply list_elem_of_fmap in Hr as (rec & -> & _). apply clip_in_range.
Qed.

Lemma fetch_loop_result (net : nat -> response) (fuel : nat) :
  forall attempt sent,
    (fetch_loop fuel net attempt sent).1 = None \/
    (fetch_loop fuel net attempt sent).1 = Some [] \/
    exists data, (fetch_loop fuel net attempt sent).1 = Some (normalize_metadata data).
Proof.
  induction fuel as [|fuel IH]; intros attempt sent; [by left|].
  cbn [fetch_loop].
  assert (Hretry :
    let r := (let '(result, trace) := fetch_loop fuel net (attempt + 1) (S sent) in
              (result, Get :: Sleep (BACKOFF_FACTOR ^ (attempt + 1)) :: trace)) in
    r.1 = None \/ r.1 = Some [] \/ exists data, r.1 = Some (normalize_metadata data)).
  { specialize (IH (attempt + 1) (S sent)).
    by destruct (fetch_loop fuel net (attempt + 1) (S sent)). }
  destruct (attempt <? MAX_RETRIES); [|by right; left].
  destruct (net sent) as [| |status_code b]; [exact Hretry | by right; left |].
  case_bool_decide.
  - destruct (MAX_RETRIES <=? attempt + 1); [by right; left | exact Hretry].
  - destruct b; [by right; left | by right; left | right; right; eauto].
Qed.

End Ratings.

(** ** Enrichment (ex6) *)

Section Enrichment.
Import Ex6 Ex6Spec.

Lemma update_where {A} (P : A -> bool) (f : A -> A) (l : list A) :
  (if existsb P l then map (fun r => if P r then f r else r) l else l) =
  map (fun r => if P r then f r else r) l.
Proof.
  destruct (existsb P l) eqn:E; [reflexivity|].
  rewrite <- (map_id l) at 1. apply map_ext_in. intros r Hr.
  destruct (P r) eqn:HP; [|reflexivity].
  assert (existsb P l = true) by (apply existsb_exists; eauto). congruence.
Qed.

Lemma enrich_nonempty (products_df : list Product.row) (api_df : list Meta.row) :
  api_df <> [] ->
  enrich_products_with_api products_df api_df =
  map fill_availability_status (map fill_description (merge_left products_df api_df)).
Proof.
  intros Hne. unfold enrich_products_with_api.
  destruct api_df as [|m api_df]; [done|].
  rewrite (update_where (fun r => isna (Enriched.description r))
             (Enriched.set_description (Str default_description))).
  apply (update_where (fun r => isna (Enriched.availability_status r))
           (Enriched.set_availability_status (Str "Unknown"))).
Qed.

Lemma elem_of_merge_left (products_df : list Product.row) (api_df : list Meta.row)
    (e : Enriched.row) :
  e ∈ merge_left products_df api_df <->
  exists p, p ∈ products_df /\
    ((matches api_df p = [] /\ e = enriched p PdNA NaN PdNA) \/
     (exists m, m ∈ matches api_df p /\
        e = enriched p (Meta.description m) (Meta.rating m)
              (Meta.availability_status m))).
Proof.
  unfold merge_left. rewrite list_elem_of_In, in_flat_map.
  setoid_rewrite <- list_elem_of_In. fold matches.
  split; intros (p & Hp & He); exists p; (split; [done|]).
  - fold (matches api_df p) in He.
    destruct (matches api_df p) as [|m ms] eqn:Hm.
    + left. split; [done|]. by apply list_elem_of_singleton in He.
    + right. apply list_elem_of_fmap in He as (m' & -> & Hm'). eauto.
  - fold (matches api_df p).
    destruct He as [[Hm ->]|(m & Hm & ->)].
    + rewrite Hm. by apply list_elem_of_singleton.
    + destruct (matches api_df p) as [|m0 ms]; [by apply not_elem_of_nil in Hm|].
      apply list_elem_of_fmap. eauto.
Qed.

(** C5, counterexample.  When the fetch came back empty the product has
    no description at all, placeholder or other. *)
Lemma enrich_fetch_empty_no_placeholder :
  ~ (forall (products_df : list Product.row) (api_df : list Meta.row) (p : Product.row),
       p ∈ products_df -> matches api_df p = [] ->
       exists e, e ∈ enrich_products_with_api products_df api_df /\
         Enriched.product_id e = Product.product_id p /\
         Enriched.description e = Str default_description /\
         Enriched.availability_status e = Str "Unknown" /\
         isna (Enriched.rating e) = true).
Proof.
  intros Hall.
  destruct (Hall [Samples.mug] [] Samples.mug) as (e & He & _ & Hd & _);
    [left | reflexivity |].
  cbn in He. apply list_elem_of_singleton in He. subst e. discriminate Hd.
Qed.

(** C5, amended.  A product without matched metadata comes out with a
    null rating and, when the fetch result has rows, with the placeholder
    description and the availability status Unknown; when the fetch
    result is empty, its description and availability status are null as
    well.  Every output row of that product_id has these values. *)
Theorem enrich_unmatched_product (products_df : list Product.row)
    (api_df : list Meta.row) (p : Product.row) :
  p ∈ products_df ->
  matches api_df p = [] ->
  let expected :=
    match api_df with
    | [] => enriched p PdNA PdNA PdNA
    | _ => enriched p (Str default_description) NaN (Str "Unknown")
    end in
  expected ∈ enrich_products_with_api products_df api_df /\
  (forall e, e ∈ enrich_products_with_api products_df api_df ->
     Enriched.product_id e = Product.product_id p ->
     Enriched.description e = Enriched.description expected /\
     Enriched.availability_status e = Enriched.availability_status expected /\
     isna (Enriched.rating e) = true).
Proof.
  intros Hp Hm expected.
  destruct api_df as [|m0 api_df].
  - unfold enrich_products_with_api. split.
    + apply list_elem_of_fmap. by exists p.
    + intros e (p' & -> & _)%list_elem_of_fmap _. done.
  - rewrite enrich_nonempty by done. split.
    + apply list_elem_of_fmap. exists (enriched p (Str default_description) NaN PdNA).
      split; [done|]. apply list_elem_of_fmap. exists (enriched p PdNA NaN PdNA).
      split; [done|]. apply elem_of_merge_left. exists p. split; [done|]. by left.
    + intros e (e1 & -> & (e0 & -> & He0)%list_elem_of_fmap)%list_elem_of_fmap Hid.
      apply elem_of_merge_left in He0 as (p' & Hp' & [[_ ->]|(m & Hmm & ->)]).
      * done.
      * assert (Enriched.product_id
                  (fill_availability_status (fill_description
                     (enriched p' (Meta.description m) (Meta.rating m)
                        (Meta.availability_status m)))) = Product.product_id p')
          as Hid' by (unfold fill_availability_status, fill_description;
                      cbn; repeat case_match; done).
        rewrite Hid' in Hid.
        assert (m ∈ matches (m0 :: api_df) p) as Hin.
        { unfold matches in *. rewrite <- Hid. exact Hmm. }
        rewrite Hm in Hin. by apply not_elem_of_nil in Hin.
Qed.

(** C5, amended, on a product the metadata does not mention. *)
Lemma enrich_unmatched_product_witness :
  Samples.mug ∈ Samples.products /\
  matches Samples.metadata Samples.mug = [] /\
  enriched Samples.mug (Str default_description) NaN (Str "Unknown")
    ∈ enrich_products_with_api Samples.products Samples.metadata /\
  (forall e, e ∈ enrich_products_with_api Samples.products Samples.metadata ->
     Enriched.product_id e = Product.product_id Samples.mug ->
     Enriched.description e = Str default_description /\
     Enriched.availability_status e = Str "Unknown" /\
     isna (Enriched.rating e) = true).
Proof.
  assert (Hin : Samples.mug ∈ Samples.products) by (right; left).
  split; [exact Hin|]. split; [reflexivity|].
  apply (enrich_unmatched_product Samples.products Samples.metadata Samples.mug Hin).
  reflexivity.
Defined.

End Enrichment.

(** ** The required-field checks of ex5 *)

Section RequiredFields.
Import Ex5.

(** C8, the failing inputs.  A raw row whose required field is missing
    holds NaN there; [astype(str)] turns it into the text "nan" before the
    check compares with the empty text, so the row is kept: a product
    without a name, a customer without a name, and a sale without a
    product_id all reach the cleaned output. *)
Theorem clean_keeps_rows_missing_required_fields :
  (forall E : Externals,
     @clean_products E [Samples.product_without_name] =
       [Product.mk (Str "P0007") (Str "nan") (Str "Books") (Num (Fin (Q2Qc 12)))]) /\
  (forall E : Externals,
     @clean_customers E [Samples.customer_without_name] =
       [Customer.mk (Str "C0009") (Str "nan") PdNA (Str "Canada")]) /\
  @clean_sales Samples.externals [Samples.sale_without_product] =
    [Sale.mk (Str "T000009") (Str "nan") (Str "C0001") (Num (Fin (Q2Qc 2)))
       (Str "2025-03-10")].
Proof.
  split; [|split].
  - intros E. vm_compute. reflexivity.
  - intros E. vm_compute. reflexivity.
  - vm_compute. reflexivity.
Qed.

(** Only a field that is blank text is caught. *)
Example clean_products_drops_blank_name :
  @clean_products Samples.externals
    [Samples.product_blank_name; Samples.product_without_name] =
  [Product.mk (Str "P0007") (Str "nan") (Str "Books") (Num (Fin (Q2Qc 12)))].
Proof. vm_compute. reflexivity. Qed.

(** ex3 tests [isna()] on the raw column and drops the same row. *)
Example transform_products_drops_missing_name :
  @Ex3.transform_products Samples.externals [Samples.product_without_name] = [].
Proof. vm_compute. reflexivity. Qed.

(** What the check of [clean_products] does establish: in the cleaned
    output both fields are text, and neither is empty. *)
Lemma clean_products_no_blank_field `{Externals} (df : list Product.row) (r : Product.row) :
  r ∈ clean_products df ->
  exists i n, Product.product_id r = Str i /\ Product.product_name r = Str n /\
              i <> "" /\ n <> "".
Proof.
  unfold clean_products.
  set (cat1 := map _ df).
  set (cat2 := if existsb _ cat1 then _ else cat1).
  set (ids := map _ cat2).
  set (names := map _ ids).
  set (kept := drop_where _ names).
  set (priced := map _ kept).
  set (negative_mask := fun r : Product.row =>
         match Product.price r with Num x => float_ltb x zero | _ => false end).
  intros Hr.
  assert (exists r0, r0 ∈ priced /\ Product.product_id r = Product.product_id r0 /\
                     Product.product_name r = Product.product_name r0)
    as (r0 & Hr0 & -> & ->).
  { destruct (existsb negative_mask priced); [|eauto].
    apply list_elem_of_fmap in Hr as (r0 & -> & Hr0).
    exists r0. split; [done|]. cbv beta. by repeat case_match. }
  apply list_elem_of_fmap in Hr0 as (r1 & -> & Hr1). cbn.
  unfold kept in Hr1. rewrite drop_where_filter in Hr1.
  apply elem_of_List_filter in Hr1 as [Hr1 Hmask].
  apply negb_true_iff, orb_false_iff in Hmask as [Hid Hname].
  apply list_elem_of_fmap in Hr1 as (r2 & -> & Hr2).
  apply list_elem_of_fmap in Hr2 as (r3 & -> & Hr3).
  cbn in *. unfold str_strip, astype_str, eq_str in *.
  repeat case_match; simplify_eq; eexists _, _;
    (split; [reflexivity|]); (split; [reflexivity|]);
    split; intros E; rewrite E in *; done.
Qed.

End RequiredFields.

(** * Further properties of the code *)

Ltac in_list :=
  solve [ repeat first [ apply list_elem_of_here | apply list_elem_of_further ] ].

(** ** Reject reasons and order of the referential check (ex5) *)

Section ReferentialMore.
Import Ex5 Ex5Spec.

Lemma isin_list (l : list cell) (c : cell) :
  isin (list_to_set l) c = bool_decide (c ∈ l).
Proof.
  unfold isin. apply bool_decide_ext. apply elem_of_list_to_set.
Qed.

Lemma List_filter_sublist {A} (p : A -> bool) (l : list A) :
  List.filter p l `sublist_of` l.
Proof.
  induction l as [|x l IH]; [constructor|].
  simpl. destruct (p x); by constructor.
Qed.

(** X1.  Every valid row has its product_id among the product keys and
    its customer_id among the customer keys.  Every rejected row carries
    INVALID_PRODUCT_ID exactly when its product_id is not a product key,
    followed by INVALID_CUSTOMER_ID exactly when its customer_id is not a
    customer key, and its reason is never empty. *)
Theorem validate_reject_reasons (sales_df : list Sale.row)
    (products_df : list Product.row) (customers_df : list Customer.row) :
  let out := validate_referential_integrity sales_df products_df customers_df in
  let product_keys := map Product.product_id products_df in
  let customer_keys := map Customer.customer_id customers_df in
  Forall (fun r => Sale.product_id r ∈ product_keys /\
                   Sale.customer_id r ∈ customer_keys) (out.1) /\
  Forall (fun rj =>
            Rejected.reject_reason rj =
              (if bool_decide (Sale.product_id (Rejected.sale rj) ∈ product_keys)
               then "" else "INVALID_PRODUCT_ID;") +:+
              (if bool_decide (Sale.customer_id (Rejected.sale rj) ∈ customer_keys)
               then "" else "INVALID_CUSTOMER_ID;") /\
            Rejected.reject_reason rj <> "") (out.2).
Proof.
  intros out product_keys customer_keys. split.
  - apply Forall_forall. intros r Hr.
    unfold out in Hr. rewrite validate_valid in Hr.
    apply elem_of_List_filter in Hr as [_ Hok].
    unfold referential_ok in Hok. rewrite !isin_list in Hok.
    apply andb_true_iff in Hok as [Hp Hc].
    split; [by apply bool_decide_eq_true_1 in Hp | by apply bool_decide_eq_true_1 in Hc].
  - apply Forall_forall. intros rj Hrj.
    unfold out, validate_referential_integrity in Hrj. cbn [snd] in Hrj.
    apply list_elem_of_fmap in Hrj as (r2 & -> & Hrj).
    apply list_elem_of_fmap in Hrj as (r1 & -> & Hrj).
    apply list_elem_of_fmap in Hrj as (s & -> & Hs).
    apply elem_of_List_filter in Hs as [_ Hno].
    cbn. rewrite !isin_list in Hno |- *.
    fold product_keys customer_keys in Hno |- *.
    destruct (bool_decide (Sale.product_id s ∈ product_keys)) eqn:Hp;
      destruct (bool_decide (Sale.customer_id s ∈ customer_keys)) eqn:Hc;
      cbn; rewrite ?isin_list; fold product_keys customer_keys;
      rewrite ?Hp, ?Hc; cbn; try done;
      try apply bool_decide_eq_true_1 in Hp; try apply bool_decide_eq_false_1 in Hp;
      try apply bool_decide_eq_true_1 in Hc; try apply bool_decide_eq_false_1 in Hc;
      repeat first [ rewrite bool_decide_eq_true_2 by done
                   | rewrite bool_decide_eq_false_2 by done ];
      (split; [reflexivity | discriminate]).
Qed.

(** X2.  The check keeps the rows in the order of the input: the valid
    rows, and the rejected rows without their reason, are each the input
    with some rows left out. *)
Theorem validate_keeps_order (sales_df : list Sale.row)
    (products_df : list Product.row) (customers_df : list Customer.row) :
  let out := validate_referential_integrity sales_df products_df customers_df in
  (out.1) `sublist_of` sales_df /\
  map Rejected.sale (out.2) `sublist_of` sales_df.
Proof.
  intros out. unfold out. rewrite validate_valid, validate_rejected_sales.
  split; apply List_filter_sublist.
Qed.

End ReferentialMore.

(** ** Text trimming *)

Section Strip.

Lemma lstrip_head (c : ascii) (s : string) :
  isspace c = false -> lstrip (String c s) = String c s.
Proof. intros Hc. simpl. by rewrite Hc. Qed.

Lemma rstrip_cons (c : ascii) (s : string) :
  rstrip (String c s) =
  match rstrip s with
  | EmptyString => if isspace c then EmptyString else String c EmptyString
  | r => String c r
  end.
Proof. reflexivity. Qed.

Lemma rstrip_lstrip (s : string) : rstrip (lstrip s) = lstrip (rstrip s).
Proof.
  induction s as [|c s IH]; [reflexivity|].
  destruct (isspace c) eqn:Hc.
  - cbn [lstrip]. rewrite Hc, IH, rstrip_cons.
    destruct (rstrip s) as [|c' r]; rewrite ?Hc; [reflexivity|].
    cbn [lstrip]. by rewrite Hc.
  - rewrite lstrip_head by done. rewrite rstrip_cons.
    destruct (rstrip s) as [|c' r]; rewrite ?Hc; by rewrite lstrip_head.
Qed.

Lemma lstrip_idemp (s : string) : lstrip (lstrip s) = lstrip s.
Proof.
  induction s as [|c s IH]; [reflexivity|].
  cbn [lstrip]. destruct (isspace c) eqn:Hc; [done|]. by rewrite lstrip_head.
Qed.

Lemma rstrip_idemp (s : string) : rstrip (rstrip s) = rstrip s.
Proof.
  induction s as [|c s IH]; [reflexivity|].
  rewrite rstrip_cons. destruct (rstrip s) as [|c' r] eqn:Hr.
  - destruct (isspace c) eqn:Hc; [reflexivity|].
    rewrite rstrip_cons. cbn [rstrip]. by rewrite Hc.
  - rewrite rstrip_cons, IH. reflexivity.
Qed.

(** Trimming trimmed text changes nothing. *)
Lemma strip_idemp (s : string) : strip (strip s) = strip s.
Proof.
  unfold strip. by rewrite rstrip_lstrip, lstrip_idemp, rstrip_idemp.
Qed.

End Strip.

(** ** Cleaning of products (ex5, ex6) *)

Section CleanProducts.
Import CleanSpec.
Context `{Externals}.

Lemma omap_filter_map {A B} (f : A -> B) (mask : B -> bool) (l : list A) :
  List.filter (fun r => negb (mask r)) (map f l) =
  omap (fun r => if mask (f r) then None else Some (f r)) l.
Proof.
  induction l as [|x l IH]; [reflexivity|].
  cbn [map List.filter omap list_omap]. destruct (mask (f x)); cbn; by rewrite IH.
Qed.

Lemma map_omap {A B C} (f : A -> option B) (g : B -> C) (l : list A) :
  map g (omap f l) = omap (fun r => g <$> f r) l.
Proof.
  induction l as [|x l IH]; [reflexivity|].
  cbn [omap list_omap]. destruct (f x); cbn; by rewrite IH.
Qed.

Lemma omap_ext' {A B} (f g : A -> option B) (l : list A) :
  (forall x, f x = g x) -> omap f l = omap g l.
Proof.
  intros Hfg. induction l as [|x l IH]; [reflexivity|].
  cbn [omap list_omap]. by rewrite Hfg, IH.
Qed.

(** ex5 cleans products row by row. *)
Lemma ex5_clean_products_rows (df : list Product.row) :
  Ex5.clean_products df = omap clean_product_row df.
Proof.
  unfold Ex5.clean_products.
  rewrite !update_where, drop_where_filter.
  rewrite !map_map, omap_filter_map, !map_omap.
  apply omap_ext'. intros [i0 n0 c0 p0]. unfold clean_product_row.
  cbn [Product.product_id Product.product_name Product.category Product.price
       Product.set_category Product.set_product_id Product.set_product_name
       Product.set_price].
  set (cat := Ex5.map_dict _ _).
  destruct (isna cat) eqn:Hcat;
    cbn [Product.product_id Product.product_name Product.category Product.price
         Product.set_category Product.set_product_id Product.set_product_name
         Product.set_price];
    destruct (Ex5.eq_str (str_strip (astype_str i0)) "" ||
              Ex5.eq_str (str_strip (astype_str n0)) ""); try reflexivity;
    cbn [fmap option_fmap option_map Product.product_id Product.product_name
         Product.category Product.price Product.set_category
         Product.set_product_id Product.set_product_name Product.set_price];
    destruct (float_ltb (to_numeric p0) Ex5.zero); reflexivity.
Qed.

Ltac product_fields :=
  cbn [fmap option_fmap option_map Product.product_id Product.product_name
       Product.category Product.price Product.set_category
       Product.set_product_id Product.set_product_name Product.set_price].

(** ex6 cleans products row by row, and in the same way. *)
Lemma ex6_clean_products_rows (df : list Product.row) :
  Ex6Csv.clean_products df = omap clean_product_row df.
Proof.
  unfold Ex6Csv.clean_products.
  rewrite drop_where_filter, !map_map, omap_filter_map.
  apply omap_ext'. intros [i0 n0 c0 p0]. unfold clean_product_row.
  product_fields.
  set (cat := Ex5.map_dict _ _).
  destruct (isna cat) eqn:Hcat; product_fields;
    destruct (float_ltb (to_numeric p0) Ex5.zero); product_fields;
    destruct (Ex5.eq_str (str_strip (astype_str i0)) "" ||
              Ex5.eq_str (str_strip (astype_str n0)) ""); reflexivity.
Qed.

Lemma canonical_label (s v : string) :
  Ex5.CANONICAL_CATEGORIES !! s = Some v -> v ∈ category_labels.
Proof.
  intros Hv. unfold Ex5.CANONICAL_CATEGORIES in Hv.
  apply elem_of_list_to_map_2 in Hv.
  unfold category_labels.
  repeat (apply elem_of_cons in Hv as [[= -> ->]|Hv]; [in_list|]).
  by apply not_elem_of_nil in Hv.
Qed.

Lemma str_strip_Str (c : cell) : exists s, str_strip (astype_str c) = Str s /\ strip s = s.
Proof.
  destruct c as [| |s|x]; unfold astype_str, str_strip;
    eexists; (split; [reflexivity|]); apply strip_idemp.
Qed.

Lemma eq_str_false (s : string) : Ex5.eq_str (Str s) "" = false -> s <> "".
Proof. cbn. intros Hs ->. done. Qed.

Lemma clean_product_row_ok (r r' : Product.row) :
  clean_product_row r = Some r' -> product_ok r'.
Proof.
  unfold clean_product_row.
  destruct (str_strip_Str (Product.product_id r)) as (i & -> & Hi).
  destruct (str_strip_Str (Product.product_name r)) as (n & -> & Hn).
  destruct (Ex5.eq_str (Str i) "" || Ex5.eq_str (Str n) "") eqn:Hmask; [done|].
  apply orb_false_iff in Hmask as [Hi0%eq_str_false Hn0%eq_str_false].
  intros [= <-].
  set (cat := Ex5.map_dict _ _).
  assert (exists c, (if isna cat then Str "Unknown" else cat) = Str c /\
                    c ∈ category_labels) as (c & -> & Hc).
  { unfold cat, Ex5.map_dict.
    destruct (str_lower _) as [| |s|];
      try (exists "Unknown"; split; [done|unfold category_labels; in_list]).
    destruct (Ex5.CANONICAL_CATEGORIES !! s) as [v|] eqn:Hv.
    - exists v. split; [done|]. by eapply canonical_label.
    - exists "Unknown". split; [done|unfold category_labels; in_list]. }
  eexists i, n, c, _. split; [reflexivity|].
  repeat (split; [done|]).
  destruct (float_ltb (to_numeric (Product.price r)) Ex5.zero) eqn:Hp; done.
Qed.

Lemma label_round_trip (c : string) :
  c ∈ category_labels ->
  (let cat := Ex5.map_dict Ex5.CANONICAL_CATEGORIES (str_lower (str_strip (Str c))) in
   if isna cat then Str "Unknown" else cat) = Str c.
Proof.
  unfold category_labels. intros Hc.
  repeat (apply elem_of_cons in Hc as [->|Hc]; [vm_compute; reflexivity|]).
  by apply not_elem_of_nil in Hc.
Qed.

Lemma clean_product_row_fixed (r : Product.row) :
  product_ok r -> clean_product_row r = Some r.
Proof.
  intros (i & n & c & p & -> & Hi0 & Hn0 & Hi & Hn & Hc & Hp).
  unfold clean_product_row. cbn [Product.product_id Product.product_name
    Product.category Product.price astype_str str_strip to_numeric].
  rewrite Hi, Hn.
  assert (Ex5.eq_str (Str i) "" = false) as ->
    by (cbn; destruct (String.eqb_spec i ""); done).
  assert (Ex5.eq_str (Str n) "" = false) as ->
    by (cbn; destruct (String.eqb_spec n ""); done).
  cbn [orb]. rewrite Hp.
  pose proof (label_round_trip c Hc) as Hlabel. cbn zeta in Hlabel.
  cbn [str_strip] in Hlabel. by rewrite Hlabel.
Qed.

Lemma omap_fixed {A} (f : A -> option A) (P : A -> Prop) (l : list A) :
  (forall x y, f x = Some y -> P y) ->
  (forall y, P y -> f y = Some y) ->
  omap f (omap f l) = omap f l.
Proof.
  intros Hok Hfix. induction l as [|x l IH]; [reflexivity|].
  cbn [omap list_omap]. destruct (f x) as [y|] eqn:Hx; [|done].
  cbn [omap list_omap]. rewrite (Hfix y) by eauto.
  fold (omap f l). fold (omap f (omap f l)). by rewrite IH.
Qed.

(** X3.  Every row [clean_products] returns has a product_id and a
    product_name that are non-empty text with no blanks around it, a
    category that is one of the five canonical labels or Unknown, and a
    price that is a number not below zero or NaN. *)
Theorem clean_products_rows_ok (df : list Product.row) :
  Forall product_ok (Ex5.clean_products df).
Proof.
  rewrite ex5_clean_products_rows. apply Forall_forall.
  intros r' (r & _ & Hr)%list_elem_of_omap. by eapply clean_product_row_ok.
Qed.

(** X4.  Cleaning a cleaned products frame changes nothing. *)
Theorem clean_products_idempotent (df : list Product.row) :
  Ex5.clean_products (Ex5.clean_products df) = Ex5.clean_products df.
Proof.
  rewrite !ex5_clean_products_rows.
  apply (omap_fixed _ product_ok);
    [apply clean_product_row_ok | apply clean_product_row_fixed].
Qed.

(** X5.  The two [clean_products], of ex5 and of ex6, return the same
    frame on every input, although they order their steps differently. *)
Theorem clean_products_ex6_ex5 (df : list Product.row) :
  Ex6Csv.clean_products df = Ex5.clean_products df.
Proof. by rewrite ex6_clean_products_rows, ex5_clean_products_rows. Qed.

End CleanProducts.

(** ** Cleaning of sales (ex5, ex6) *)

Section CleanSales.
Import CleanSpec.
Context `{Externals}.

Lemma map_as_omap {A B} (f : A -> B) (l : list A) :
  map f l = omap (fun x => Some (f x)) l.
Proof. induction l as [|x l IH]; [reflexivity|]. cbn. by rewrite IH. Qed.

Lemma filter_as_omap {A} (p : A -> bool) (l : list A) :
  List.filter p l = omap (fun x => if p x then Some x else None) l.
Proof.
  induction l as [|x l IH]; [reflexivity|].
  cbn [List.filter omap list_omap]. destruct (p x); by rewrite IH.
Qed.

Lemma omap_omap {A B C} (f : A -> option B) (g : B -> option C) (l : list A) :
  omap g (omap f l) = omap (fun x => f x ≫= g) l.
Proof.
  induction l as [|x l IH]; [reflexivity|].
  cbn [omap list_omap]. destruct (f x) as [y|]; cbn [mbind option_bind omap list_omap].
  - destruct (g y); by rewrite <- IH.
  - exact IH.
Qed.

Ltac sale_fields :=
  cbn [mbind option_bind Sale.transaction_id Sale.product_id Sale.customer_id
       Sale.quantity Sale.transaction_date Sale.set_transaction_id
       Sale.set_product_id Sale.set_customer_id Sale.set_quantity
       Sale.set_transaction_date Sale.replace_empty fst snd negb] in *.

Lemma isna_to_datetime (c : cell) : isna c = true -> to_datetime c = None.
Proof. destruct c as [| |s|[| | |q]]; done. Qed.

Lemma isna_str_strip (c : cell) : isna (str_strip (astype_str c)) = false.
Proof. by destruct c. Qed.

(** ex5 cleans sales row by row. *)
Lemma ex5_clean_sales_rows (df : list Sale.row) :
  Ex5.clean_sales df = omap clean_sale_row df.
Proof.
  unfold Ex5.clean_sales.
  rewrite !drop_where_filter, !map_as_omap, !filter_as_omap, !omap_omap.
  apply omap_ext'. intros r. unfold clean_sale_row.
  set (r0 := Sale.replace_empty r).
  sale_fields. rewrite !isna_str_strip. cbn [orb].
  set (t := str_strip (astype_str (Sale.transaction_id r0))).
  set (p := str_strip (astype_str (Sale.product_id r0))).
  set (c := str_strip (astype_str (Sale.customer_id r0))).
  rewrite !orb_false_r.
  destruct (Ex5.eq_str t "") eqn:Ht; cbn [orb negb]; sale_fields; [reflexivity|].
  destruct (Ex5.eq_str p "") eqn:Hp; cbn [orb negb]; sale_fields; [reflexivity|].
  destruct (Ex5.eq_str c "") eqn:Hc; cbn [orb negb]; sale_fields; [reflexivity|].
  destruct (isna (Sale.transaction_date r0)) eqn:Hd; cbn [negb]; sale_fields.
  { rewrite (isna_to_datetime _ Hd). by repeat case_match. }
  destruct (isna (Num (to_numeric (Sale.quantity r0)))) eqn:Hq;
    cbn [orb negb]; sale_fields; [reflexivity|].
  destruct (float_leb (to_numeric (Sale.quantity r0)) Ex5.zero) eqn:Hq0;
    cbn [orb negb]; sale_fields; [reflexivity|].
  destruct (to_datetime (Sale.transaction_date r0)) as [d|]; reflexivity.
Qed.

(** ex6 cleans sales row by row, and in the same way. *)
Lemma ex6_clean_sales_rows (df : list Sale.row) :
  Ex6Csv.clean_sales df = omap clean_sale_row df.
Proof.
  unfold Ex6Csv.clean_sales.
  rewrite !drop_where_filter, !map_as_omap, !filter_as_omap, !omap_omap.
  apply omap_ext'. intros r. unfold clean_sale_row.
  set (r0 := Sale.replace_empty r).
  sale_fields. rewrite !isna_str_strip. cbn [orb].
  set (t := str_strip (astype_str (Sale.transaction_id r0))).
  set (p := str_strip (astype_str (Sale.product_id r0))).
  set (c := str_strip (astype_str (Sale.customer_id r0))).
  rewrite ?orb_false_r.
  destruct (Ex5.eq_str t "") eqn:Ht; cbn [orb negb]; sale_fields; [reflexivity|].
  destruct (Ex5.eq_str p "") eqn:Hp; cbn [orb negb]; sale_fields; [reflexivity|].
  destruct (Ex5.eq_str c "") eqn:Hc; cbn [orb negb]; sale_fields; [reflexivity|].
  destruct (isna (Num (to_numeric (Sale.quantity r0))) ||
            float_leb (to_numeric (Sale.quantity r0)) Ex5.zero) eqn:Hq;
    cbn [orb negb]; sale_fields; [reflexivity|].
  destruct (to_datetime (Sale.transaction_date r0)) as [d|]; reflexivity.
Qed.

Lemma float_leb_zero_false (x : float) :
  isna (Num x) = false -> float_leb x Ex5.zero = false -> float_ltb Ex5.zero x = true.
Proof.
  destruct x; cbn; intros Hna Hle; try done. by apply negb_false_iff in Hle.
Qed.

Lemma clean_sale_row_ok (r r' : Sale.row) :
  clean_sale_row r = Some r' -> sale_ok r'.
Proof.
  unfold clean_sale_row. set (r0 := Sale.replace_empty r).
  destruct (str_strip_Str (Sale.transaction_id r0)) as (t & -> & Ht).
  destruct (str_strip_Str (Sale.product_id r0)) as (p & -> & Hp).
  destruct (str_strip_Str (Sale.customer_id r0)) as (c & -> & Hc).
  destruct (Ex5.eq_str (Str t) "" || Ex5.eq_str (Str p) "" ||
            Ex5.eq_str (Str c) "") eqn:Hmask; [done|].
  apply orb_false_iff in Hmask as [Hmask Hc0%eq_str_false].
  apply orb_false_iff in Hmask as [Ht0%eq_str_false Hp0%eq_str_false].
  destruct (isna (Num (to_numeric (Sale.quantity r0))) ||
            float_leb (to_numeric (Sale.quantity r0)) Ex5.zero) eqn:Hq; [done|].
  apply orb_false_iff in Hq as [Hq Hq0].
  destruct (to_datetime (Sale.transaction_date r0)) as [d|]; [|done].
  intros [= <-]. eexists t, p, c, _, d. split; [reflexivity|].
  repeat (split; [done|]). by apply float_leb_zero_false.
Qed.

(** X6.  Every row [clean_sales] returns has a transaction_id, a
    product_id and a customer_id that are non-empty text with no blanks
    around it, a quantity that is a number above zero, and a
    transaction_date in the form year-month-day. *)
Theorem clean_sales_rows_ok (df : list Sale.row) :
  Forall sale_ok (Ex5.clean_sales df).
Proof.
  rewrite ex5_clean_sales_rows. apply Forall_forall.
  intros r' (r & _ & Hr)%list_elem_of_omap. by eapply clean_sale_row_ok.
Qed.

(** X7.  The two [clean_sales], of ex5 and of ex6, return the same frame
    on every input: the test for a missing transaction_date that only ex5
    makes removes rows the date parsing removes anyway. *)
Theorem clean_sales_ex6_ex5 (df : list Sale.row) :
  Ex6Csv.clean_sales df = Ex5.clean_sales df.
Proof. by rewrite ex6_clean_sales_rows, ex5_clean_sales_rows. Qed.

End CleanSales.

(** ** What the duplicate resolution returns *)

Section DedupMore.
Import Dedup DedupSpec.

Lemma dedup_customers_keys (df : list Customer.row) :
  map Customer.customer_id (dedup_customers df) = group_keys Customer.customer_id df.
Proof.
  unfold dedup_customers, groupby.
  assert (Hin : forall k, k ∈ group_keys Customer.customer_id df ->
                          k ∈ map Customer.customer_id df).
  { intros k Hk. by apply elem_of_group_keys in Hk as [_ ?]. }
  induction (group_keys Customer.customer_id df) as [|k keys IH]; [reflexivity|].
  destruct (choose_best_record_spec (get_group Customer.customer_id df k))
    as (best & i & Hbest & _).
  { apply get_group_nonempty, Hin. left. }
  cbn [map omap list_omap]. rewrite Hbest. cbn [map].
  rewrite (choose_best_record_key _ _ _ Hbest). f_equal.
  apply IH. intros k' Hk'. apply Hin. by right.
Qed.

(** X8.  The duplicate resolution returns rows of its input, never a row
    put together from several rows; the customer_id values of its output
    are pairwise different, and they are exactly the customer_id values
    of the input that are not missing. *)
Theorem dedup_customers_picks_rows (df : list Customer.row) :
  Forall (fun r => r ∈ df) (dedup_customers df) /\
  NoDup (map Customer.customer_id (dedup_customers df)) /\
  (forall k, k ∈ map Customer.customer_id (dedup_customers df) <->
             notna k = true /\ k ∈ map Customer.customer_id df).
Proof.
  split; [|split].
  - apply Forall_forall. intros r (k & _ & Hr)%elem_of_dedup_customers.
    unfold choose_best_record in Hr. destruct (idxmax _); [|done].
    apply list_elem_of_lookup_2 in Hr. by apply elem_of_get_group in Hr as [? _].
  - rewrite dedup_customers_keys. apply group_keys_NoDup.
  - intros k. rewrite dedup_customers_keys. apply elem_of_group_keys.
Qed.

Lemma get_group_absent (df : list Customer.row) (k : cell) :
  k ∉ map Customer.customer_id df -> get_group Customer.customer_id df k = [].
Proof.
  intros Hk. destruct (get_group Customer.customer_id df k) as [|r g] eqn:Hg; [done|].
  assert (r ∈ get_group Customer.customer_id df k) as Hr by (rewrite Hg; left).
  apply elem_of_get_group in Hr as [Hr <-].
  exfalso. apply Hk. apply list_elem_of_fmap. eauto.
Qed.

Lemma get_group_unique (df : list Customer.row) (r : Customer.row) :
  NoDup (map Customer.customer_id df) -> r ∈ df ->
  get_group Customer.customer_id df (Customer.customer_id r) = [r].
Proof.
  induction df as [|x df IH]; intros Hnd Hr; [by apply not_elem_of_nil in Hr|].
  cbn [map] in Hnd. apply NoDup_cons in Hnd as [Hx Hnd].
  rewrite get_group_cons.
  apply elem_of_cons in Hr as [->|Hr].
  - rewrite bool_decide_eq_true_2 by done. by rewrite get_group_absent.
  - rewrite bool_decide_eq_false_2; [by apply IH|].
    intros Heq. apply Hx. rewrite Heq. apply list_elem_of_fmap. eauto.
Qed.

(** X9.  On a batch in which no customer_id is missing and none occurs
    twice, the duplicate resolution returns every row of the batch and
    nothing else; only the order of the rows can change. *)
Theorem dedup_customers_without_duplicates (df : list Customer.row) :
  keys_present df = true ->
  NoDup (map Customer.customer_id df) ->
  dedup_customers df ≡ₚ df.
Proof.
  intros Hkeys Hnd. apply NoDup_Permutation.
  - apply dedup_customers_NoDup.
  - by apply NoDup_fmap_1 in Hnd.
  - intros r. split.
    + intros (k & _ & Hr)%elem_of_dedup_customers.
      unfold choose_best_record in Hr. destruct (idxmax _); [|done].
      apply list_elem_of_lookup_2 in Hr. by apply elem_of_get_group in Hr as [? _].
    + intros Hr. apply elem_of_dedup_customers. exists (Customer.customer_id r). split.
      * apply elem_of_group_keys. split.
        -- unfold keys_present in Hkeys. rewrite forallb_forall in Hkeys.
           by apply Hkeys, list_elem_of_In.
        -- apply list_elem_of_fmap. eauto.
      * by rewrite get_group_unique.
Qed.

(** X9 on two customers with different keys. *)
Lemma dedup_customers_without_duplicates_witness :
  keys_present [Samples.bob; Samples.ann_full] = true /\
  NoDup (map Customer.customer_id [Samples.bob; Samples.ann_full]) /\
  dedup_customers [Samples.bob; Samples.ann_full] ≡ₚ [Samples.bob; Samples.ann_full].
Proof.
  assert (Hnd : NoDup (map Customer.customer_id [Samples.bob; Samples.ann_full]))
    by (by apply (bool_decide_unpack _)).
  split; [reflexivity|]. split; [exact Hnd|].
  apply (dedup_customers_without_duplicates [Samples.bob; Samples.ann_full]);
    [reflexivity | exact Hnd].
Defined.

End DedupMore.

(** ** Cleaning of customers (ex5, ex6) *)

Section CleanCustomers.
Import Dedup CustomerSpec.
Context `{Externals}.

Ltac customer_fields :=
  cbn [mbind option_bind Customer.customer_id Customer.name Customer.email
       Customer.country Customer.set_customer_id Customer.set_name
       Customer.set_email Customer.replace_empty negb] in *.

Lemma checked_email_steps (c : cell) :
  (let e := astype_string c in
   if match e with Str s => negb (email_pattern_match s) | _ => false end
   then PdNA else e) = checked_email c.
Proof.
  unfold checked_email. destruct (astype_string c) as [| |s|x]; try reflexivity.
  cbn zeta. by destruct (email_pattern_match s).
Qed.

(** ex5 cleans customers row by row before it groups them. *)
Lemma ex5_clean_customers_rows (df : list Customer.row) :
  Ex5.clean_customers_rows df = omap clean_customer_row df.
Proof.
  unfold Ex5.clean_customers_rows.
  rewrite update_where, drop_where_filter.
  rewrite !map_as_omap, !filter_as_omap, !omap_omap.
  apply omap_ext'. intros r. unfold clean_customer_row.
  set (r0 := Customer.replace_empty r).
  customer_fields. rewrite !isna_str_strip. cbn [orb].
  destruct (Ex5.eq_str (str_strip (astype_str (Customer.customer_id r0))) "" ||
            Ex5.eq_str (str_strip (astype_str (Customer.name r0))) "");
    customer_fields; [reflexivity|].
  rewrite <- checked_email_steps. cbn zeta.
  destruct (astype_string (Customer.email r0)) as [| |s|x]; try reflexivity.
  by destruct (email_pattern_match s).
Qed.

Lemma checked_email_ok (c : cell) : email_ok (checked_email c).
Proof.
  unfold checked_email, email_ok.
  destruct c as [| |s|[| | |q]]; cbn; try (by left);
    try (destruct (email_pattern_match _) eqn:Hm; [right; eauto | by left]).
Qed.

Lemma replace_empty_not_empty (c : cell) : Pandas.replace_empty c <> Str "".
Proof. destruct c as [| |[|a s]|x]; done. Qed.

Lemma clean_customer_row_ok (r r' : Customer.row) :
  clean_customer_row r = Some r' -> customer_ok r'.
Proof.
  unfold clean_customer_row. set (r0 := Customer.replace_empty r).
  destruct (str_strip_Str (Customer.customer_id r0)) as (i & -> & Hi).
  destruct (str_strip_Str (Customer.name r0)) as (n & -> & Hn).
  destruct (Ex5.eq_str (Str i) "" || Ex5.eq_str (Str n) "") eqn:Hmask; [done|].
  apply orb_false_iff in Hmask as [Hi0%eq_str_false Hn0%eq_str_false].
  intros [= <-]. exists i, n. cbn.
  repeat (split; [done|]). split; [apply checked_email_ok|].
  apply replace_empty_not_empty.
Qed.

Lemma dedup_customers_subset (df : list Customer.row) (r : Customer.row) :
  r ∈ dedup_customers df -> r ∈ df.
Proof.
  intros (k & _ & Hr)%elem_of_dedup_customers.
  unfold choose_best_record in Hr. destruct (idxmax _); [|done].
  apply list_elem_of_lookup_2 in Hr. by apply elem_of_get_group in Hr as [? _].
Qed.

(** X10.  [clean_customers] of ex5 returns one row for each customer_id:
    the customer_id values are pairwise different.  In every row the
    customer_id and the name are non-empty text with no blanks around it,
    the email is missing or text that fits the e-mail pattern, and the
    country is not the empty text. *)
Theorem clean_customers_rows_ok (df : list Customer.row) :
  NoDup (map Customer.customer_id (Ex5.clean_customers df)) /\
  Forall customer_ok (Ex5.clean_customers df).
Proof.
  unfold Ex5.clean_customers. split.
  - rewrite dedup_customers_keys. apply group_keys_NoDup.
  - apply Forall_forall. intros r Hr%dedup_customers_subset.
    rewrite ex5_clean_customers_rows in Hr.
    apply list_elem_of_omap in Hr as (r0 & _ & Hr). by eapply clean_customer_row_ok.
Qed.

(** ex6 cleans customers row by row and then keeps first occurrences. *)
Lemma ex6_clean_customers_rows (df : list Customer.row) :
  Ex6.clean_customers df =
  Ex6.drop_duplicates_first Customer.customer_id ∅ (map ex6_customer_row df).
Proof.
  unfold Ex6.clean_customers. f_equal.
  rewrite update_where, !map_map. apply map_ext. intros r.
  unfold ex6_customer_row. set (r0 := Customer.replace_empty r).
  customer_fields. rewrite <- checked_email_steps. cbn zeta.
  destruct (astype_string (Customer.email r0)) as [| |s|x]; try reflexivity.
  by destruct (email_pattern_match s).
Qed.

Lemma drop_duplicates_first_sublist (df : list Customer.row) :
  forall seen : gset cell,
    Ex6.drop_duplicates_first Customer.customer_id seen df `sublist_of` df.
Proof.
  induction df as [|x df IH]; intros seen; [constructor|].
  cbn [Ex6.drop_duplicates_first]. case_bool_decide; constructor; apply IH.
Qed.

Lemma drop_duplicates_first_keys (df : list Customer.row) :
  forall seen : gset cell,
    NoDup (map Customer.customer_id
             (Ex6.drop_duplicates_first Customer.customer_id seen df)) /\
    (forall k, k ∈ map Customer.customer_id
                     (Ex6.drop_duplicates_first Customer.customer_id seen df) <->
               (k ∉ seen) /\ k ∈ map Customer.customer_id df).
Proof.
  induction df as [|x df IH]; intros seen; cbn [Ex6.drop_duplicates_first map].
  - split; [constructor|]. intros k. split; [by intros ?%not_elem_of_nil|].
    by intros [_ ?%not_elem_of_nil].
  - case_bool_decide as Hseen.
    + destruct (IH seen) as [Hnd Hk]. split; [done|].
      intros k. rewrite Hk, elem_of_cons. split; [naive_solver|].
      intros [Hns [->|Hin]]; [done|naive_solver].
    + destruct (IH ({[Customer.customer_id x]} ∪ seen)) as [Hnd Hk].
      cbn [map]. split.
      * constructor; [|done]. rewrite Hk. set_solver.
      * intros k. rewrite !elem_of_cons, Hk.
        destruct (decide (k = Customer.customer_id x)) as [->|Hne]; [naive_solver|].
        set_solver.
Qed.

(** X11.  [clean_customers] of ex6 drops no customer_id: it cleans every
    row and keeps, for each customer_id, the first cleaned row that
    carries it.  The kept rows stay in input order, their customer_id
    values are pairwise different and are all the customer_id values of
    the cleaned rows, and every email is missing or fits the pattern. *)
Theorem ex6_clean_customers_keeps_first (df : list Customer.row) :
  let rows := map ex6_customer_row df in
  let out := Ex6.clean_customers df in
  out `sublist_of` rows /\
  NoDup (map Customer.customer_id out) /\
  (forall k, k ∈ map Customer.customer_id out <-> k ∈ map Customer.customer_id rows) /\
  (forall r, r ∈ out <->
     head (get_group Customer.customer_id rows (Customer.customer_id r)) = Some r) /\
  Forall (fun r => email_ok (Customer.email r)) out.
Proof.
  intros rows out. unfold out. rewrite ex6_clean_customers_rows. fold rows.
  destruct (drop_duplicates_first_keys rows ∅) as [Hnd Hk].
  split; [apply drop_duplicates_first_sublist|]. split; [done|]. split; [|split].
  - intros k. rewrite Hk. set_solver.
  - intros r. rewrite elem_of_drop_duplicates_first. set_solver.
  - apply Forall_forall. intros r Hr.
    assert (r ∈ rows) as Hin.
    { eapply elem_of_sublist; [exact Hr|]. apply drop_duplicates_first_sublist. }
    apply list_elem_of_fmap in Hin as (r0 & -> & _). apply checked_email_ok.
Qed.

End CleanCustomers.

(** ** The transforms of ex2 and ex3 *)

Section Transforms.
Import CleanSpec TransformSpec.
Context `{Externals}.

Ltac product_fields :=
  cbn [fmap option_fmap option_map mbind option_bind Product.product_id
       Product.product_name Product.category Product.price Product.set_category
       Product.set_product_id Product.set_product_name Product.set_price negb].

Ltac sale_fields :=
  cbn [mbind option_bind Sale.transaction_id Sale.product_id Sale.customer_id
       Sale.quantity Sale.transaction_date Sale.set_transaction_id
       Sale.set_product_id Sale.set_customer_id Sale.set_quantity
       Sale.set_transaction_date Sale.replace_empty fst snd negb] in *.

Lemma transform_products_rows (df : list Product.row) :
  Ex3.transform_products df = omap transform_product_row df.
Proof.
  unfold Ex3.transform_products.
  rewrite !update_where, drop_where_filter.
  rewrite !map_as_omap, !filter_as_omap, !omap_omap.
  apply omap_ext'. intros [i0 n0 c0 p0]. unfold transform_product_row, name_present.
  product_fields.
  set (cat := Ex5.map_dict _ _).
  destruct (isna cat) eqn:Hcat; product_fields;
    destruct (isna n0 || Ex5.eq_str (str_strip (astype_str n0)) "");
    product_fields; try reflexivity;
    destruct (float_ltb (to_numeric p0) Ex5.zero); reflexivity.
Qed.

Lemma transform_sales_rows (df : list Sale.row) :
  Ex3.transform_sales df = omap transform_sale_row df.
Proof.
  unfold Ex3.transform_sales.
  rewrite !drop_where_filter, !map_as_omap, !filter_as_omap, !omap_omap.
  apply omap_ext'. intros r. unfold transform_sale_row.
  set (r0 := Sale.replace_empty r). sale_fields.
  destruct (isna (Sale.product_id r0) || isna (Sale.customer_id r0));
    sale_fields; [reflexivity|].
  destruct (isna (Num (to_numeric (Sale.quantity r0))) ||
            float_leb (to_numeric (Sale.quantity r0)) Ex5.zero);
    sale_fields; [reflexivity|].
  destruct (to_datetime (Sale.transaction_date r0)) as [d|]; reflexivity.
Qed.

Lemma cleaned_category_label (c : cell) :
  exists l,
    (if isna (Ex5.map_dict Ex5.CANONICAL_CATEGORIES c) then Str "Unknown"
     else Ex5.map_dict Ex5.CANONICAL_CATEGORIES c) = Str l /\
    l ∈ category_labels.
Proof.
  unfold Ex5.map_dict.
  destruct c as [| |s|];
    try (exists "Unknown"; split; [done|unfold category_labels; in_list]).
  destruct (Ex5.CANONICAL_CATEGORIES !! s) as [v|] eqn:Hv.
  - exists v. split; [done|]. by eapply canonical_label.
  - exists "Unknown". split; [done|unfold category_labels; in_list].
Qed.

(** X12.  [transform_products] keeps exactly the rows whose product_name
    is neither missing nor blank, in input order, and hands their
    product_id and product_name on untouched.  In every row it returns
    the category is one of the five canonical labels or Unknown and the
    price is a number not below zero or NaN. *)
Theorem transform_products_keeps_named (df : list Product.row) :
  let out := Ex3.transform_products df in
  map (fun r => (Product.product_id r, Product.product_name r)) out =
    List.filter (fun p => name_present p.2)
      (map (fun r => (Product.product_id r, Product.product_name r)) df) /\
  Forall (fun r =>
            (exists c, Product.category r = Str c /\ c ∈ category_labels) /\
            (exists p, Product.price r = Num p /\ float_ltb p Ex5.zero = false)) out.
Proof.
  intros out. unfold out. rewrite transform_products_rows. split.
  - induction df as [|r df IH]; [reflexivity|].
    cbn [omap list_omap map List.filter snd]. unfold transform_product_row at 1.
    destruct (name_present (Product.product_name r)); cbn [map]; by rewrite IH.
  - apply Forall_forall. intros r' (r & _ & Hr)%list_elem_of_omap.
    unfold transform_product_row in Hr.
    destruct (name_present _); [|done]. injection Hr as <-.
    cbn [Product.category Product.price]. split.
    + apply cleaned_category_label.
    + eexists. split; [reflexivity|].
      destruct (float_ltb (to_numeric (Product.price r)) Ex5.zero) eqn:Hp; done.
Qed.

Lemma transform_sale_row_ok (r r' : Sale.row) :
  transform_sale_row r = Some r' -> transformed_sale_ok r'.
Proof.
  unfold transform_sale_row. set (r0 := Sale.replace_empty r).
  destruct (isna (Sale.product_id r0) || isna (Sale.customer_id r0)) eqn:Hfk; [done|].
  apply orb_false_iff in Hfk as [Hp Hc].
  destruct (isna (Num (to_numeric (Sale.quantity r0))) ||
            float_leb (to_numeric (Sale.quantity r0)) Ex5.zero) eqn:Hq; [done|].
  apply orb_false_iff in Hq as [Hq Hq0].
  destruct (to_datetime (Sale.transaction_date r0)) as [d|]; [|done].
  intros [= <-]. unfold transformed_sale_ok. cbn.
  split; [done|]. split; [done|]. split; [|eauto].
  eexists. split; [reflexivity|]. by apply float_leb_zero_false.
Qed.

(** X13.  Every row [transform_sales] returns has a product_id and a
    customer_id that are not missing, a quantity that is a number above
    zero, and a transaction_date in the form year-month-day. *)
Theorem transform_sales_rows_ok (df : list Sale.row) :
  Forall transformed_sale_ok (Ex3.transform_sales df).
Proof.
  rewrite transform_sales_rows. apply Forall_forall.
  intros r' (r & _ & Hr)%list_elem_of_omap. by eapply transform_sale_row_ok.
Qed.

End Transforms.

(** ** More on the incremental load (ex3) *)

Section LoaderMore.
Import Iso Ex3 Ex3Spec LoaderSpec.

#[local] Existing Instances date_le_refl date_le_trans date_le_total.

Lemma date_le_not_ltb (a b : date) : date_le a b -> date_ltb b a = false.
Proof.
  intros Hle. destruct (date_ltb b a) eqn:Hlt; [|done].
  unfold date_le in Hle. apply date_leb_spec in Hle. apply date_ltb_spec in Hlt. lia.
Qed.

Lemma List_filter_nil {A} (p : A -> bool) (l : list A) :
  (forall x, x ∈ l -> p x = false) -> List.filter p l = [].
Proof.
  intros Hp. induction l as [|x l IH]; [reflexivity|].
  cbn. rewrite (Hp x) by left. apply IH. intros y Hy. apply Hp. by right.
Qed.

Lemma cleaned_date_of (batch : list Sale.row) (r : Sale.row) :
  cleaned batch = true -> r ∈ batch -> exists d, date_of r = Some d.
Proof.
  unfold cleaned. rewrite forallb_forall. intros Hc Hr%list_elem_of_In.
  destruct (cleaned_row_spec r (Hc r Hr)) as [d Hd].
  exists d. apply (dated_date_of (r, d) Hd).
Qed.

(** After a run nothing of the same batch is newer than the stored
    watermark. *)
Lemma nothing_left_to_load (batch loaded : list Sale.row) (wm new_wm : option date) :
  cleaned batch = true ->
  loaded ≡ₚ incremental_rows wm batch ->
  (loaded = [] -> new_wm = wm) ->
  (loaded <> [] -> is_latest_date new_wm loaded) ->
  incremental_rows new_wm batch = [].
Proof.
  intros Hc Hperm Hnil Hcons.
  destruct loaded as [|r0 loaded'].
  { rewrite Hnil by done. by apply Permutation_nil_l in Hperm. }
  specialize (Hcons ltac:(done)).
  destruct new_wm as [m|]; [|done].
  destruct Hcons as [(rm & Hrm & Hdm) Hmax].
  cbn [incremental_rows]. apply List_filter_nil. intros r Hr.
  destruct (cleaned_date_of batch r Hc Hr) as [d Hd].
  unfold newer_than. rewrite Hd. apply date_le_not_ltb.
  destruct wm as [w|]; cbn [incremental_rows] in Hperm.
  - destruct (newer_than w r) eqn:Hnew.
    + apply (Hmax r); [|done]. rewrite Hperm. by apply elem_of_List_filter.
    + unfold newer_than in Hnew. rewrite Hd in Hnew.
      transitivity w; [by apply date_ltb_false_le|].
      rewrite Hperm in Hrm. apply elem_of_List_filter in Hrm as [_ Hnewm].
      unfold newer_than in Hnewm. rewrite Hdm in Hnewm. by apply date_ltb_le.
  - apply (Hmax r); [|done]. by rewrite Hperm.
Qed.

(** X14.  Running the loader a second time on the same cleaned batch
    loads nothing: the sales table and the stored watermark stay as the
    first run left them, and the state row records the second clock
    reading with a row count of zero.  The watermark stored before the
    first run, if there is one, is a day pandas reads. *)
Theorem load_incremental_sales_twice (now1 now2 : Z) (batch : list Sale.row)
    (db : database) :
  cleaned batch = true ->
  readable_watermark db = true ->
  exists db1 db2,
    load_incremental_sales now1 batch db = Some db1 /\
    load_incremental_sales now2 batch db1 = Some db2 /\
    ex_3_sales db2 = ex_3_sales db1 /\
    ex_3_etl_state db2 !! pipeline_name =
      Some (StateRow (get_last_watermark db1) now2 0).
Proof.
  intros Hc Hr.
  destruct (load_incremental_sales_run now1 batch db Hc Hr)
    as (loaded & new_wm & Hrun & Hperm & _ & Hnil & Hcons).
  pose proof (load_incremental_sales_readable now1 batch db _ Hc Hr Hrun) as Hr1.
  eexists.
  destruct (load_incremental_sales_watermark now2 batch
              (update_state new_wm (Z.of_nat (length loaded)) now1
                 (Database (ex_3_etl_state db) (upsert (ex_3_sales db) loaded)))
              Hc Hr1)
    as (db2 & Hrun2 & _ & Hempty).
  exists db2. split; [exact Hrun|]. split; [exact Hrun2|].
  rewrite get_last_watermark_update_state in Hempty |- *.
  destruct Hempty as [Hrow Hsales]; [|by split].
  by eapply nothing_left_to_load.
Qed.

(** X14 on the first sample batch and an empty sink. *)
Lemma load_incremental_sales_twice_witness :
  cleaned Samples.sales_first = true /\
  readable_watermark Samples.empty_sink = true /\
  exists db1 db2,
    load_incremental_sales 1 Samples.sales_first Samples.empty_sink = Some db1 /\
    load_incremental_sales 2 Samples.sales_first db1 = Some db2 /\
    ex_3_sales db2 = ex_3_sales db1 /\
    ex_3_etl_state db2 !! pipeline_name =
      Some (StateRow (get_last_watermark db1) 2 0).
Proof.
  split; [reflexivity|]. split; [reflexivity|].
  apply (load_incremental_sales_twice 1 2 Samples.sales_first Samples.empty_sink);
    reflexivity.
Defined.

(** X15.  One run on a cleaned batch, with a stored watermark that is
    absent or a day pandas reads, works as an upsert by transaction_id.
    Afterwards the sales table holds the rows the run loaded, and of the
    rows it held before exactly those whose transaction_id none of the
    loaded rows has; a row whose transaction_id is missing is never taken
    out. *)
Theorem load_incremental_sales_upsert (now : Z) (batch : list Sale.row) (db : database) :
  cleaned batch = true ->
  readable_watermark db = true ->
  exists loaded db',
    load_incremental_sales now batch db = Some db' /\
    loaded ≡ₚ incremental_rows (get_last_watermark db) batch /\
    (forall s, s ∈ ex_3_sales db' <->
       s ∈ loaded \/
       (s ∈ ex_3_sales db /\
        forall st, st ∈ loaded ->
          sql_eq (Sale.transaction_id s) (Sale.transaction_id st) = false)) /\
    (forall s, s ∈ ex_3_sales db -> isna (Sale.transaction_id s) = true ->
       s ∈ ex_3_sales db').
Proof.
  intros Hc Hr.
  destruct (load_incremental_sales_run now batch db Hc Hr)
    as (loaded & new_wm & Hrun & Hperm & _).
  exists loaded. eexists. split; [exact Hrun|]. split; [exact Hperm|].
  cbn [update_state ex_3_sales]. unfold upsert.
  assert (Hkept : forall s,
    negb (existsb (fun st => sql_eq (Sale.transaction_id s) (Sale.transaction_id st))
            loaded) = true <->
    forall st, st ∈ loaded ->
      sql_eq (Sale.transaction_id s) (Sale.transaction_id st) = false).
  { intros s. rewrite negb_true_iff. split.
    - intros Hno st Hst. destruct (sql_eq _ _) eqn:E; [|done].
      assert (existsb (fun st => sql_eq (Sale.transaction_id s)
                                   (Sale.transaction_id st)) loaded = true)
        by (apply existsb_exists; exists st; split; [by apply list_elem_of_In|done]).
      congruence.
    - intros Hall. destruct (existsb _ loaded) eqn:E; [|done].
      apply existsb_exists in E as (st & Hst%list_elem_of_In & Heq).
      rewrite Hall in Heq; done. }
  split.
  - intros s. rewrite elem_of_app, elem_of_List_filter, Hkept. tauto.
  - intros s Hs Hna. apply elem_of_app. left. apply elem_of_List_filter.
    split; [done|]. apply Hkept. intros st _. unfold sql_eq, notna. by rewrite Hna.
Qed.

(** X15 on the second sample batch loaded over the first. *)
Lemma load_incremental_sales_upsert_witness :
  cleaned Samples.sales_second = true /\
  readable_watermark (Database ∅ Samples.sales_first) = true /\
  exists loaded db',
    load_incremental_sales 2 Samples.sales_second
      (Database ∅ Samples.sales_first) = Some db' /\
    loaded ≡ₚ incremental_rows (get_last_watermark (Database ∅ Samples.sales_first))
                Samples.sales_second /\
    (forall s, s ∈ ex_3_sales db' <->
       s ∈ loaded \/
       (s ∈ ex_3_sales (Database ∅ Samples.sales_first) /\
        forall st, st ∈ loaded ->
          sql_eq (Sale.transaction_id s) (Sale.transaction_id st) = false)) /\
    (forall s, s ∈ ex_3_sales (Database ∅ Samples.sales_first) ->
       isna (Sale.transaction_id s) = true -> s ∈ ex_3_sales db').
Proof.
  split; [reflexivity|]. split; [reflexivity|].
  apply (load_incremental_sales_upsert 2 Samples.sales_second
           (Database ∅ Samples.sales_first));
    reflexivity.
Defined.

(** X16.  When a watermark is stored, a day pandas reads, and the
    cleaned batch has rows dated after it, the run moves the watermark to
    a strictly later date and records in the state row the clock reading
    and the number of rows it loaded. *)
Theorem load_incremental_sales_advances (now : Z) (batch : list Sale.row)
    (db : database) (w : date) :
  cleaned batch = true ->
  readable_watermark db = true ->
  get_last_watermark db = Some w ->
  List.filter (newer_than w) batch <> [] ->
  exists db' m,
    load_incremental_sales now batch db = Some db' /\
    date_ltb w m = true /\
    ex_3_etl_state db' !! pipeline_name =
      Some (StateRow (Some m) now
              (Z.of_nat (length (List.filter (newer_than w) batch)))).
Proof.
  intros Hc Hrd Hw Hnew.
  destruct (load_incremental_sales_run now batch db Hc Hrd)
    as (loaded & new_wm & Hrun & Hperm & _ & _ & Hcons).
  rewrite Hw in Hperm. cbn [incremental_rows] in Hperm.
  assert (loaded <> []) as Hne.
  { intros ->. by apply Permutation_nil_l in Hperm. }
  specialize (Hcons Hne). destruct new_wm as [m|]; [|done].
  destruct Hcons as [(r & Hr & Hd) _].
  eexists. exists m. split; [exact Hrun|]. split.
  - rewrite Hperm in Hr. apply elem_of_List_filter in Hr as [_ Hr].
    unfold newer_than in Hr. by rewrite Hd in Hr.
  - cbn. rewrite lookup_insert_eq. by rewrite Hperm.
Qed.

(** X16 on the second sample batch after the first was loaded. *)
Lemma load_incremental_sales_advances_witness :
  let db :=
    Database {[pipeline_name := StateRow (Some (Date 2025 3 10)) 1 3]}
      Samples.sales_first in
  cleaned Samples.sales_second = true /\
  readable_watermark db = true /\
  get_last_watermark db = Some (Date 2025 3 10) /\
  List.filter (newer_than (Date 2025 3 10)) Samples.sales_second <> [] /\
  exists db' m,
    load_incremental_sales 2 Samples.sales_second db = Some db' /\
    date_ltb (Date 2025 3 10) m = true /\
    ex_3_etl_state db' !! pipeline_name =
      Some (StateRow (Some m) 2
              (Z.of_nat (length (List.filter (newer_than (Date 2025 3 10))
                                   Samples.sales_second)))).
Proof.
  intros db.
  assert (H1 : cleaned Samples.sales_second = true) by reflexivity.
  assert (H0 : readable_watermark db = true) by reflexivity.
  assert (H2 : get_last_watermark db = Some (Date 2025 3 10)) by reflexivity.
  assert (H3 : List.filter (newer_than (Date 2025 3 10)) Samples.sales_second <> [])
    by (vm_compute; discriminate).
  split; [exact H1|]. split; [exact H0|]. split; [exact H2|]. split; [exact H3|].
  apply (load_incremental_sales_advances 2 Samples.sales_second db
           (Date 2025 3 10) H1 H0 H2 H3).
Defined.

#[local] Existing Instance wm_le_trans.

(** One run keeps the sales table below the watermark. *)
Lemma load_incremental_sales_bounded (now : Z) (batch : list Sale.row) (db : database) :
  cleaned batch = true ->
  readable_watermark db = true ->
  sink_bounded db ->
  exists db', load_incremental_sales now batch db = Some db' /\ sink_bounded db'.
Proof.
  intros Hc Hrd Hb.
  destruct (load_incremental_sales_run now batch db Hc Hrd)
    as (loaded & new_wm & Hrun & Hperm & _ & Hnil & Hcons).
  destruct (load_incremental_sales_watermark now batch db Hc Hrd)
    as (db'' & Hrun' & Hle & _).
  rewrite Hrun in Hrun'. injection Hrun' as <-.
  rewrite get_last_watermark_update_state in Hle.
  eexists. split; [exact Hrun|].
  intros r Hr. rewrite get_last_watermark_update_state.
  cbn [update_state ex_3_sales] in Hr. unfold upsert in Hr.
  apply elem_of_app in Hr as [[Hr _]%elem_of_List_filter|Hr].
  - destruct (Hb r Hr) as (d & wm & Hd & Hwm & Hdw).
    rewrite Hwm in Hle. destruct new_wm as [m|]; [|done].
    exists d, m. split; [done|]. split; [done|]. cbn in Hle. by transitivity wm.
  - assert (loaded <> []) as Hne by (intros ->; by apply not_elem_of_nil in Hr).
    specialize (Hcons Hne). destruct new_wm as [m|]; [|done].
    destruct Hcons as [_ Hmax].
    assert (exists d, date_of r = Some d) as [d Hd].
    { apply (cleaned_date_of batch); [done|].
      rewrite Hperm in Hr. destruct (get_last_watermark db); cbn in Hr; [|done].
      by apply elem_of_List_filter in Hr as [? _]. }
    exists d, m. split; [done|]. split; [done|]. by apply (Hmax r).
Qed.

(** X17.  Start from an empty sales table, with a stored watermark that
    is absent or a day pandas reads, and run the loader any number of
    times on cleaned batches.  After every run the stored watermark is an
    upper bound of the sales table: no loaded row is dated after it. *)
Theorem watermark_bounds_sales (runs : list (Z * list Sale.row))
    (state : gmap string state_row) :
  all_cleaned runs = true ->
  readable_watermark (Database state []) = true ->
  exists dbs, run_all runs (Database state []) = Some dbs /\ Forall sink_bounded dbs.
Proof.
  intros Hc Hr.
  assert (Hb : sink_bounded (Database state []))
    by (intros r Hr0; by apply not_elem_of_nil in Hr0).
  revert Hc Hr Hb. generalize (Database state []).
  induction runs as [|[now batch] runs IH]; intros db Hc Hr Hb.
  - exists []. by split.
  - cbn in Hc. apply andb_true_iff in Hc as [Hbatch Hc].
    destruct (load_incremental_sales_bounded now batch db Hbatch Hr Hb)
      as (db' & Hrun & Hb').
    pose proof (load_incremental_sales_readable now batch db db' Hbatch Hr Hrun)
      as Hr'.
    destruct (IH db' Hc Hr' Hb') as (dbs & Hdbs & Hall).
    exists (db' :: dbs). cbn [run_all]. rewrite Hrun. cbn. rewrite Hdbs. cbn.
    split; [done|]. by constructor.
Qed.

(** X17 on three runs over the sample batches. *)
Lemma watermark_bounds_sales_witness :
  all_cleaned [(1%Z, Samples.sales_first); (2%Z, Samples.sales_first);
               (3%Z, Samples.sales_second)] = true /\
  readable_watermark (Database ∅ []) = true /\
  exists dbs,
    run_all [(1%Z, Samples.sales_first); (2%Z, Samples.sales_first);
             (3%Z, Samples.sales_second)] (Database ∅ []) = Some dbs /\
    Forall sink_bounded dbs.
Proof.
  split; [reflexivity|]. split; [reflexivity|].
  apply (watermark_bounds_sales
           [(1%Z, Samples.sales_first); (2%Z, Samples.sales_first);
            (3%Z, Samples.sales_second)] ∅);
    reflexivity.
Defined.

(** X18.  [get_last_watermark] reads back what [update_state] wrote, also
    over an older row: there is one row for the pipeline and the last
    write wins.  [update_state] touches neither the rows of other
    pipelines nor the sales table. *)
Theorem update_state_read_back (wm wm0 : option date) (n n0 now now0 : Z)
    (db : database) :
  get_last_watermark (update_state wm n now (update_state wm0 n0 now0 db)) = wm /\
  update_state wm n now (update_state wm0 n0 now0 db) = update_state wm n now db /\
  ex_3_sales (update_state wm n now db) = ex_3_sales db /\
  (forall other, other <> pipeline_name ->
     ex_3_etl_state (update_state wm n now db) !! other = ex_3_etl_state db !! other).
Proof.
  split; [apply get_last_watermark_update_state|]. split; [|split].
  - unfold update_state. cbn. by rewrite insert_insert_eq.
  - reflexivity.
  - intros other Hne. cbn. by rewrite lookup_insert_ne.
Qed.

(** X19.  On a cleaned batch with at least one row, the largest text of
    the transaction_date column, which the loader takes with the order of
    strings, is the text of the latest date of the batch. *)
Theorem str_max_is_latest_date (batch : list Sale.row) :
  cleaned batch = true ->
  batch <> [] ->
  exists m,
    str_max (map Sale.transaction_date batch) = Some (strftime_Ymd m) /\
    is_latest_date (Some m) batch.
Proof.
  intros Hc Hne.
  destruct (with_transaction_date_dt_cleaned batch Hc) as (l & _ & <- & Hall).
  destruct (str_max_dated l Hall) as (p & Hp & Hmax & Hle).
  { intros ->. done. }
  exists p.2. split; [exact Hmax|]. split.
  - exists p.1. split; [apply list_elem_of_fmap; eauto|].
    apply dated_date_of. rewrite Forall_forall in Hall. auto.
  - intros r d (q & -> & Hq)%list_elem_of_fmap Hd.
    assert (dated q) as Hdq by (rewrite Forall_forall in Hall; auto).
    rewrite (dated_date_of q Hdq) in Hd. injection Hd as <-. by apply Hle.
Qed.

(** X19 on the first sample batch. *)
Lemma str_max_is_latest_date_witness :
  cleaned Samples.sales_first = true /\
  Samples.sales_first <> [] /\
  exists m,
    str_max (map Sale.transaction_date Samples.sales_first) = Some (strftime_Ymd m) /\
    is_latest_date (Some m) Samples.sales_first.
Proof.
  assert (Hne : Samples.sales_first <> []) by discriminate.
  split; [reflexivity|]. split; [exact Hne|].
  apply (str_max_is_latest_date Samples.sales_first); [reflexivity | exact Hne].
Defined.

Lemma with_transaction_date_dt_fails (batch : list Sale.row) (r : Sale.row) :
  r ∈ batch -> date_of r = None -> with_transaction_date_dt batch = None.
Proof.
  unfold with_transaction_date_dt, date_of.
  induction batch as [|x batch IH]; intros Hr Hd; [by apply not_elem_of_nil in Hr|].
  cbn [mapM]. apply elem_of_cons in Hr as [<-|Hr].
  - by rewrite Hd.
  - rewrite (IH Hr Hd). by destruct (to_datetime_Ymd (Sale.transaction_date x)).
Qed.

(** X29.  The loader raises, with the sales table and the state rows
    left as they were, in two cases: when the [transaction_date] of some
    row is a [YYYY-MM-DD] text that names no day of the calendar or a day
    outside the Timestamp bounds, and when the batch is cleaned but the
    stored watermark is a day outside these bounds. *)
Theorem load_incremental_sales_raises (now : Z) (batch : list Sale.row)
    (db : database) :
  (exists r s d, r ∈ batch /\ Sale.transaction_date r = Str s /\
     parse_Ymd s = Some d /\ valid_dateb d = false) \/
  (cleaned batch = true /\ readable_watermark db = false) ->
  load_incremental_sales now batch db = None.
Proof.
  intros [(r & s & d & Hr & Hs & Hd & Hv)|[Hc Hbad]]; unfold load_incremental_sales.
  - rewrite (with_transaction_date_dt_fails batch r Hr); [done|].
    unfold date_of, to_datetime_Ymd, to_datetime_str. rewrite Hs, Hd.
    cbn [mbind option_bind]. by rewrite Hv.
  - destruct (with_transaction_date_dt_cleaned batch Hc) as (l & -> & _).
    cbn [mbind option_bind]. unfold readable_watermark in Hbad.
    destruct (get_last_watermark db) as [wm|]; [|done].
    unfold to_datetime_date. by rewrite Hbad.
Qed.

(** X29 on a batch with a row dated 2025-02-31. *)
Lemma load_incremental_sales_raises_witness :
  let bad := Sale.mk (Str "T000009") (Str "P0001") (Str "C0001") (Num (Fin (Q2Qc 2)))
               (Str "2025-02-31") in
  let batch := Samples.sales_first ++ [bad] in
  (exists r s d, r ∈ batch /\ Sale.transaction_date r = Str s /\
     parse_Ymd s = Some d /\ valid_dateb d = false) /\
  load_incremental_sales 1 batch Samples.empty_sink = None.
Proof.
  intros bad batch.
  assert (Hbad : exists r s d, r ∈ batch /\ Sale.transaction_date r = Str s /\
            parse_Ymd s = Some d /\ valid_dateb d = false).
  { exists bad, "2025-02-31", (Date 2025 2 31).
    split; [apply elem_of_app; right; left|]. by repeat split. }
  split; [exact Hbad|].
  apply (load_incremental_sales_raises 1 batch Samples.empty_sink). by left.
Defined.

(** The days at the edges: the loader reads a leap day and the first and
    the last day of a Timestamp, and raises on the days next to them. *)
Example load_incremental_sales_edges :
  let run text :=
    load_incremental_sales 1
      [Sale.mk (Str "T000001") (Str "P0001") (Str "C0001") (Num (Fin (Q2Qc 2)))
         (Str text)] Samples.empty_sink in
  Forall (fun text => is_Some (run text)) ["2024-02-29"; "1677-09-22"; "2262-04-11"] /\
  Forall (fun text => run text = None)
    ["2023-02-29"; "2025-02-31"; "2025-13-01"; "1500-01-01"; "1677-09-21";
     "2262-04-12"; "9999-12-31"].
Proof. split; repeat constructor; by eexists. Qed.

End LoaderMore.

(** ** More on the fetch (ex6) *)

Section FetcherMore.
Import Dedup Ex6 Ex6Spec.
Context `{Externals}.

(** [k] failures that are retried, with attempts to spare: each request
    is followed by its wait, whatever the kind of failure. *)
Lemma fetch_loop_retries (net : nat -> response) (k : nat) :
  forall fuel attempt sent,
    (forall i, i < k -> retryable (net (sent + i)) = true) ->
    attempt + k < MAX_RETRIES ->
    fetch_loop (k + fuel) net attempt sent =
    (let '(result, trace) := fetch_loop fuel net (attempt + k) (sent + k) in
     (result, timeouts attempt k ++ trace)).
Proof.
  induction k as [|k IH]; intros fuel attempt sent Hnet Hlt.
  - rewrite !Nat.add_0_r. cbn [Nat.add timeouts seq flat_map app].
    by destruct (fetch_loop fuel net attempt sent).
  - cbn [Nat.add fetch_loop].
    destruct (Nat.ltb_spec attempt MAX_RETRIES) as [_|Hge]; [|lia].
    pose proof (Hnet 0 ltac:(lia)) as H0. rewrite Nat.add_0_r in H0.
    assert (Hnext :
      (let '(result, trace) := fetch_loop (k + fuel) net (attempt + 1) (S sent) in
       (result, Get :: Sleep (BACKOFF_FACTOR ^ (attempt + 1)) :: trace)) =
      (let '(result, trace) := fetch_loop fuel net (attempt + S k) (sent + S k) in
       (result, timeouts attempt (S k) ++ trace))).
    { rewrite (IH fuel (attempt + 1) (S sent)).
      - replace (attempt + 1 + k) with (attempt + S k) by lia.
        replace (S sent + k) with (sent + S k) by lia.
        destruct (fetch_loop fuel net (attempt + S k) (sent + S k)) as [result trace].
        unfold timeouts. cbn [seq flat_map app]. by rewrite Nat.add_1_r.
      - intros i Hi. replace (S sent + i) with (sent + S i) by lia. apply Hnet. lia.
      - lia. }
    destruct (net sent) as [| |status_code b]; [exact Hnext | done |].
    cbn in H0. rewrite H0.
    destruct (Nat.leb_spec MAX_RETRIES (attempt + 1)); [lia | exact Hnext].
Qed.

(** X20.  When fewer than [MAX_RETRIES] requests fail with a timeout or a
    status other than 200 and the next one answers 200 with an array, the
    fetcher returns the frame made of that array; it has waited
    [BACKOFF_FACTOR ** attempt] after each failure and has issued one
    request more than there were failures. *)
Theorem fetch_succeeds_after_retries (net : nat -> response) (k : nat)
    (data : list (gmap string cell)) :
  k < MAX_RETRIES ->
  (forall i, i < k -> retryable (net i) = true) ->
  net k = Http 200 (Records data) ->
  fetch_all_product_metadata net =
    (Some (normalize_metadata data), timeouts 0 k ++ [Get]).
Proof.
  intros Hk Hnet Hok. unfold fetch_all_product_metadata.
  replace (S MAX_RETRIES) with (k + S (MAX_RETRIES - k)) by lia.
  rewrite fetch_loop_retries; [|exact Hnet|lia].
  cbn [fetch_loop Nat.add].
  destruct (Nat.ltb_spec k MAX_RETRIES) as [_|Hge]; [|lia].
  by rewrite Hok.
Qed.

End FetcherMore.

Section FetcherMoreSamples.
Import Ex6 Ex6Spec.

(** X20 on the scenario: two answers 500, then 200 with an array. *)
Lemma fetch_succeeds_after_retries_witness :
  let net := fun i => if i <? 2 then Http 500 Unparseable else Http 200 (Records []) in
  2 < MAX_RETRIES /\
  (forall i, i < 2 -> retryable (net i) = true) /\
  net 2 = Http 200 (Records []) /\
  @fetch_all_product_metadata Samples.externals net =
    (Some (@normalize_metadata Samples.externals []), timeouts 0 2 ++ [Get]).
Proof.
  intros net.
  assert (H1 : 2 < MAX_RETRIES) by (unfold MAX_RETRIES; lia).
  assert (H2 : forall i, i < 2 -> retryable (net i) = true)
    by (intros [|[|i]] Hi; [reflexivity | reflexivity | lia]).
  assert (H3 : net 2 = Http 200 (Records [])) by reflexivity.
  split; [exact H1|]. split; [exact H2|]. split; [exact H3|].
  apply (@fetch_succeeds_after_retries Samples.externals net 2 [] H1 H2 H3).
Defined.

End FetcherMoreSamples.

(** ** Duplicate records of the fetched metadata (ex6) *)

Section MetadataMore.
Import Dedup Ex6 Ex6Spec.
Context `{Externals}.

Lemma existsb_filter_nil {A} (f : A -> bool) (l : list A) :
  existsb f l = false -> List.filter f l = [].
Proof.
  induction l as [|x l IH]; [done|]. cbn [existsb List.filter].
  intros [-> Hl]%orb_false_iff. by apply IH.
Qed.

Lemma existsb_filter_cons {A} (f : A -> bool) (l : list A) :
  existsb f l = true -> List.filter f l <> [].
Proof.
  induction l as [|x l IH]; [done|]. cbn [existsb List.filter].
  destruct (f x); [done|]. cbn [orb]. exact IH.
Qed.

Section KeepLast.
Context {A : Type} (key : A -> cell).

Lemma drop_duplicates_last_sublist (df : list A) :
  drop_duplicates_last key df `sublist_of` df.
Proof.
  induction df as [|x df IH]; [constructor|]. cbn [drop_duplicates_last].
  destruct (existsb _ df); by constructor.
Qed.

(** A row is kept exactly when it is the last row of its key. *)
Lemma drop_duplicates_last_last (df : list A) (r : A) :
  r ∈ drop_duplicates_last key df <-> last (get_group key df (key r)) = Some r.
Proof.
  induction df as [|x df IH].
  - cbn. split; [by intros ?%not_elem_of_nil | done].
  - cbn [drop_duplicates_last]. unfold get_group. cbn [List.filter].
    fold (get_group key df (key r)).
    destruct (existsb (fun r' => bool_decide (key r' = key x)) df) eqn:Hex.
    + rewrite IH. case_bool_decide as Hk; [|done].
      rewrite last_cons.
      apply existsb_filter_cons in Hex. rewrite Hk in Hex.
      fold (get_group key df (key r)) in Hex.
      destruct (last (get_group key df (key r))) eqn:Hl; [done|].
      by apply last_None in Hl.
    + rewrite elem_of_cons, IH. apply existsb_filter_nil in Hex.
      case_bool_decide as Hk.
      * rewrite Hk in Hex. fold (get_group key df (key r)) in Hex. rewrite Hex.
        cbn [last]. split; [intros [->|?]; done | intros [= ->]; by left].
      * split; [intros [->|?]; done | by right].
Qed.

Lemma drop_duplicates_last_keys (df : list A) (k : cell) :
  k ∈ map key (drop_duplicates_last key df) <-> k ∈ map key df.
Proof.
  split.
  - intros (r & -> & Hr)%list_elem_of_fmap. apply list_elem_of_fmap.
    exists r. split; [done|].
    eapply elem_of_sublist; [exact Hr | apply drop_duplicates_last_sublist].
  - intros Hk. apply (get_group_nonempty key) in Hk.
    destruct (last (get_group key df k)) as [r|] eqn:Hl;
      [|by apply last_None in Hl].
    assert (r ∈ get_group key df k) as Hr.
    { apply last_Some in Hl as [l' ->]. apply elem_of_app. right. left. }
    apply elem_of_get_group in Hr as [_ <-].
    apply list_elem_of_fmap. exists r. split; [done|].
    by apply drop_duplicates_last_last.
Qed.

Lemma drop_duplicates_last_NoDup (df : list A) :
  NoDup (map key (drop_duplicates_last key df)).
Proof.
  induction df as [|x df IH]; [constructor|]. cbn [drop_duplicates_last].
  destruct (existsb _ df) eqn:Hex; [done|].
  cbn [map]. apply NoDup_cons. split; [|done].
  intros Hin. apply (proj1 (drop_duplicates_last_keys df (key x))) in Hin.
  apply (get_group_nonempty key) in Hin. apply Hin.
  exact (existsb_filter_nil _ _ Hex).
Qed.

End KeepLast.

Lemma normalize_metadata_NoDup (data : list (gmap string cell)) :
  NoDup (map Meta.product_id (normalize_metadata data)).
Proof. rewrite normalize_metadata_records. apply drop_duplicates_last_NoDup. Qed.

Lemma fetched_ids_NoDup (net : nat -> response) :
  NoDup (map Meta.product_id (default [] (fetch_all_product_metadata net).1)).
Proof.
  unfold fetch_all_product_metadata.
  destruct (fetch_loop_result net (S MAX_RETRIES) 0 0) as [->|[->|[data ->]]];
    cbn [default map]; [constructor | constructor | apply normalize_metadata_NoDup].
Qed.

(** X21.  In the frame made of the parsed array no two rows have the
    same product_id, every product_id of the array (as trimmed text) has a
    row, the rows keep the order of the array, and of the records with one
    product_id it is the last that is kept. *)
Theorem normalize_metadata_keeps_last (data : list (gmap string cell)) :
  let rows := map (normalized_record data) data in
  let out := normalize_metadata data in
  NoDup (map Meta.product_id out) /\
  (forall k, k ∈ map Meta.product_id out <-> k ∈ map Meta.product_id rows) /\
  out `sublist_of` rows /\
  (forall r, r ∈ out <->
     last (get_group Meta.product_id rows (Meta.product_id r)) = Some r).
Proof.
  cbv zeta. rewrite normalize_metadata_records.
  split; [apply drop_duplicates_last_NoDup|].
  split; [intros k; apply drop_duplicates_last_keys|].
  split; [apply drop_duplicates_last_sublist|].
  intros r. apply drop_duplicates_last_last.
Qed.

End MetadataMore.

(** ** Ratings of the fetched metadata: the claim *)

Section FetchedRatings.
Import Dedup Ex6 Ex6Spec.
Context `{Externals}.

(** C9.  Every rating in the frame the fetcher returns is null or lies
    in [0, 5], whatever the service answers.  When the fetch succeeds,
    that is after fewer than [MAX_RETRIES] failures that are retried and
    then an answer 200 with an array, the frame is made of the records of
    that array: every rating is made a number and clipped, so that a
    rating below 0 becomes 0, one above 5 becomes 5 and any other stays
    as it is, and then the last record of each product_id is kept.  No
    record is left out on account of its rating: every product_id of the
    array has a row in the frame, and every row of the frame is the
    clipped form of a record. *)
Theorem fetched_ratings_in_range (net : nat -> response) :
  Forall (fun r => rating_in_range (Meta.rating r))
    (default [] (fetch_all_product_metadata net).1) /\
  (forall k data,
     k < MAX_RETRIES ->
     (forall i, i < k -> retryable (net i) = true) ->
     net k = Http 200 (Records data) ->
     let rows := map (normalized_record data) data in
     let out := default [] (fetch_all_product_metadata net).1 in
     out = drop_duplicates_last Meta.product_id rows /\
     (forall r, r ∈ rows ->
        exists r', r' ∈ out /\ Meta.product_id r' = Meta.product_id r) /\
     (forall r', r' ∈ out -> r' ∈ rows)) /\
  (forall data record,
     Meta.rating (normalized_record data record) =
     Num (clip (to_numeric (column data "rating" record)))) /\
  (forall x, float_ltb x Ex5.zero = true -> clip x = Ex5.zero) /\
  (forall x, float_ltb x Ex5.zero = false -> float_ltb five x = true -> clip x = five) /\
  (forall x, float_ltb x Ex5.zero = false -> float_ltb five x = false -> clip x = x).
Proof.
  split; [|split; [|split; [|split; [|split]]]].
  - unfold fetch_all_product_metadata.
    destruct (fetch_loop_result net (S MAX_RETRIES) 0 0) as [->|[->|[data ->]]];
      cbn [default]; [constructor | constructor | apply normalize_metadata_in_range].
  - intros k data Hk Hnet Hok rows out.
    assert (Hout : out = drop_duplicates_last Meta.product_id rows).
    { unfold out, fetch_all_product_metadata.
      replace (S MAX_RETRIES) with (k + S (MAX_RETRIES - k)) by lia.
      rewrite fetch_loop_retries; [|exact Hnet|lia].
      cbn [fetch_loop Nat.add].
      destruct (Nat.ltb_spec k MAX_RETRIES) as [_|Hge]; [|lia].
      rewrite Hok. rewrite bool_decide_eq_false_2 by (intros Hne; by apply Hne).
      cbn [fst default]. apply normalize_metadata_records. }
    split; [exact Hout|]. rewrite Hout. split.
    + intros r Hr.
      assert (Meta.product_id r ∈
                map Meta.product_id (drop_duplicates_last Meta.product_id rows))
        as (r' & Hid & Hr')%list_elem_of_fmap.
      { apply drop_duplicates_last_keys. apply list_elem_of_fmap. eauto. }
      eauto.
    + intros r'. apply elem_of_drop_duplicates_last.
  - reflexivity.
  - intros x Hx. unfold clip. by rewrite Hx.
  - intros x H0 H5. unfold clip. by rewrite H0, H5.
  - intros x H0 H5. unfold clip. by rewrite H0, H5.
Qed.

End FetchedRatings.

Section FetchedRatingsSamples.
Import Ex6 Ex6Spec.

(** C9 on an answer 200 whose array has the ratings 3, -1 and 7, the
    first and the last for the same product_id: the frame has the rating
    5 for P0001 and 0 for P0002. *)
Lemma fetched_ratings_in_range_witness :
  let net := fun _ : nat => Http 200 (Records MoreSamples.ratings_out_of_range) in
  0 < MAX_RETRIES /\
  (forall i, i < 0 -> retryable (net i) = true) /\
  net 0 = Http 200 (Records MoreSamples.ratings_out_of_range) /\
  map (fun r => (Meta.product_id r, Meta.rating r))
    (default [] (@fetch_all_product_metadata Samples.externals net).1) =
  [(Str "P0002", Num Ex5.zero); (Str "P0001", Num five)].
Proof.
  intros net.
  assert (H1 : 0 < MAX_RETRIES) by (unfold MAX_RETRIES; lia).
  assert (H2 : forall i, i < 0 -> retryable (net i) = true) by (intros i Hi; lia).
  assert (H3 : net 0 = Http 200 (Records MoreSamples.ratings_out_of_range))
    by reflexivity.
  split; [exact H1|]. split; [exact H2|]. split; [exact H3|].
  destruct (@fetched_ratings_in_range Samples.externals net) as (_ & Hrows & _).
  destruct (Hrows 0 MoreSamples.ratings_out_of_range H1 H2 H3) as (Hout & _).
  rewrite Hout. vm_compute. reflexivity.
Defined.

End FetchedRatingsSamples.

(** ** More on the enrichment (ex6) *)

Section EnrichmentMore.
Import Ex6 Ex6Spec EnrichSpec.

Lemma base_enriched (p : Product.row) (d r a : cell) : base (enriched p d r a) = p.
Proof. by destruct p. Qed.

Lemma base_fill_description (e : Enriched.row) : base (fill_description e) = base e.
Proof. unfold fill_description. by destruct (isna (Enriched.description e)). Qed.

Lemma base_fill_availability_status (e : Enriched.row) :
  base (fill_availability_status e) = base e.
Proof.
  unfold fill_availability_status. by destruct (isna (Enriched.availability_status e)).
Qed.

(** The join gives a product one row, or one row for each metadata row
    of its product_id when there are several. *)
Lemma merge_left_base (products_df : list Product.row) (api_df : list Meta.row) :
  map base (merge_left products_df api_df) =
  flat_map (fun p => replicate (Nat.max 1 (length (matches api_df p))) p) products_df.
Proof.
  unfold merge_left. induction products_df as [|p products_df IH]; [done|].
  cbn [flat_map]. rewrite map_app, IH. f_equal.
  fold (matches api_df p). destruct (matches api_df p) as [|m ms]; [by destruct p|].
  replace (Nat.max 1 (length (m :: ms))) with (length (m :: ms)) by (cbn [length]; lia).
  generalize (m :: ms). intros l. induction l as [|m' l IHl]; [done|].
  cbn [map length replicate]. rewrite IHl. by destruct p.
Qed.

Lemma enrich_base_rows (products_df : list Product.row) (api_df : list Meta.row) :
  map base (enrich_products_with_api products_df api_df) =
  flat_map (fun p => replicate (Nat.max 1 (length (matches api_df p))) p) products_df.
Proof.
  destruct api_df as [|m0 api_df].
  - unfold enrich_products_with_api. rewrite map_map.
    induction products_df as [|p products_df IH]; [done|].
    cbn [map flat_map matches List.filter length Nat.max replicate app].
    rewrite IH. by destruct p.
  - rewrite enrich_nonempty by done. rewrite !map_map.
    rewrite <- merge_left_base. apply map_ext. intros e.
    by rewrite base_fill_availability_status, base_fill_description.
Qed.

Lemma matches_unique (api_df : list Meta.row) (p : Product.row) :
  NoDup (map Meta.product_id api_df) -> length (matches api_df p) <= 1.
Proof.
  unfold matches. induction api_df as [|m api_df IH]; [cbn; lia|].
  cbn [map List.filter]. intros [Hm Hnd]%NoDup_cons.
  case_bool_decide as Hk; [|by apply IH].
  rewrite existsb_filter_nil; [cbn; lia|].
  destruct (existsb _ api_df) eqn:Hex; [|done].
  apply existsb_exists in Hex as (m' & Hm'%list_elem_of_In & Heq%bool_decide_eq_true_1).
  exfalso. apply Hm. apply list_elem_of_fmap. exists m'. split; [congruence|done].
Qed.

Lemma enrich_base (products_df : list Product.row) (api_df : list Meta.row) :
  NoDup (map Meta.product_id api_df) ->
  map base (enrich_products_with_api products_df api_df) = products_df.
Proof.
  intros Hnd. rewrite enrich_base_rows.
  induction products_df as [|p products_df IH]; [done|].
  cbn [flat_map]. rewrite IH.
  pose proof (matches_unique api_df p Hnd) as Hle.
  replace (Nat.max 1 (length (matches api_df p))) with 1 by lia. done.
Qed.

(** X22.  The enriched frame holds the product columns of the products
    frame unchanged and in order, each product once for every metadata row
    of its product_id and once when there is none.  When no two metadata
    rows share a product_id, and so for whatever the fetcher returns, the
    enriched frame has exactly the rows of the products frame. *)
Theorem enrich_keeps_products (products_df : list Product.row)
    (api_df : list Meta.row) :
  map base (enrich_products_with_api products_df api_df) =
    flat_map (fun p => replicate (Nat.max 1 (length (matches api_df p))) p)
      products_df /\
  (NoDup (map Meta.product_id api_df) ->
   map base (enrich_products_with_api products_df api_df) = products_df) /\
  (forall (E : Externals) (net : nat -> response),
     map base (enrich_products_with_api products_df
                 (default [] (fetch_all_product_metadata net).1)) = products_df).
Proof.
  split; [apply enrich_base_rows|]. split; [apply enrich_base|].
  intros E net. apply enrich_base, fetched_ids_NoDup.
Qed.

Lemma shown_fills (p : Product.row) (d r a : cell) :
  fill_availability_status (fill_description (enriched p d r a)) =
  enriched p (shown_description d) r (shown_availability_status a).
Proof.
  unfold fill_availability_status, fill_description, shown_description,
    shown_availability_status, enriched.
  cbn [Enriched.description]. destruct (isna d);
    cbn [Enriched.set_description Enriched.availability_status Enriched.product_id
         Enriched.product_name Enriched.category Enriched.price Enriched.description
         Enriched.rating];
    destruct (isna a); reflexivity.
Qed.

Lemma elem_of_enrich (products_df : list Product.row) (api_df : list Meta.row)
    (e : Enriched.row) :
  api_df <> [] ->
  e ∈ enrich_products_with_api products_df api_df <->
  exists p, p ∈ products_df /\
    ((matches api_df p = [] /\
      e = enriched p (Str default_description) NaN (Str "Unknown")) \/
     (exists m, m ∈ matches api_df p /\
        e = enriched p (shown_description (Meta.description m)) (Meta.rating m)
              (shown_availability_status (Meta.availability_status m)))).
Proof.
  intros Hne. rewrite enrich_nonempty by done. rewrite map_map, list_elem_of_fmap.
  split.
  - intros (e0 & -> & (p & Hp & He0)%elem_of_merge_left). exists p. split; [done|].
    destruct He0 as [[Hm ->]|(m & Hm & ->)]; rewrite shown_fills; [left|right]; eauto.
  - intros (p & Hp & [[Hm ->]|(m & Hm & ->)]).
    + exists (enriched p PdNA NaN PdNA). split; [by rewrite shown_fills|].
      apply elem_of_merge_left. exists p. split; [done|]. by left.
    + exists (enriched p (Meta.description m) (Meta.rating m)
                (Meta.availability_status m)).
      split; [by rewrite shown_fills|].
      apply elem_of_merge_left. exists p. split; [done|]. right. eauto.
Qed.

(** X23.  With a non-empty metadata frame the rows of the enriched frame
    are exactly these: for a product and a metadata row of its product_id,
    the product with that row's description, rating and availability
    status, where a null description reads "No description available."
    and a null availability status reads "Unknown" while the rating is
    left as it is; for a product without metadata row, the product with
    the two default texts and a null rating. *)
Theorem enrich_rows (products_df : list Product.row) (api_df : list Meta.row)
    (e : Enriched.row) :
  api_df <> [] ->
  e ∈ enrich_products_with_api products_df api_df <->
  exists p, p ∈ products_df /\
    ((matches api_df p = [] /\
      e = enriched p (Str default_description) NaN (Str "Unknown")) \/
     (exists m, m ∈ matches api_df p /\
        e = enriched p (shown_description (Meta.description m)) (Meta.rating m)
              (shown_availability_status (Meta.availability_status m)))).
Proof. apply elem_of_enrich. Qed.

(** X23 on the product the sample metadata describes. *)
Lemma enrich_rows_witness :
  Samples.metadata <> [] /\
  enriched Samples.mouse (Str "A mouse without a cable.") (Num (Fin (Q2Qc 4)))
    (Str "In Stock")
    ∈ enrich_products_with_api Samples.products Samples.metadata.
Proof.
  assert (Hne : Samples.metadata <> []) by discriminate.
  split; [exact Hne|].
  apply (proj2 (enrich_rows Samples.products Samples.metadata _ Hne)).
  exists Samples.mouse. split; [left|]. right.
  eexists. split; [left|reflexivity].
Defined.

(** X24.  The two text columns are filled for all products or for none:
    with a non-empty metadata frame no row of the enriched frame has a
    null description or a null availability status, and with an empty one
    every row has null in all three added columns. *)
Theorem enrich_defaults_all_or_none (products_df : list Product.row)
    (api_df : list Meta.row) :
  match api_df with
  | [] =>
      Forall (fun e => Enriched.description e = PdNA /\ Enriched.rating e = PdNA /\
                       Enriched.availability_status e = PdNA)
        (enrich_products_with_api products_df api_df)
  | _ =>
      Forall (fun e => isna (Enriched.description e) = false /\
                       isna (Enriched.availability_status e) = false)
        (enrich_products_with_api products_df api_df)
  end.
Proof.
  destruct api_df as [|m0 api_df]; apply Forall_forall; intros e He.
  - unfold enrich_products_with_api in He.
    by apply list_elem_of_fmap in He as (p & -> & _).
  - apply elem_of_enrich in He as (p & _ & [[_ ->]|(m & _ & ->)]); [done| |done].
    unfold shown_description, shown_availability_status.
    cbn [Enriched.description Enriched.availability_status enriched]. split.
    + by destruct (isna (Meta.description m)) eqn:Hd.
    + by destruct (isna (Meta.availability_status m)) eqn:Ha.
Qed.

End EnrichmentMore.

(** ** The pipelines end to end (ex5, ex6, ex3) *)

Section Ex5Pipeline.
Import Ex5 Ex5Spec Ex5Main.
Context `{Externals}.

(** X25.  [main] of ex5 raises [FileNotFoundError] exactly when one of
    the three CSV files is missing.  Otherwise it finishes: the products
    and customers tables hold the cleaned frames, every row of the sales
    table has its product_id in the products table and its customer_id in
    the customers table, the sales table and the rejected rows of the run
    together hold the cleaned sales, and the rejected table is replaced by
    the rejected rows of the run when there are some and left as it was
    when there are none. *)
Theorem ex5_main_sink (products_csv : option (list Product.row))
    (customers_csv : option (list Customer.row)) (sales_csv : option (list Sale.row))
    (db : database) :
  (main products_csv customers_csv sales_csv db = FileNotFoundError <->
   products_csv = None \/ customers_csv = None \/ sales_csv = None) /\
  (forall products_raw customers_raw sales_raw,
     products_csv = Some products_raw -> customers_csv = Some customers_raw ->
     sales_csv = Some sales_raw ->
     let sales_rejected :=
       (validate_referential_integrity (clean_sales sales_raw)
          (clean_products products_raw) (clean_customers customers_raw)).2 in
     exists db',
       main products_csv customers_csv sales_csv db = Finished db' /\
       ex_5_products db' = clean_products products_raw /\
       ex_5_customers db' = clean_customers customers_raw /\
       Forall (fun r =>
                 Sale.product_id r ∈ map Product.product_id (ex_5_products db') /\
                 Sale.customer_id r ∈ map Customer.customer_id (ex_5_customers db'))
         (ex_5_sales db') /\
       ex_5_sales db' ++ map Rejected.sale sales_rejected ≡ₚ clean_sales sales_raw /\
       ex_5_sales_rejected db' =
         match sales_rejected with
         | [] => ex_5_sales_rejected db
         | _ => sales_rejected
         end).
Proof.
  split.
  - unfold main.
    destruct products_csv as [p|], customers_csv as [c|], sales_csv as [s|];
      try (split; [intros _; auto | done]).
    destruct (validate_referential_integrity _ _ _) as [valid rejected].
    split; [done | by intros [?|[?|?]]].
  - intros p c s -> -> ->. cbv zeta. unfold main.
    pose proof (validate_valid (clean_sales s) (clean_products p) (clean_customers c))
      as Hv.
    pose proof (validate_rejected_sales (clean_sales s) (clean_products p)
                  (clean_customers c)) as Hr.
    destruct (validate_referential_integrity _ _ _) as [valid rejected].
    cbn [fst snd] in Hv, Hr |- *. subst valid.
    eexists. split; [reflexivity|].
    unfold load_to_mariadb.
    destruct rejected as [|rj rejected];
      cbn [length Nat.ltb Nat.leb ex_5_products ex_5_customers ex_5_sales
           ex_5_sales_rejected].
    all: split; [reflexivity|]; split; [reflexivity|]; split; [|split; [|reflexivity]].
    all: try (rewrite Hr; apply filter_split_perm).
    all: apply Forall_forall; intros r [_ Hok]%elem_of_List_filter;
      unfold referential_ok in Hok; rewrite !isin_list in Hok;
      apply andb_true_iff in Hok as [Hp Hc];
      split; [by apply bool_decide_eq_true_1 in Hp | by apply bool_decide_eq_true_1 in Hc].
Qed.

End Ex5Pipeline.

Section Ex6Pipeline.
Import Ex6 Ex6Spec EnrichSpec Ex6Main.
Context `{Externals}.

(** X26.  [main] of ex6 raises [FileNotFoundError] when one of the three
    CSV files is missing, before any request is made.  Otherwise it
    finishes whatever the metadata service does: it makes at most
    [MAX_RETRIES] requests, the products table holds exactly the cleaned
    products, in order, with the three added columns, and the customers
    and sales tables hold the cleaned frames. *)
Theorem ex6_main_sink (products_csv : option (list Product.row))
    (customers_csv : option (list Customer.row)) (sales_csv : option (list Sale.row))
    (net : nat -> response) (db : database) :
  (products_csv = None \/ customers_csv = None \/ sales_csv = None ->
   main products_csv customers_csv sales_csv net db = (FileNotFoundError, [])) /\
  (forall products_raw customers_raw sales_raw,
     products_csv = Some products_raw -> customers_csv = Some customers_raw ->
     sales_csv = Some sales_raw ->
     exists db' trace,
       main products_csv customers_csv sales_csv net db = (Finished db', trace) /\
       requests trace <= MAX_RETRIES /\
       map base (ex_6_products db') = Ex6Csv.clean_products products_raw /\
       ex_6_customers db' = clean_customers customers_raw /\
       ex_6_sales db' = Ex6Csv.clean_sales sales_raw).
Proof.
  split.
  - unfold main.
    destruct products_csv as [p|], customers_csv as [c|], sales_csv as [s|];
      try done.
    by intros [?|[?|?]].
  - intros p c s -> -> ->. unfold main.
    pose proof (fetched_ids_NoDup net) as Hnd.
    unfold fetch_all_product_metadata in *.
    destruct (fetch_loop_bound net (S MAX_RETRIES) 0 0) as (df & trace & Hf & Hr & _);
      [lia|].
    rewrite Hf in Hnd |- *. cbn [fst default] in Hnd.
    eexists. exists trace. split; [reflexivity|].
    rewrite Nat.sub_0_r in Hr. split; [exact Hr|].
    unfold load_to_mariadb. cbn [ex_6_products ex_6_customers ex_6_sales].
    split; [by apply enrich_base|]. by split.
Qed.

End Ex6Pipeline.

Section Ex3Pipeline.
Import Iso Ex3 Ex3Spec Ex3Main.

(** X27.  [main] of ex3 with the three files present, when the date
    parser yields days of the calendar within the Timestamp bounds.  If
    the stored watermark is absent or a day pandas reads, [main]
    finishes: the date handling of the incremental load does not raise
    on what [transform_sales] returns, the products and customers tables
    hold the transformed frames, and the watermark is not older than
    before.  If the stored watermark is a day outside the Timestamp
    bounds, [pd.to_datetime(last_wm)] raises: the products and customers
    tables are replaced by then, the sales table and the state row are
    as they were.  With a CSV file missing, [main] raises and the sink
    is as it was. *)
Theorem ex3_main_finishes `{Externals} (products_raw : list Product.row)
    (customers_raw : list Customer.row) (sales_raw : list Sale.row) (now : Z)
    (w : warehouse) :
  (forall s d, datetime_of_string s = Some d -> valid_date d) ->
  (forall x d, datetime_of_number x = Some d -> valid_date d) ->
  (readable_watermark (incremental w) = true ->
   exists w',
     main (Some products_raw) (Some customers_raw) (Some sales_raw) now w =
       Finished w' /\
     ex_3_products w' = transform_products products_raw /\
     ex_3_customers w' = transform_customers customers_raw /\
     wm_le (get_last_watermark (incremental w))
           (get_last_watermark (incremental w'))) /\
  (readable_watermark (incremental w) = false ->
   main (Some products_raw) (Some customers_raw) (Some sales_raw) now w =
     Raised (Warehouse (transform_products products_raw)
               (transform_customers customers_raw) (incremental w))) /\
  (forall products_csv customers_csv sales_csv,
     products_csv = None \/ customers_csv = None \/ sales_csv = None ->
     main products_csv customers_csv sales_csv now w = Raised w).
Proof.
  intros Hstr Hnum.
  pose proof (transform_sales_cleaned sales_raw Hstr Hnum) as Hc.
  split; [|split].
  - intros Hr. unfold main, load_to_mariadb_incremental.
    cbn [ex_3_products ex_3_customers incremental].
    destruct (load_incremental_sales_watermark now (transform_sales sales_raw)
                (incremental w) Hc Hr)
      as (db' & -> & Hle & _).
    eexists. split; [reflexivity|]. by cbn [ex_3_products ex_3_customers incremental].
  - intros Hbad. unfold main, load_to_mariadb_incremental.
    cbn [ex_3_products ex_3_customers incremental].
    destruct (with_transaction_date_dt_cleaned _ Hc) as (l & Hl & _).
    unfold load_incremental_sales. rewrite Hl. cbn [mbind option_bind].
    unfold readable_watermark in Hbad.
    destruct (get_last_watermark (incremental w)) as [wm|]; [|done].
    unfold to_datetime_date. rewrite Hbad. reflexivity.
  - intros pc cc sc Hmiss. unfold main.
    destruct pc as [p|], cc as [c|], sc as [s|]; try done.
    by destruct Hmiss as [?|[?|?]].
Qed.

(** X27 with a parser that reads [%Y-%m-%d] calendar dates, on an empty
    sink. *)
Lemma ex3_main_finishes_witness :
  (forall s d, @datetime_of_string MoreSamples.externals_valid s = Some d ->
               valid_date d) /\
  (forall x d, @datetime_of_number MoreSamples.externals_valid x = Some d ->
               valid_date d) /\
  readable_watermark (incremental MoreSamples.empty_warehouse) = true /\
  exists w',
    @main MoreSamples.externals_valid (Some Samples.products)
      (Some Samples.customers) (Some MoreSamples.raw_sales) 0
      MoreSamples.empty_warehouse = Finished w'.
Proof.
  assert (Hstr : forall s d,
            @datetime_of_string MoreSamples.externals_valid s = Some d -> valid_date d).
  { intros s d. cbn. destruct (parse_Ymd s) as [d'|]; [|done].
    destruct (valid_dateb d') eqn:Hv; [|done].
    intros [= <-]. by apply valid_dateb_spec. }
  assert (Hnum : forall x d,
            @datetime_of_number MoreSamples.externals_valid x = Some d -> valid_date d)
    by done.
  assert (Hr : readable_watermark (incremental MoreSamples.empty_warehouse) = true)
    by reflexivity.
  split; [exact Hstr|]. split; [exact Hnum|]. split; [exact Hr|].
  destruct (@ex3_main_finishes MoreSamples.externals_valid Samples.products
              Samples.customers MoreSamples.raw_sales 0 MoreSamples.empty_warehouse
              Hstr Hnum) as [Hfin _].
  destruct (Hfin Hr) as (w' & Hw & _).
  by exists w'.
Defined.

End Ex3Pipeline.

(** ** The customers transform of ex2 and ex3 *)

Section TransformCustomers.
Import Dedup CustomerSpec TransformSpec.
Context `{Externals}.

Lemma transform_customers_rows (df : list Customer.row) :
  Ex3.transform_customers df = dedup_customers (map transform_customer_row df).
Proof.
  unfold Ex3.transform_customers. f_equal.
  rewrite update_where, !map_map. apply map_ext. intros r.
  unfold transform_customer_row. set (r0 := Customer.replace_empty r).
  cbn [Customer.customer_id Customer.name Customer.email Customer.country
       Customer.set_email].
  rewrite <- checked_email_steps. cbn zeta.
  destruct (astype_string (Customer.email r0)) as [| |s|x]; try reflexivity.
  by destruct (email_pattern_match s).
Qed.

(** X28.  [transform_customers] checks the e-mail of every row and then
    resolves duplicates; it neither trims the customer_id nor looks at the
    name.  Its output has one row for each customer_id that is not
    missing, so the rows without customer_id are left out; in every output
    row the email is missing or fits the e-mail pattern, and no field is
    the empty text. *)
Theorem transform_customers_rows_ok (df : list Customer.row) :
  let rows := map transform_customer_row df in
  let out := Ex3.transform_customers df in
  out = dedup_customers rows /\
  NoDup (map Customer.customer_id out) /\
  (forall k, k ∈ map Customer.customer_id out <->
             notna k = true /\ k ∈ map Customer.customer_id rows) /\
  Forall transformed_customer_ok out.
Proof.
  intros rows out. unfold out. rewrite transform_customers_rows. fold rows.
  split; [done|]. rewrite dedup_customers_keys.
  split; [apply group_keys_NoDup|]. split; [intros k; apply elem_of_group_keys|].
  apply Forall_forall. intros r Hr.
  assert (notna (Customer.customer_id r) = true) as Hid.
  { apply elem_of_dedup_customers in Hr as (k & Hk & Hr).
    apply choose_best_record_key in Hr as ->.
    by apply elem_of_group_keys in Hk as [? _]. }
  apply dedup_customers_subset in Hr.
  apply list_elem_of_fmap in Hr as (r0 & -> & _).
  unfold transformed_customer_ok, transform_customer_row in *.
  cbn [Customer.customer_id Customer.name Customer.email Customer.country
       Customer.replace_empty] in *.
  split; [done|]. split; [apply checked_email_ok|].
  repeat split; apply replace_empty_not_empty.
Qed.

End TransformCustomers.
